(** * Balance: billing-cycle resolver and statement aggregation

    A shallow embedding of [app.py] and [models.py]: the proleptic Gregorian
    calendar of Python's [datetime] and [calendar] modules, the cycle
    resolver [get_current_cycle_start], the three tables of the database and
    the request handlers that read and write them. *)

From Stdlib Require Import ZArith List Bool Lia String PrimFloat Permutation
  Sorted.
Import ListNotations.
Local Open Scope Z_scope.

(** ** Exceptions

    The handlers never catch anything, so an exception ends the computation
    with the exception's class. *)

Inductive exn : Type :=
| ValueError
| OverflowError
| TypeError
| AttributeError
| IntegrityError
| IllegalMonthError.

Inductive result (A : Type) : Type :=
| Ok (a : A)
| Raise (e : exn).

Arguments Ok {A} a.
Arguments Raise {A} e.

Definition bind {A B : Type} (r : result A) (k : A -> result B) : result B :=
  match r with
  | Ok a => k a
  | Raise e => Raise e
  end.

Notation "x <- r ;; k" := (bind r (fun x => k))
  (at level 61, r at next level, right associativity).

(** ** The calendar ([calendar.py], [datetime.py]) *)

Module Calendar.

Definition MINYEAR : Z := 1.
Definition MAXYEAR : Z := 9999.

(** [calendar.isleap] / [datetime._is_leap] *)
Definition isleap (y : Z) : bool :=
  (y mod 4 =? 0) && (negb (y mod 100 =? 0) || (y mod 400 =? 0)).

(** [calendar.mdays] / [datetime._DAYS_IN_MONTH]; index 0 is a placeholder. *)
Definition mdays (m : Z) : Z :=
  match m with
  | 1 => 31 | 2 => 28 | 3 => 31 | 4 => 30 | 5 => 31 | 6 => 30
  | 7 => 31 | 8 => 31 | 9 => 30 | 10 => 31 | 11 => 30 | 12 => 31
  | _ => 0
  end.

(** [datetime._DAYS_BEFORE_MONTH] *)
Definition DAYS_BEFORE_MONTH (m : Z) : Z :=
  match m with
  | 1 => 0 | 2 => 31 | 3 => 59 | 4 => 90 | 5 => 120 | 6 => 151
  | 7 => 181 | 8 => 212 | 9 => 243 | 10 => 273 | 11 => 304 | 12 => 334
  | _ => 0
  end.

(** [datetime._days_in_month] *)
Definition days_in_month (y m : Z) : Z :=
  if (m =? 2) && isleap y then 29 else mdays m.

(** Second component of [calendar.monthrange(y, m)]; the month is checked
    first, the weekday of the first component is not used by the caller. *)
Definition monthrange_last (y m : Z) : result Z :=
  if (1 <=? m) && (m <=? 12)
  then Ok (mdays m + (if (m =? 2) && isleap y then 1 else 0))
  else Raise IllegalMonthError.

(** [datetime._days_before_year] *)
Definition days_before_year (y : Z) : Z :=
  let y' := y - 1 in
  y' * 365 + y' / 4 - y' / 100 + y' / 400.

(** [datetime._days_before_month] *)
Definition days_before_month (y m : Z) : Z :=
  DAYS_BEFORE_MONTH m + (if (2 <? m) && isleap y then 1 else 0).

(** [datetime._ymd2ord] *)
Definition ymd2ord (y m d : Z) : Z :=
  days_before_year y + days_before_month y m + d.

Definition DI400Y : Z := 146097.
Definition DI100Y : Z := 36524.
Definition DI4Y : Z := 1461.
Definition MAXORDINAL : Z := 3652059.

(** [datetime._ord2ymd] *)
Definition ord2ymd (n : Z) : Z * Z * Z :=
  let n := n - 1 in
  let n400 := n / DI400Y in
  let n := n mod DI400Y in
  let year := n400 * 400 + 1 in
  let n100 := n / DI100Y in
  let n := n mod DI100Y in
  let n4 := n / DI4Y in
  let n := n mod DI4Y in
  let n1 := n / 365 in
  let n := n mod 365 in
  let year := year + n100 * 100 + n4 * 4 + n1 in
  if (n1 =? 4) || (n100 =? 4) then (year - 1, 12, 31)
  else
    let leapyear := (n1 =? 3) && (negb (n4 =? 24) || (n100 =? 3)) in
    let month := Z.shiftr (n + 50) 5 in
    let preceding :=
      DAYS_BEFORE_MONTH month + (if (2 <? month) && leapyear then 1 else 0) in
    if n <? preceding then
      let month := month - 1 in
      let preceding :=
        preceding - (mdays month + (if (month =? 2) && leapyear then 1 else 0)) in
      (year, month, n - preceding + 1)
    else (year, month, n - preceding + 1).

End Calendar.

(** ** [datetime.date] *)

Record date : Type := mkdate { year : Z; month : Z; day : Z }.

Module Date.
Import Calendar.

(** The range check of the constructor ([_check_date_fields]). *)
Definition valid_fields (y m d : Z) : bool :=
  (MINYEAR <=? y) && (y <=? MAXYEAR) &&
  (1 <=? m) && (m <=? 12) &&
  (1 <=? d) && (d <=? days_in_month y m).

Definition valid (t : date) : Prop :=
  valid_fields (year t) (month t) (day t) = true.

(** The constructor reads its three arguments as C [int]s before it checks
    their ranges. *)
Definition c_int (v : Z) : bool := (- 2 ^ 31 <=? v) && (v <? 2 ^ 31).

(** [datetime.date(y, m, d)]: an argument that does not fit a C [int] raises
    [OverflowError], a field out of its range [ValueError]. *)
Definition make (y m d : Z) : result date :=
  if c_int y && c_int m && c_int d then
    if valid_fields y m d then Ok (mkdate y m d) else Raise ValueError
  else Raise OverflowError.

Definition toordinal (t : date) : Z := ymd2ord (year t) (month t) (day t).

(** [date.fromordinal]: the fields go through the constructor. *)
Definition fromordinal (n : Z) : result date :=
  let '(y, m, d) := ord2ymd n in make y m d.

(** [date.__add__] with a [timedelta] of whole days. *)
Definition add_days (t : date) (days : Z) : result date :=
  let o := toordinal t + days in
  if (0 <? o) && (o <=? MAXORDINAL) then fromordinal o
  else Raise OverflowError.

(** [date.__sub__] with a [timedelta] of whole days. *)
Definition sub_days (t : date) (days : Z) : result date :=
  add_days t (- days).

(** Comparison is that of the triples (year, month, day). *)
Definition cmp (a b : date) : comparison :=
  match year a ?= year b with
  | Eq => match month a ?= month b with
          | Eq => day a ?= day b
          | c => c
          end
  | c => c
  end.

Definition eqb (a b : date) : bool :=
  match cmp a b with Eq => true | _ => false end.
Definition ltb (a b : date) : bool :=
  match cmp a b with Lt => true | _ => false end.
Definition leb (a b : date) : bool :=
  match cmp a b with Gt => false | _ => true end.

Definition geb (a b : date) : bool := leb b a.

Definition lt (a b : date) : Prop := ltb a b = true.
Definition le (a b : date) : Prop := leb a b = true.

End Date.

(** ** The cycle resolver ([app.py], [get_current_cycle_start]) *)

(** The nested helper [get_actual_day]. *)
Definition get_actual_day (y m d : Z) : result Z :=
  last_day <- Calendar.monthrange_last y m ;;
  Ok (Z.min d last_day).

(** [clock] is what [datetime.date.today()] would return during the call;
    [today] is the optional argument, [None] when the caller omits it.  Every
    caller passes the anchor day, so its default of 8 is not modelled. *)
Definition get_current_cycle_start (clock : date) (day_ : Z) (today : option date)
  : result date :=
  let today := match today with None => clock | Some t => t end in
  current_target_day <- get_actual_day (year today) (month today) day_ ;;
  if day today >=? current_target_day then
    Date.make (year today) (month today) current_target_day
  else
    first_of_this_month <- Date.make (year today) (month today) 1 ;;
    last_of_prev_month <- Date.sub_days first_of_this_month 1 ;;
    prev_target_day <-
      get_actual_day (year last_of_prev_month) (month last_of_prev_month) day_ ;;
    Date.make (year last_of_prev_month) (month last_of_prev_month) prev_target_day.

(** The resolver at an explicit reference date. *)
Definition resolve (d : Z) (today : date) : result date :=
  get_current_cycle_start today d (Some today).


(** ** The tables ([models.py]) *)

Record time : Type :=
  mktime { hour : Z; minute : Z; second : Z; microsecond : Z }.

Module Time.

Definition cmp (a b : time) : comparison :=
  match hour a ?= hour b with
  | Eq => match minute a ?= minute b with
          | Eq => match second a ?= second b with
                  | Eq => microsecond a ?= microsecond b
                  | c => c
                  end
          | c => c
          end
  | c => c
  end.

Definition geb (a b : time) : bool :=
  match cmp a b with Lt => false | _ => true end.

End Time.

Module User.
Record t : Type := mk {
  id : Z;
  username : string;
  password_hash : string;
  salary_credit_day : Z
}.
End User.

Module MonthlyBudget.
Record t : Type := mk {
  id : Z;
  user_id : Z;
  month_start_date : date;
  salary_credited : float
}.
End MonthlyBudget.

Module Transaction.
Record t : Type := mk {
  id : Z;
  user_id : Z;
  date : date;
  time : time;
  amount : float;
  description : string
}.
End Transaction.

(** The database: one list of rows per table, in insertion order. *)
Record db : Type := mkdb {
  users : list User.t;
  budgets : list MonthlyBudget.t;
  transactions : list Transaction.t
}.

Definition empty_db : db := mkdb [] [] [].

(** The integer primary key given to a new row: one more than the largest
    key of the table. *)
Definition next_id (ids : list Z) : Z := 1 + fold_right Z.max 0 ids.

(** What the database takes at a commit.  It is the SQLite file the
    configuration falls back to when [DATABASE_URL] is not set
    ([sqlite:///balance.db]).  An [Integer] is stored in 64 bits, and binding
    a Python [int] outside of them raises [OverflowError] before the
    statement runs.  A [Float] that is a NaN is bound as NULL, which a column
    that is not nullable refuses with [IntegrityError]. *)
Definition sqlite_integer (v : Z) : bool := (- 2 ^ 63 <=? v) && (v <? 2 ^ 63).

Definition sqlite_float (f : float) : bool := negb (PrimFloat.is_nan f).

(** [ORDER BY]: a stable insertion sort by the given order. *)
Fixpoint insert_by {A : Type} (le : A -> A -> bool) (x : A) (l : list A)
  : list A :=
  match l with
  | [] => [x]
  | y :: l' => if le x y then x :: l else y :: insert_by le x l'
  end.

Definition order_by {A : Type} (le : A -> A -> bool) (l : list A) : list A :=
  fold_right (insert_by le) [] l.

(** [Transaction.date.desc(), Transaction.time.desc()] *)
Definition date_time_desc (a b : Transaction.t) : bool :=
  match Date.cmp (Transaction.date a) (Transaction.date b) with
  | Gt => true
  | Eq => Time.geb (Transaction.time a) (Transaction.time b)
  | Lt => false
  end.

(** [Transaction.date.asc()] *)
Definition date_asc (a b : Transaction.t) : bool :=
  Date.leb (Transaction.date a) (Transaction.date b).

(** The built-in [sum] over the amounts, binary64 floats: additions from
    zero, left to right.  (CPython from 3.12 on also carries a compensation
    term for the rounding errors; it is zero when the additions are exact.) *)
Definition sum_amounts (l : list float) : float :=
  fold_left PrimFloat.add l 0%float.

(** ** Requests and responses *)

(** A form field read with [request.form.get]: missing ([None]), the empty
    string, a string that does not parse as a number, or one that does. *)
Inductive field (A : Type) : Type :=
| Missing
| Empty
| Malformed
| Parsed (a : A).

Arguments Missing {A}.
Arguments Empty {A}.
Arguments Malformed {A}.
Arguments Parsed {A} a.

(** [int(x)] and [float(x)] on a form field. *)
Definition convert {A : Type} (f : field A) : result A :=
  match f with
  | Missing => Raise TypeError
  | Empty | Malformed => Raise ValueError
  | Parsed a => Ok a
  end.

(** Truth value of the field's string. *)
Definition truthy {A : Type} (f : field A) : bool :=
  match f with
  | Missing | Empty => false
  | Malformed | Parsed _ => true
  end.

Inductive method : Type := GET | POST.

Inductive endpoint : Type :=
| ep_index
| ep_login
| ep_register
| ep_set_budget.

Inductive flash_msg : Type :=
| PleaseLogIn
| UsernameExists
| ProfileUpdated
| NoDataForMonth (first_of_month : date)
| NoDataCurrentCycle.

(** The keyword arguments [index] hands to [render_template] for
    [index.html]. The template context has one more entry,
    [available_budgets], which the context processor [inject_budgets] adds to
    every template. *)
Record index_context : Type := mkindex {
  ix_budget : MonthlyBudget.t;
  ix_transactions : list Transaction.t;
  ix_total_spent : float;
  ix_remaining_balance : float;
  ix_cycle_start : date
}.

(** What the PDF of [download_statement] is drawn from.  The drawing itself
    is left out: it adds nothing to these data, and the library refuses text
    that the core font cannot show (characters outside Latin-1). *)
Record statement : Type := mkstatement {
  st_operator : string;
  st_cycle_start : date;
  st_budget : MonthlyBudget.t;
  st_transactions : list Transaction.t;
  st_total_spent : float;
  st_remaining_balance : float
}.

Inductive response : Type :=
| Redirect (target : endpoint) (flashed : list flash_msg) (login_as : option Z)
| RenderRegister
| RenderSetBudget (cycle_start : date)
| RenderIndex (ctx : index_context)
| SendStatement (st : statement).

(** What the system clock shows while a request is served. *)
Record env : Type := mkenv { clock_date : date; clock_time : time }.

(** ** The handlers ([app.py])

    A handler maps the database to the database after the request and the
    response, or the exception that ended the request.  What a handler has
    committed before an exception stays in the database.  The routes [login]
    and [logout] and the context processor [inject_budgets] neither resolve a
    cycle nor write to the database, and are left out. *)

Definition handler : Type := db -> db * result response.

(** [load_user]: the session cookie holds the user's id. *)
Definition load_user (s : db) (session : option Z) : option User.t :=
  match session with
  | None => None
  | Some uid => find (fun u => User.id u =? uid) (users s)
  end.

(** [@login_required] *)
Definition login_required (session : option Z) (view : User.t -> handler)
  : handler :=
  fun s =>
    match load_user s session with
    | Some current_user => view current_user s
    | None => (s, Ok (Redirect ep_login [PleaseLogIn] None))
    end.

(** [MonthlyBudget.query.filter_by(user_id=..., month_start_date=...).first()] *)
Definition budget_of_cycle (s : db) (uid : Z) (cycle_start : date)
  : option MonthlyBudget.t :=
  find (fun b => (MonthlyBudget.user_id b =? uid) &&
                 Date.eqb (MonthlyBudget.month_start_date b) cycle_start)
       (budgets s).

(** The budget whose start date lies in the given calendar month. *)
Definition budget_of_month (s : db) (uid : Z) (y m : Z)
  : option MonthlyBudget.t :=
  find (fun b => (MonthlyBudget.user_id b =? uid) &&
                 (year (MonthlyBudget.month_start_date b) =? y) &&
                 (month (MonthlyBudget.month_start_date b) =? m))
       (budgets s).

Definition index (e : env) (session : option Z) : handler :=
  login_required session (fun current_user s =>
    (s,
     cycle_start <-
       get_current_cycle_start (clock_date e)
         (User.salary_credit_day current_user) None ;;
     match budget_of_cycle s (User.id current_user) cycle_start with
     | None => Ok (Redirect ep_set_budget [] None)
     | Some budget =>
         let transactions :=
           order_by date_time_desc
             (filter (fun t =>
                        (Transaction.user_id t =? User.id current_user) &&
                        Date.geb (Transaction.date t) cycle_start)
                     (transactions s)) in
         let total_spent := sum_amounts (map Transaction.amount transactions) in
         let remaining_balance :=
           PrimFloat.sub (MonthlyBudget.salary_credited budget) total_spent in
         Ok (RenderIndex
               (mkindex budget transactions total_spent remaining_balance
                  cycle_start))
     end)).

(** [hash] stands for [generate_password_hash]. *)
Definition register (hash : string -> string) (e : env) (meth : method)
  (username password : option string) (salary : field float)
  (billing_cycle : field Z) : handler :=
  fun s =>
    match meth with
    | GET => (s, Ok RenderRegister)
    | POST =>
        if existsb (fun u =>
                      match username with
                      | Some name => String.eqb (User.username u) name
                      | None => false
                      end) (users s)
        then (s, Ok (Redirect ep_register [UsernameExists] None))
        else
          match password with
          | None => (s, Raise AttributeError)
          | Some pw =>
              match convert billing_cycle with
              | Raise x => (s, Raise x)
              | Ok credit_day =>
                  if negb (sqlite_integer credit_day)
                  then (s, Raise OverflowError)
                  else
                  match username with
                  | None => (s, Raise IntegrityError)
                  | Some name =>
                      let user :=
                        User.mk (next_id (map User.id (users s))) name
                          (hash pw) credit_day in
                      let s1 :=
                        mkdb (users s ++ [user]) (budgets s) (transactions s) in
                      (* Set initial budget *)
                      match get_current_cycle_start (clock_date e) credit_day None
                      with
                      | Raise x => (s1, Raise x)
                      | Ok cycle_start =>
                          match convert salary with
                          | Raise x => (s1, Raise x)
                          | Ok credited =>
                              if negb (sqlite_float credited)
                              then (s1, Raise IntegrityError)
                              else
                              let budget :=
                                MonthlyBudget.mk
                                  (next_id (map MonthlyBudget.id (budgets s1)))
                                  (User.id user) cycle_start credited in
                              (mkdb (users s1) (budgets s1 ++ [budget])
                                 (transactions s1),
                               Ok (Redirect ep_index [] (Some (User.id user))))
                          end
                      end
                  end
              end
          end
    end.

Definition set_budget (e : env) (session : option Z) (meth : method)
  (salary : field float) : handler :=
  login_required session (fun current_user s =>
    match get_current_cycle_start (clock_date e)
            (User.salary_credit_day current_user) None with
    | Raise x => (s, Raise x)
    | Ok cycle_start =>
        match meth with
        | POST =>
            match convert salary with
            | Raise x => (s, Raise x)
            | Ok credited =>
                if negb (sqlite_float credited) then (s, Raise IntegrityError)
                else
                let budget :=
                  MonthlyBudget.mk (next_id (map MonthlyBudget.id (budgets s)))
                    (User.id current_user) cycle_start credited in
                (mkdb (users s) (budgets s ++ [budget]) (transactions s),
                 Ok (Redirect ep_index [] None))
            end
        | GET => (s, Ok (RenderSetBudget cycle_start))
        end
    end).

Definition add_transaction (e : env) (session : option Z)
  (amount : field float) (description : option string) : handler :=
  login_required session (fun current_user s =>
    match convert amount with
    | Raise x => (s, Raise x)
    | Ok spent =>
        match description with
        | None => (s, Raise IntegrityError)
        | Some text =>
            if negb (sqlite_float spent) then (s, Raise IntegrityError)
            else
            let new_transaction :=
              Transaction.mk (next_id (map Transaction.id (transactions s)))
                (User.id current_user) (clock_date e) (clock_time e) spent text in
            (mkdb (users s) (budgets s) (transactions s ++ [new_transaction]),
             Ok (Redirect ep_index [] None))
        end
    end).

Definition set_credit_day (uid credit_day : Z) (u : User.t) : User.t :=
  if User.id u =? uid
  then User.mk (User.id u) (User.username u) (User.password_hash u) credit_day
  else u.

Definition update_profile (session : option Z) (billing_cycle : field Z)
  : handler :=
  login_required session (fun current_user s =>
    if truthy billing_cycle then
      match convert billing_cycle with
      | Raise x => (s, Raise x)
      | Ok credit_day =>
          if negb (sqlite_integer credit_day) then (s, Raise OverflowError)
          else
          (mkdb (map (set_credit_day (User.id current_user) credit_day) (users s))
             (budgets s) (transactions s),
           Ok (Redirect ep_index [ProfileUpdated] None))
      end
    else (s, Ok (Redirect ep_index [] None))).

(** Truth value of an optional integer query argument. *)
Definition nonzero (a : option Z) : option Z :=
  match a with
  | Some v => if v =? 0 then None else Some v
  | None => None
  end.

Definition download_statement (e : env) (session : option Z)
  (year_ month_ : option Z) : handler :=
  login_required session (fun current_user s =>
    (s,
     let uid := User.id current_user in
     let credit_day := User.salary_credit_day current_user in
     selected <-
       match nonzero year_, nonzero month_ with
       | Some y, Some m =>
           (* Find the budget that started in that specific month *)
           match budget_of_month s uid y m with
           | None =>
               first_of_month <- Date.make y m 1 ;;
               Ok (inl (Redirect ep_index [NoDataForMonth first_of_month] None))
           | Some budget =>
               Ok (inr (MonthlyBudget.month_start_date budget, Some budget))
           end
       | _, _ =>
           cycle_start <- get_current_cycle_start (clock_date e) credit_day None ;;
           Ok (inr (cycle_start, budget_of_cycle s uid cycle_start))
       end ;;
     match selected with
     | inl early => Ok early
     | inr (_, None) => Ok (Redirect ep_index [NoDataCurrentCycle] None)
     | inr (cycle_start, Some budget) =>
         (* Determine the end of the selected cycle *)
         next_month_date <- Date.add_days cycle_start 32 ;;
         next_cycle_start <-
           get_current_cycle_start (clock_date e) credit_day
             (Some next_month_date) ;;
         let transactions :=
           order_by date_asc
             (filter (fun t =>
                        (Transaction.user_id t =? uid) &&
                        Date.geb (Transaction.date t) cycle_start &&
                        Date.ltb (Transaction.date t) next_cycle_start)
                     (transactions s)) in
         let total_spent := sum_amounts (map Transaction.amount transactions) in
         let remaining_balance :=
           PrimFloat.sub (MonthlyBudget.salary_credited budget) total_spent in
         Ok (SendStatement
               (mkstatement (User.username current_user) cycle_start budget
                  transactions total_spent remaining_balance))
     end)).

(** ** The system as a transition system *)

Inductive request : Type :=
| ReqIndex (session : option Z)
| ReqRegister (meth : method) (username password : option string)
    (salary : field float) (billing_cycle : field Z)
| ReqSetBudget (session : option Z) (meth : method) (salary : field float)
| ReqAddTransaction (session : option Z) (amount : field float)
    (description : option string)
| ReqUpdateProfile (session : option Z) (billing_cycle : field Z)
| ReqDownloadStatement (session : option Z) (year_ month_ : option Z).

Definition handle (hash : string -> string) (e : env) (r : request) : handler :=
  match r with
  | ReqIndex session => index e session
  | ReqRegister meth username password salary billing_cycle =>
      register hash e meth username password salary billing_cycle
  | ReqSetBudget session meth salary => set_budget e session meth salary
  | ReqAddTransaction session amount description =>
      add_transaction e session amount description
  | ReqUpdateProfile session billing_cycle =>
      update_profile session billing_cycle
  | ReqDownloadStatement session year_ month_ =>
      download_statement e session year_ month_
  end.

(** The clock only shows calendar dates. *)
Definition env_ok (e : env) : Prop := Date.valid (clock_date e).

(** The states reached from the empty database by serving requests. *)
Inductive reachable (hash : string -> string) : db -> Prop :=
| reachable_empty : reachable hash empty_db
| reachable_step (e : env) (r : request) (s : db) :
    env_ok e -> reachable hash s -> reachable hash (fst (handle hash e r s)).

(** ** Properties stated by the design *)

(** An allocation row of the user that starts on the date. *)
Definition allocated (uid : Z) (cycle_start : date) (b : MonthlyBudget.t)
  : bool :=
  (MonthlyBudget.user_id b =? uid) &&
  Date.eqb (MonthlyBudget.month_start_date b) cycle_start.

(** The number of allocation rows of a user that start on a given date. *)
Definition allocations (s : db) (uid : Z) (cycle_start : date) : nat :=
  List.length (filter (allocated uid cycle_start) (budgets s)).

Definition at_most_one_allocation (s : db) : Prop :=
  forall uid cycle_start, (allocations s uid cycle_start <= 1)%nat.

(** The month after the month of a date, as (year, month). *)
Definition following_month (t : date) : Z * Z :=
  if month t =? 12 then (year t + 1, 1) else (year t, month t + 1).

(** The month before the month of a date, as (year, month). *)
Definition preceding_month (t : date) : Z * Z :=
  if month t =? 1 then (year t - 1, 12) else (year t, month t - 1).

(** The anchor day clamped to the length of a month. *)
Definition target_day (d y m : Z) : Z := Z.min d (Calendar.days_in_month y m).

(** The start of the cycle after the one that begins in the month of [s]. *)
Definition next_cycle_start_of (d : Z) (s : date) : date :=
  let '(y, m) := following_month s in mkdate y m (target_day d y m).

(** The resolver as the design describes it, on calendar dates and anchors
    from 1: the clamped day of the reference month once it is reached,
    otherwise the clamped day of the month before. *)
Definition resolve_design (d : Z) (today : date) : date :=
  if day today >=? target_day d (year today) (month today)
  then mkdate (year today) (month today)
         (target_day d (year today) (month today))
  else let '(y, m) := preceding_month today in mkdate y m (target_day d y m).

(** The reference dates at which the month before is not a month of the
    calendar: January of year 1, before the anchor day. *)
Definition before_first_month (d : Z) (today : date) : bool :=
  (year today =? 1) && (month today =? 1) &&
  (day today <? target_day d 1 1).

(** The error of the resolver for an anchor day of 0 or less, which reaches
    the date constructor as the day of month: [ValueError], and
    [OverflowError] for an anchor that does not fit a C [int]. *)
Definition anchor_error (d : Z) : exn :=
  if Date.c_int d then ValueError else OverflowError.

(** Where 32 days after a date lie: in the month after, or past its end in
    the month after that. *)
Definition landing (s : date) : date :=
  let '(y1, m1) := following_month s in
  let x := day s + 32 - Calendar.days_in_month (year s) (month s) in
  if x <=? Calendar.days_in_month y1 m1 then mkdate y1 m1 x
  else let '(y2, m2) := following_month (mkdate y1 m1 x) in
       mkdate y2 m2 (x - Calendar.days_in_month y1 m1).


(** The transactions a statement of [uid] from [cycle_start] to
    [next_cycle_start] is made of. *)
Definition in_statement (uid : Z) (cycle_start next_cycle_start : date)
  (t : Transaction.t) : bool :=
  (Transaction.user_id t =? uid) &&
  Date.geb (Transaction.date t) cycle_start &&
  Date.ltb (Transaction.date t) next_cycle_start.

(** The transactions the home view of [uid] from [cycle_start] is made of. *)
Definition in_open_cycle (uid : Z) (cycle_start : date) (t : Transaction.t)
  : bool :=
  (Transaction.user_id t =? uid) && Date.geb (Transaction.date t) cycle_start.


(** ** A sample run

    A user with anchor day 8 registers on 10 February 2024 with a credit of
    1000, spends 100.50 that day and 40.00 on 5 March, sets the budget of the
    next cycle on 8 March and spends 25.00 that day. *)

Definition demo_hash (password : string) : string := password.

Definition demo_clock (y m d : Z) : env := mkenv (mkdate y m d) (mktime 12 0 0 0).

Definition demo_requests : list (env * request) :=
  [ (demo_clock 2024 2 10,
     ReqRegister POST (Some "asha"%string) (Some "secret"%string)
       (Parsed 1000%float) (Parsed 8));
    (demo_clock 2024 2 10,
     ReqAddTransaction (Some 1) (Parsed 100.5%float) (Some "rent"%string));
    (demo_clock 2024 3 5,
     ReqAddTransaction (Some 1) (Parsed 40%float) (Some "food"%string));
    (demo_clock 2024 3 8, ReqSetBudget (Some 1) POST (Parsed 1200%float));
    (demo_clock 2024 3 8,
     ReqAddTransaction (Some 1) (Parsed 25%float) (Some "bus"%string)) ].

(** Serving requests one after the other. *)
Definition serve (hash : string -> string) (rs : list (env * request)) (s : db)
  : db :=
  fold_left (fun s er => fst (handle hash (fst er) (snd er) s)) rs s.

Definition demo_db : db := serve demo_hash demo_requests empty_db.

(** The sample run after its first three requests, before the budget of the
    second cycle is set. *)
Definition demo_early : db := serve demo_hash (firstn 3 demo_requests) empty_db.

(** The same user, having posted a second budget for the cycle of the
    registration. *)
Definition demo_twice : db :=
  serve demo_hash
    [ (demo_clock 2024 2 10,
       ReqRegister POST (Some "asha"%string) (Some "secret"%string)
         (Parsed 1000%float) (Parsed 8));
      (demo_clock 2024 2 11, ReqSetBudget (Some 1) POST (Parsed 500%float)) ]
    empty_db.

(** Every allocation row belongs to a user row (the foreign key). *)
Definition budgets_owned (s : db) : Prop :=
  forall b, In b (budgets s) ->
            In (MonthlyBudget.user_id b) (map User.id (users s)).

(** The user has no allocation for the cycle the clock's date lies in: the
    state in which the home view sends the user to the budget page. *)
Definition no_current_allocation (e : env) (session : option Z) (s : db)
  : Prop :=
  forall current_user cycle_start,
    load_user s session = Some current_user ->
    get_current_cycle_start (clock_date e)
      (User.salary_credit_day current_user) None = Ok cycle_start ->
    budget_of_cycle s (User.id current_user) cycle_start = None.

(** ** The remaining routes ([app.py]) *)

(** What [login] answers: the redirect to the home view with the session of
    the user, or the login page, with or without the notice of invalid
    credentials. *)
Inductive login_response : Type :=
| LoginRedirect (target : endpoint) (login_as : Z)
| LoginPage (invalid_notice : bool).

(** [User.query.filter_by(username=username).first()] *)
Definition user_of_name (s : db) (username : option string) : option User.t :=
  find (fun u =>
          match username with
          | Some name => String.eqb (User.username u) name
          | None => false
          end) (users s).

(** [check] stands for [check_password_hash], called with the stored hash
    and the password field as it came; it is only called when the user
    exists. *)
Definition login (check : string -> option string -> result bool)
  (meth : method) (username password : option string) (s : db)
  : db * result login_response :=
  match meth with
  | POST =>
      match user_of_name s username with
      | Some user =>
          match check (User.password_hash user) password with
          | Raise x => (s, Raise x)
          | Ok true => (s, Ok (LoginRedirect ep_index (User.id user)))
          | Ok false => (s, Ok (LoginPage true))
          end
      | None => (s, Ok (LoginPage true))
      end
  | GET => (s, Ok (LoginPage false))
  end.

(** [MonthlyBudget.month_start_date.desc()] *)
Definition start_desc (a b : MonthlyBudget.t) : bool :=
  Date.geb (MonthlyBudget.month_start_date a) (MonthlyBudget.month_start_date b).

(** The context processor: [available_budgets] of every template. *)
Definition inject_budgets (session : option Z) (s : db)
  : list MonthlyBudget.t :=
  match load_user s session with
  | Some current_user =>
      order_by start_desc
        (filter (fun b => MonthlyBudget.user_id b =? User.id current_user)
           (budgets s))
  | None => []
  end.

(** ** What a request can do to the database *)

(** One write: a user row under a new name, an allocation or a transaction
    of an existing user, or a new anchor day for a user. *)
Inductive effect (s : db) : db -> Prop :=
| effect_none : effect s s
| effect_user (u : User.t) :
    User.id u = next_id (map User.id (users s)) ->
    ~ In (User.username u) (map User.username (users s)) ->
    effect s (mkdb (users s ++ [u]) (budgets s) (transactions s))
| effect_budget (b : MonthlyBudget.t) :
    MonthlyBudget.id b = next_id (map MonthlyBudget.id (budgets s)) ->
    In (MonthlyBudget.user_id b) (map User.id (users s)) ->
    effect s (mkdb (users s) (budgets s ++ [b]) (transactions s))
| effect_transaction (t : Transaction.t) :
    Transaction.id t = next_id (map Transaction.id (transactions s)) ->
    In (Transaction.user_id t) (map User.id (users s)) ->
    effect s (mkdb (users s) (budgets s) (transactions s ++ [t]))
| effect_credit_day (uid credit_day : Z) :
    effect s (mkdb (map (set_credit_day uid credit_day) (users s))
                (budgets s) (transactions s)).

(** Keys and names that identify one row each. *)
Definition keys_unique (s : db) : Prop :=
  NoDup (map User.id (users s)) /\
  NoDup (map User.username (users s)) /\
  NoDup (map MonthlyBudget.id (budgets s)) /\
  NoDup (map Transaction.id (transactions s)).

(** Every allocation and transaction belongs to a user row and carries a
    calendar date. *)
Definition rows_sound (s : db) : Prop :=
  (forall b, In b (budgets s) ->
             In (MonthlyBudget.user_id b) (map User.id (users s)) /\
             Date.valid (MonthlyBudget.month_start_date b)) /\
  (forall t, In t (transactions s) ->
             In (Transaction.user_id t) (map User.id (users s)) /\
             Date.valid (Transaction.date t)).

(** A user row but for its anchor day. *)
Definition identity (u : User.t) : Z * string * string :=
  (User.id u, User.username u, User.password_hash u).

(** A password check for the sample run, where the hash of a password is the
    password. *)
Definition demo_check (pwhash : string) (password : option string)
  : result bool :=
  match password with
  | Some pw => Ok (String.eqb pwhash pw)
  | None => Raise AttributeError
  end.

(** * Tactics *)

(** Case analysis on a month number known to lie between 1 and 12. *)
Ltac each_month m :=
  let H := fresh "Hcases" in
  assert (H : m = 1 \/ m = 2 \/ m = 3 \/ m = 4 \/ m = 5 \/ m = 6 \/
              m = 7 \/ m = 8 \/ m = 9 \/ m = 10 \/ m = 11 \/ m = 12) by lia;
  repeat (destruct H as [-> | H]); try subst m.

(** Evaluation of the arithmetic and tests on literals, leaving the rest of
    the goal as it is. *)
Ltac eval_closed :=
  repeat match goal with
  | |- context [Z.sub (Zpos ?a) (Zpos ?b)] =>
      let v := eval cbv in (Z.sub (Zpos a) (Zpos b)) in
      change (Z.sub (Zpos a) (Zpos b)) with v
  | |- context [Z.add (Zpos ?a) (Zpos ?b)] =>
      let v := eval cbv in (Z.add (Zpos a) (Zpos b)) in
      change (Z.add (Zpos a) (Zpos b)) with v
  | |- context [Z.ltb (Zpos ?a) (Zpos ?b)] =>
      let v := eval cbv in (Z.ltb (Zpos a) (Zpos b)) in
      change (Z.ltb (Zpos a) (Zpos b)) with v
  | |- context [Z.eqb ?x (Zpos ?b)] =>
      match x with
      | Zpos _ => idtac
      | Z0 => idtac
      end;
      let v := eval cbv in (Z.eqb x (Zpos b)) in
      change (Z.eqb x (Zpos b)) with v
  end.

(** Reduction of the table lookups and tests on literals. *)
Ltac eval_tables :=
  cbn [Calendar.DAYS_BEFORE_MONTH Calendar.mdays Z.eqb Z.ltb Z.compare
       Pos.compare Pos.compare_cont Pos.eqb andb] in *.

(** * Facts about the calendar *)

Section CalendarFacts.
Import Calendar.

Lemma year_split (y : Z) :
  1 <= y ->
  exists a b c e, y - 1 = 400 * a + 100 * b + 4 * c + e /\
    0 <= a /\ 0 <= b < 4 /\ 0 <= c < 25 /\ 0 <= e < 4.
Proof.
  intros Hy.
  exists ((y - 1) / 400), ((y - 1) mod 400 / 100),
    ((y - 1) mod 400 mod 100 / 4), ((y - 1) mod 400 mod 100 mod 4).
  Z.to_euclidean_division_equations. lia.
Qed.

Lemma isleap_split a b c e :
  0 <= a -> 0 <= b < 4 -> 0 <= c < 25 -> 0 <= e < 4 ->
  isleap (400 * a + 100 * b + 4 * c + e + 1) =
  (e =? 3) && (negb (c =? 24) || (b =? 3)).
Proof.
  intros. unfold isleap.
  set (y := 400 * a + 100 * b + 4 * c + e + 1).
  replace (y mod 4) with ((e + 1) mod 4)
    by (apply Z.mod_unique with (q := 100 * a + 25 * b + c + (e + 1) / 4);
        subst y; Z.to_euclidean_division_equations; lia).
  replace (y mod 100) with ((4 * c + e + 1) mod 100)
    by (apply Z.mod_unique with (q := 4 * a + b + (4 * c + e + 1) / 100);
        subst y; Z.to_euclidean_division_equations; lia).
  replace (y mod 400) with ((100 * b + 4 * c + e + 1) mod 400)
    by (apply Z.mod_unique with (q := a + (100 * b + 4 * c + e + 1) / 400);
        subst y; Z.to_euclidean_division_equations; lia).
  clearbody y.
  destruct (Z.eqb_spec e 3), (Z.eqb_spec c 24), (Z.eqb_spec b 3);
    cbn [andb orb negb];
    repeat match goal with
           | |- context [?x =? 0] => destruct (Z.eqb_spec x 0)
           end;
    cbn [andb orb negb]; try reflexivity;
    exfalso; Z.to_euclidean_division_equations; lia.
Qed.

Lemma days_before_year_split a b c e :
  0 <= a -> 0 <= b < 4 -> 0 <= c < 25 -> 0 <= e < 4 ->
  days_before_year (400 * a + 100 * b + 4 * c + e + 1) =
  DI400Y * a + DI100Y * b + DI4Y * c + 365 * e.
Proof.
  intros. unfold days_before_year, DI400Y, DI100Y, DI4Y. cbv zeta.
  replace (400 * a + 100 * b + 4 * c + e + 1 - 1)
    with (400 * a + 100 * b + 4 * c + e) by lia.
  replace ((400 * a + 100 * b + 4 * c + e) / 4) with (100 * a + 25 * b + c)
    by (apply Z.div_unique with (r := e); lia).
  replace ((400 * a + 100 * b + 4 * c + e) / 100) with (4 * a + b)
    by (apply Z.div_unique with (r := 4 * c + e); lia).
  replace ((400 * a + 100 * b + 4 * c + e) / 400) with a
    by (apply Z.div_unique with (r := 100 * b + 4 * c + e); lia).
  lia.
Qed.

Lemma month_of_offset (lp : bool) (yr m d : Z) :
  1 <= m <= 12 ->
  1 <= d <= mdays m + (if (m =? 2) && lp then 1 else 0) ->
  let n := DAYS_BEFORE_MONTH m + (if (2 <? m) && lp then 1 else 0) + d - 1 in
  (let month := Z.shiftr (n + 50) 5 in
   let preceding :=
     DAYS_BEFORE_MONTH month + (if (2 <? month) && lp then 1 else 0) in
   if n <? preceding then
     let month := month - 1 in
     let preceding :=
       preceding - (mdays month + (if (month =? 2) && lp then 1 else 0)) in
     (yr, month, n - preceding + 1)
   else (yr, month, n - preceding + 1)) = (yr, m, d).
Proof.
  intros Hm Hd n. subst n. cbv zeta.
  rewrite Z.shiftr_div_pow2 by lia. change (2 ^ 5) with 32.
  each_month m; destruct lp;
    eval_tables;
    match goal with
    | |- context [(?k + 50) / 32] =>
        let q := fresh "q" in
        let Hq := fresh "Hq" in
        remember ((k + 50) / 32) as q eqn:Hq;
        match goal with
        | |- _ = (_, ?mm, _) =>
            assert (q = mm \/ q = mm + 1)
              by (Z.to_euclidean_division_equations; lia)
        end
    end;
    match goal with
    | H : _ = _ \/ _ = _ |- _ => destruct H as [-> | ->]
    end;
    eval_closed; cbv beta iota delta [DAYS_BEFORE_MONTH mdays andb];
    match goal with
    | |- context [?x <? ?y] => destruct (Z.ltb_spec x y)
    end;
    first [ solve [repeat f_equal; lia]
          | exfalso; Z.to_euclidean_division_equations; lia ].
Qed.

Lemma days_in_month_eq y m :
  days_in_month y m = mdays m + (if (m =? 2) && isleap y then 1 else 0).
Proof.
  unfold days_in_month. destruct ((m =? 2) && isleap y) eqn:E; [|lia].
  apply andb_prop in E as [E _]. apply Z.eqb_eq in E. now subst m.
Qed.

Lemma days_before_month_bound lp m d :
  1 <= m <= 12 ->
  1 <= d <= mdays m + (if (m =? 2) && lp then 1 else 0) ->
  0 <= DAYS_BEFORE_MONTH m + (if (2 <? m) && lp then 1 else 0) + d - 1
    < 365 + (if lp then 1 else 0).
Proof.
  intros Hm Hd.
  each_month m; destruct lp;
    eval_tables; lia.
Qed.

Lemma ord2ymd_ymd2ord y m d :
  1 <= y -> 1 <= m <= 12 -> 1 <= d <= days_in_month y m ->
  ord2ymd (ymd2ord y m d) = (y, m, d).
Proof.
  intros Hy Hm Hd.
  destruct (year_split y Hy) as (a & b & c & e & Hsplit & Ha & Hb & Hc & He).
  assert (Hyear : y = 400 * a + 100 * b + 4 * c + e + 1) by lia.
  rewrite days_in_month_eq in Hd.
  pose proof (isleap_split a b c e Ha Hb Hc He) as Hleap.
  pose proof (days_before_year_split a b c e Ha Hb Hc He) as Hdby.
  rewrite <- Hyear in Hleap, Hdby.
  pose proof (days_before_month_bound (isleap y) m d Hm Hd) as Hk.
  pose proof (month_of_offset (isleap y) y m d Hm Hd) as Htail.
  cbv zeta in Htail.
  unfold ymd2ord, days_before_month. rewrite Hdby.
  remember (DAYS_BEFORE_MONTH m + (if (2 <? m) && isleap y then 1 else 0) + d - 1)
    as k eqn:Ek.
  replace (DI400Y * a + DI100Y * b + DI4Y * c + 365 * e +
           (DAYS_BEFORE_MONTH m + (if (2 <? m) && isleap y then 1 else 0)) + d)
    with (DI400Y * a + DI100Y * b + DI4Y * c + 365 * e + k + 1) by lia.
  unfold ord2ymd. cbv zeta.
  replace (DI400Y * a + DI100Y * b + DI4Y * c + 365 * e + k + 1 - 1)
    with (DI400Y * a + (DI100Y * b + DI4Y * c + 365 * e + k)) by lia.
  unfold DI400Y, DI100Y, DI4Y in *.
  assert (Hle : isleap y = true -> e = 3 /\ (c <> 24 \/ b = 3)).
  { rewrite Hleap. intros H. apply andb_prop in H as [H1 H2].
    apply Z.eqb_eq in H1. apply orb_prop in H2 as [H2 | H2].
    - apply negb_true_iff, Z.eqb_neq in H2. lia.
    - apply Z.eqb_eq in H2. lia. }
  assert (Hk' : k <= 364 \/ (k = 365 /\ e = 3 /\ (c <> 24 \/ b = 3))).
  { destruct (isleap y); [destruct Hle; auto|]; lia. }
  assert (Hx : 0 <= 36524 * b + 1461 * c + 365 * e + k < 146097) by lia.
  replace ((146097 * a + (36524 * b + 1461 * c + 365 * e + k)) / 146097) with a
    by (apply Z.div_unique with (r := 36524 * b + 1461 * c + 365 * e + k); lia).
  replace ((146097 * a + (36524 * b + 1461 * c + 365 * e + k)) mod 146097)
    with (36524 * b + 1461 * c + 365 * e + k)
    by (apply Z.mod_unique with (q := a); lia).
  destruct (Z.eq_dec (36524 * b + 1461 * c + 365 * e + k) 146096) as [Hlast | Hlast].
  - (* the last day of a 400-year cycle *)
    rewrite Hlast. change (146096 / 36524) with 4. cbn [Z.eqb Pos.eqb orb].
    rewrite orb_true_r.
    assert (b = 3 /\ c = 24 /\ e = 3 /\ k = 365) as (-> & -> & -> & Hk365) by lia.
    rewrite Hk365 in Htail. rewrite Hk365 in Ek.
    revert Htail. destruct (isleap y); [|lia].
    intros Htail. cbn in Htail. injection Htail as Hmm Hdd.
    rewrite <- Hmm, <- Hdd. change (146096 mod 36524) with 0.
    change (0 / 1461) with 0. change (0 mod 1461) with 0.
    change (0 / 365) with 0. f_equal. f_equal. lia.
  - assert (Hy100 : 0 <= 1461 * c + 365 * e + k < 36524) by lia.
    replace ((36524 * b + 1461 * c + 365 * e + k) / 36524) with b
      by (apply Z.div_unique with (r := 1461 * c + 365 * e + k); lia).
    replace ((36524 * b + 1461 * c + 365 * e + k) mod 36524)
      with (1461 * c + 365 * e + k)
      by (apply Z.mod_unique with (q := b); lia).
    replace ((1461 * c + 365 * e + k) / 1461) with c
      by (apply Z.div_unique with (r := 365 * e + k); lia).
    replace ((1461 * c + 365 * e + k) mod 1461) with (365 * e + k)
      by (apply Z.mod_unique with (q := c); lia).
    replace (b =? 4) with false by (symmetry; apply Z.eqb_neq; lia).
    rewrite orb_false_r.
    destruct Hk' as [Hsmall | (Hk365 & He3 & Hcb)].
    + replace ((365 * e + k) / 365) with e
        by (apply Z.div_unique with (r := k); lia).
      replace ((365 * e + k) mod 365) with k
        by (apply Z.mod_unique with (q := e); lia).
      replace (e =? 4) with false by (symmetry; apply Z.eqb_neq; lia).
      rewrite <- Hleap.
      replace (a * 400 + 1 + b * 100 + c * 4 + e) with y by lia.
      exact Htail.
    + rewrite Hk365, He3. change ((365 * 3 + 365) / 365) with 4.
      cbn [Z.eqb Pos.eqb].
      rewrite Hk365 in Htail. revert Htail.
      destruct (isleap y); [|lia].
      intros Htail. cbn in Htail. injection Htail as Hmm Hdd.
      rewrite <- Hmm, <- Hdd. f_equal. f_equal. lia.
Qed.

Lemma mdays_bounds m : 1 <= m <= 12 -> 28 <= mdays m <= 31.
Proof.
  intros Hm.
  each_month m; cbn; lia.
Qed.

Lemma days_in_month_bounds y m : 1 <= m <= 12 -> 28 <= days_in_month y m <= 31.
Proof.
  intros Hm. pose proof (mdays_bounds m Hm). unfold days_in_month.
  destruct ((m =? 2) && isleap y) eqn:E; [|lia].
  apply andb_prop in E as [E _]. apply Z.eqb_eq in E. lia.
Qed.

Lemma monthrange_last_ok y m :
  1 <= m <= 12 -> monthrange_last y m = Ok (days_in_month y m).
Proof.
  intros Hm. unfold monthrange_last.
  replace ((1 <=? m) && (m <=? 12)) with true
    by (symmetry; apply andb_true_intro; split; apply Z.leb_le; lia).
  now rewrite days_in_month_eq.
Qed.

Lemma days_before_month_succ y m :
  1 <= m < 12 ->
  days_before_month y (m + 1) = days_before_month y m + days_in_month y m.
Proof.
  intros Hm. unfold days_before_month, days_in_month.
  each_month m; try lia; destruct (isleap y); reflexivity.
Qed.

Lemma days_before_year_succ y :
  1 <= y ->
  days_before_year (y + 1) =
  days_before_year y + 365 + (if isleap y then 1 else 0).
Proof.
  intros Hy.
  destruct (year_split y Hy) as (a & b & c & e & Hsplit & Ha & Hb & Hc & He).
  assert (Hyear : y = 400 * a + 100 * b + 4 * c + e + 1) by lia.
  rewrite Hyear at 2 3. rewrite isleap_split, days_before_year_split by lia.
  unfold days_before_year, DI400Y, DI100Y, DI4Y. cbv zeta.
  replace (y + 1 - 1) with y by lia.
  destruct (Z.eqb_spec e 3) as [He3 | He3];
    destruct (Z.eqb_spec c 24) as [Hc24 | Hc24];
    destruct (Z.eqb_spec b 3) as [Hb3 | Hb3]; cbn [negb andb orb];
    Z.to_euclidean_division_equations; lia.
Qed.

Lemma days_before_month_12 y :
  days_before_month y 12 + 31 = 365 + (if isleap y then 1 else 0).
Proof. unfold days_before_month. cbn. destruct (isleap y); lia. Qed.

(** The day before the first of a month is the last day of the month
    before, in ordinals. *)
Lemma ymd2ord_first_pred y m :
  1 <= m <= 12 -> 1 <= y ->
  ymd2ord y m 1 - 1 =
  if m =? 1 then days_before_year y
  else ymd2ord y (m - 1) (days_in_month y (m - 1)).
Proof.
  intros Hm Hy. unfold ymd2ord.
  destruct (Z.eqb_spec m 1) as [-> | Hne].
  - unfold days_before_month. cbn. lia.
  - pose proof (days_before_month_succ y (m - 1)) as H.
    replace (m - 1 + 1) with m in H by lia. rewrite H by lia. lia.
Qed.

Lemma ymd2ord_dec31 y :
  2 <= y -> days_before_year y = ymd2ord (y - 1) 12 31.
Proof.
  intros Hy. unfold ymd2ord.
  pose proof (days_before_year_succ (y - 1)) as H.
  replace (y - 1 + 1) with y in H by lia. rewrite H by lia.
  pose proof (days_before_month_12 (y - 1)). lia.
Qed.

Lemma days_before_month_nonneg y m : 0 <= days_before_month y m.
Proof.
  unfold days_before_month.
  assert (0 <= DAYS_BEFORE_MONTH m).
  { unfold DAYS_BEFORE_MONTH.
    repeat match goal with
           | |- context [match ?x with _ => _ end] => destruct x
           end; lia. }
  destruct ((2 <? m) && isleap y); lia.
Qed.

Lemma days_before_year_mono y y' :
  1 <= y <= y' -> days_before_year y <= days_before_year y'.
Proof.
  intros [Hy Hle]. unfold days_before_year. cbv zeta.
  Z.to_euclidean_division_equations. lia.
Qed.

Lemma ymd2ord_lower y m d : 1 <= y -> 1 <= d -> 0 < ymd2ord y m d.
Proof.
  intros Hy Hd. unfold ymd2ord.
  pose proof (days_before_month_nonneg y m).
  pose proof (days_before_year_mono 1 y). 
  change (days_before_year 1) with 0 in *. lia.
Qed.

Lemma ymd2ord_upper y m d :
  1 <= y <= MAXYEAR -> 1 <= m <= 12 -> 1 <= d <= days_in_month y m ->
  ymd2ord y m d <= MAXORDINAL.
Proof.
  intros Hy Hm Hd. unfold ymd2ord, MAXYEAR in *.
  rewrite days_in_month_eq in Hd.
  pose proof (days_before_month_bound (isleap y) m d Hm Hd) as Hk.
  unfold days_before_month.
  pose proof (days_before_year_succ y) as Hs.
  pose proof (days_before_year_mono (y + 1) 10000) as Hmono.
  change (days_before_year 10000) with MAXORDINAL in Hmono.
  destruct (isleap y); lia.
Qed.

(** An ordinal in range belongs to a year in range. *)
Lemma ymd2ord_year_range y m d :
  1 <= y -> 1 <= d ->
  ymd2ord y m d <= MAXORDINAL -> y <= MAXYEAR.
Proof.
  intros Hy Hd Ho. unfold MAXYEAR.
  destruct (Z_le_gt_dec y 9999) as [|Hgt]; [assumption|exfalso].
  pose proof (days_before_year_mono 10000 y) as Hmono.
  change (days_before_year 10000) with MAXORDINAL in Hmono.
  pose proof (days_before_month_nonneg y m).
  unfold ymd2ord in Ho. lia.
Qed.

End CalendarFacts.

(** * Facts about dates *)

Section DateFacts.
Import Calendar.

Lemma valid_fields_iff y m d :
  Date.valid_fields y m d = true <->
  1 <= y <= 9999 /\ 1 <= m <= 12 /\ 1 <= d <= days_in_month y m.
Proof.
  unfold Date.valid_fields, MINYEAR, MAXYEAR.
  rewrite !andb_true_iff, !Z.leb_le. lia.
Qed.

Lemma valid_iff t :
  Date.valid t <->
  1 <= year t <= 9999 /\ 1 <= month t <= 12 /\
  1 <= day t <= days_in_month (year t) (month t).
Proof. apply valid_fields_iff. Qed.

Lemma c_int_iff v : Date.c_int v = true <-> - 2 ^ 31 <= v < 2 ^ 31.
Proof. unfold Date.c_int. rewrite andb_true_iff, Z.leb_le, Z.ltb_lt. tauto. Qed.

(** Fields within their ranges fit a C [int]. *)
Lemma valid_fields_c_int y m d :
  Date.valid_fields y m d = true ->
  Date.c_int y && Date.c_int m && Date.c_int d = true.
Proof.
  intros H. apply valid_fields_iff in H as (Hy & Hm & Hd).
  pose proof (days_in_month_bounds y m Hm).
  rewrite !andb_true_iff, !c_int_iff. lia.
Qed.

Lemma make_ok y m d :
  1 <= y <= 9999 -> 1 <= m <= 12 -> 1 <= d <= days_in_month y m ->
  Date.make y m d = Ok (mkdate y m d).
Proof.
  intros Hy Hm Hd. unfold Date.make.
  assert (H : Date.valid_fields y m d = true) by (apply valid_fields_iff; auto).
  now rewrite (valid_fields_c_int _ _ _ H), H.
Qed.

Lemma make_inv y m d t : Date.make y m d = Ok t -> t = mkdate y m d /\ Date.valid t.
Proof.
  unfold Date.make.
  destruct (Date.c_int y && Date.c_int m && Date.c_int d); [|discriminate].
  destruct (Date.valid_fields y m d) eqn:E; [|discriminate].
  intros [= <-]. split; [reflexivity | exact E].
Qed.

(** How the constructor fails. *)
Lemma make_raise y m d :
  Date.valid_fields y m d = false ->
  Date.make y m d =
  Raise (if Date.c_int y && Date.c_int m && Date.c_int d
         then ValueError else OverflowError).
Proof.
  intros H. unfold Date.make. rewrite H.
  now destruct (Date.c_int y && Date.c_int m && Date.c_int d).
Qed.

Lemma fromordinal_ymd2ord y m d :
  1 <= y <= 9999 -> 1 <= m <= 12 -> 1 <= d <= days_in_month y m ->
  Date.fromordinal (ymd2ord y m d) = Ok (mkdate y m d).
Proof.
  intros Hy Hm Hd. unfold Date.fromordinal.
  rewrite ord2ymd_ymd2ord by lia. now apply make_ok.
Qed.

(** Adding days: the date whose ordinal is the sum, unless its year is
    past [MAXYEAR]. *)
Lemma add_days_to t n y m d :
  1 <= y -> 1 <= m <= 12 -> 1 <= d <= days_in_month y m ->
  Date.toordinal t + n = ymd2ord y m d ->
  Date.add_days t n =
  if y <=? MAXYEAR then Ok (mkdate y m d) else Raise OverflowError.
Proof.
  intros Hy Hm Hd Ho. unfold Date.add_days. cbv zeta. rewrite Ho.
  pose proof (ymd2ord_lower y m d Hy (proj1 Hd)) as Hlow.
  replace (0 <? ymd2ord y m d) with true by (symmetry; apply Z.ltb_lt; lia).
  cbn [andb]. unfold MAXYEAR.
  destruct (Z.leb_spec y 9999) as [Hle | Hgt].
  - pose proof (ymd2ord_upper y m d) as Hup. unfold MAXYEAR in Hup.
    replace (ymd2ord y m d <=? MAXORDINAL) with true
      by (symmetry; apply Z.leb_le; apply Hup; lia).
    apply fromordinal_ymd2ord; lia.
  - destruct (Z.leb_spec (ymd2ord y m d) MAXORDINAL) as [Hin | Hout];
      [|reflexivity].
    pose proof (ymd2ord_year_range y m d Hy (proj1 Hd) Hin) as Habs.
    unfold MAXYEAR in Habs. lia.
Qed.

Lemma following_month_range y m x y' m' :
  1 <= m <= 12 -> following_month (mkdate y m x) = (y', m') ->
  1 <= m' <= 12 /\ y <= y' <= y + 1.
Proof.
  unfold following_month. cbn [year month]. intros Hm.
  destruct (Z.eqb_spec m 12); intros [= <- <-]; lia.
Qed.

(** [first_of_this_month - timedelta(days=1)] *)
Lemma sub_days_first y m :
  1 <= y <= 9999 -> 1 <= m <= 12 ->
  Date.sub_days (mkdate y m 1) 1 =
  if (y =? 1) && (m =? 1) then Raise OverflowError
  else let '(py, pm) := preceding_month (mkdate y m 1) in
       Ok (mkdate py pm (days_in_month py pm)).
Proof.
  intros Hy Hm. unfold Date.sub_days, preceding_month. cbn [year month].
  pose proof (ymd2ord_first_pred y m Hm (proj1 Hy)) as Hpred.
  destruct (Z.eqb_spec m 1) as [-> | Hm1].
  - destruct (Z.eqb_spec y 1) as [-> | Hy1]; cbn [andb].
    + reflexivity.
    + assert (Hdec : days_in_month (y - 1) 12 = 31) by reflexivity.
      rewrite (add_days_to _ _ (y - 1) 12 31); try lia.
      * unfold MAXYEAR. destruct (Z.leb_spec (y - 1) 9999); [|lia].
        reflexivity.
      * unfold Date.toordinal. cbn [year month day].
        rewrite <- ymd2ord_dec31 by lia. lia.
  - rewrite andb_false_r.
    pose proof (days_in_month_bounds y (m - 1)).
    rewrite (add_days_to _ _ y (m - 1) (days_in_month y (m - 1))); try lia.
    + unfold MAXYEAR. destruct (Z.leb_spec y 9999); [|lia]. reflexivity.
    + unfold Date.toordinal. cbn [year month day]. lia.
Qed.

Lemma get_actual_day_ok y m d :
  1 <= m <= 12 -> get_actual_day y m d = Ok (target_day d y m).
Proof.
  intros Hm. unfold get_actual_day. now rewrite monthrange_last_ok.
Qed.

Lemma target_day_bounds d y m :
  1 <= d -> 1 <= m <= 12 ->
  1 <= target_day d y m <= days_in_month y m /\ target_day d y m <= d.
Proof.
  intros Hd Hm. pose proof (days_in_month_bounds y m Hm).
  unfold target_day. lia.
Qed.

(** What the resolver computes on calendar dates, anchors from 1. *)
Lemma resolve_eq d today :
  1 <= d -> Date.valid today ->
  resolve d today =
  if before_first_month d today then Raise OverflowError
  else Ok (resolve_design d today).
Proof.
  intros Hd Hv. apply valid_iff in Hv as (Hy & Hm & Hday).
  unfold resolve, get_current_cycle_start, resolve_design, before_first_month.
  cbv zeta. rewrite get_actual_day_ok by assumption. cbn [bind].
  pose proof (target_day_bounds d (year today) (month today) Hd Hm) as [Ht _].
  rewrite Z.geb_leb.
  destruct (Z.leb_spec (target_day d (year today) (month today)) (day today))
    as [Hreached | Hbefore].
  - rewrite make_ok by lia.
    destruct (Z.eqb_spec (year today) 1) as [Hy1 | _];
      destruct (Z.eqb_spec (month today) 1) as [Hm1 | _]; cbn [andb];
      try reflexivity.
    rewrite Hy1, Hm1 in Hreached.
    destruct (Z.ltb_spec (day today) (target_day d 1 1)); [lia | reflexivity].
  - pose proof (days_in_month_bounds (year today) (month today) Hm).
    rewrite make_ok by lia. cbn [bind].
    rewrite sub_days_first by assumption.
    destruct (Z.eqb_spec (year today) 1) as [Hy1 | Hy1];
      destruct (Z.eqb_spec (month today) 1) as [Hm1 | Hm1]; cbn [andb].
    + rewrite Hy1, Hm1 in Hbefore.
      destruct (Z.ltb_spec (day today) (target_day d 1 1)); [reflexivity | lia].
    + unfold preceding_month. cbn [year month].
      destruct (Z.eqb_spec (month today) 1); [lia|]. cbn [bind year month].
      rewrite get_actual_day_ok by lia. cbn [bind].
      pose proof (target_day_bounds d (year today) (month today - 1)).
      apply make_ok; lia.
    + unfold preceding_month. cbn [year month].
      destruct (Z.eqb_spec (month today) 1); [|lia]. cbn [bind year month].
      rewrite get_actual_day_ok by lia. cbn [bind].
      pose proof (target_day_bounds d (year today - 1) 12).
      apply make_ok; lia.
    + unfold preceding_month. cbn [year month].
      destruct (Z.eqb_spec (month today) 1); [lia|]. cbn [bind year month].
      rewrite get_actual_day_ok by lia. cbn [bind].
      pose proof (target_day_bounds d (year today) (month today - 1)).
      apply make_ok; lia.
Qed.

End DateFacts.

Section OrderFacts.

Lemma date_lt_iff a b :
  Date.lt a b <->
  year a < year b \/
  (year a = year b /\
   (month a < month b \/ (month a = month b /\ day a < day b))).
Proof.
  unfold Date.lt, Date.ltb, Date.cmp.
  destruct (Z.compare_spec (year a) (year b));
    destruct (Z.compare_spec (month a) (month b));
    destruct (Z.compare_spec (day a) (day b));
    split; intros; try discriminate; try reflexivity; lia.
Qed.

Lemma date_le_iff a b :
  Date.le a b <->
  year a < year b \/
  (year a = year b /\
   (month a < month b \/ (month a = month b /\ day a <= day b))).
Proof.
  unfold Date.le, Date.leb, Date.cmp.
  destruct (Z.compare_spec (year a) (year b));
    destruct (Z.compare_spec (month a) (month b));
    destruct (Z.compare_spec (day a) (day b));
    split; intros; try discriminate; try reflexivity; lia.
Qed.

Lemma date_eqb_eq a b : Date.eqb a b = true <-> a = b.
Proof.
  unfold Date.eqb, Date.cmp. destruct a as [ya ma da], b as [yb mb db].
  cbn [year month day].
  destruct (Z.compare_spec ya yb); destruct (Z.compare_spec ma mb);
    destruct (Z.compare_spec da db);
    split; intros H'; try discriminate; try reflexivity;
    try (injection H' as ? ? ?; lia); subst; reflexivity.
Qed.

Lemma date_eta t : mkdate (year t) (month t) (day t) = t.
Proof. now destruct t. Qed.

End OrderFacts.

Section ResolverFacts.
Import Calendar.

Lemma resolve_design_valid d today :
  1 <= d -> Date.valid today -> before_first_month d today = false ->
  Date.valid (resolve_design d today).
Proof.
  intros Hd Hv Hb. apply valid_iff in Hv as (Hy & Hm & Hday).
  apply valid_iff. unfold resolve_design, before_first_month, preceding_month in *.
  rewrite Z.geb_leb.
  destruct (Z.leb_spec (target_day d (year today) (month today)) (day today))
    as [Hreached | Hbefore]; cbn [year month day].
  - pose proof (target_day_bounds d (year today) (month today) Hd Hm). lia.
  - destruct (Z.eqb_spec (month today) 1) as [Hm1 | Hm1]; cbn [year month day].
    + pose proof (target_day_bounds d (year today - 1) 12 Hd).
      destruct (Z.eqb_spec (year today) 1) as [Hy1 | Hy1]; [|lia].
      rewrite Hm1, Hy1 in *. cbn [andb Z.eqb Pos.eqb] in Hb.
      apply Z.ltb_ge in Hb. lia.
    + pose proof (target_day_bounds d (year today) (month today - 1) Hd). lia.
Qed.

Lemma resolve_design_day d today :
  day (resolve_design d today) =
  target_day d (year (resolve_design d today)) (month (resolve_design d today)).
Proof.
  unfold resolve_design.
  destruct (day today >=? target_day d (year today) (month today));
    [reflexivity|].
  destruct (preceding_month today). reflexivity.
Qed.

Lemma resolve_design_le d today :
  1 <= d -> Date.valid today -> Date.le (resolve_design d today) today.
Proof.
  intros Hd Hv. apply valid_iff in Hv as (Hy & Hm & Hday).
  apply date_le_iff. unfold resolve_design, preceding_month.
  rewrite Z.geb_leb.
  destruct (Z.leb_spec (target_day d (year today) (month today)) (day today));
    cbn [year month day]; [lia|].
  destruct (Z.eqb_spec (month today) 1); cbn [year month day]; lia.
Qed.

(** A date on its own target day resolves to itself. *)
Lemma resolve_fixed d s :
  1 <= d -> Date.valid s ->
  day s = target_day d (year s) (month s) ->
  resolve d s = Ok s.
Proof.
  intros Hd Hv Hday. rewrite resolve_eq by assumption.
  unfold before_first_month, resolve_design.
  replace (day s >=? target_day d (year s) (month s)) with true
    by (symmetry; rewrite Z.geb_leb; apply Z.leb_le; lia).
  rewrite <- Hday, date_eta.
  destruct (Z.eqb_spec (year s) 1) as [Hy1 | ?];
    destruct (Z.eqb_spec (month s) 1) as [Hm1 | ?]; cbn [andb]; try reflexivity.
  rewrite Hy1, Hm1 in Hday.
  destruct (Z.ltb_spec (day s) (target_day d 1 1)); [lia | reflexivity].
Qed.

Lemma resolve_ok_inv d today r :
  1 <= d -> Date.valid today -> resolve d today = Ok r ->
  before_first_month d today = false /\ r = resolve_design d today.
Proof.
  intros Hd Hv. rewrite resolve_eq by assumption.
  destruct (before_first_month d today); [discriminate|].
  intros [= <-]. auto.
Qed.

Lemma resolve_nonpositive d today :
  d <= 0 -> Date.valid today -> resolve d today = Raise (anchor_error d).
Proof.
  intros Hd Hv. apply valid_iff in Hv as (Hy & Hm & Hday).
  unfold resolve, get_current_cycle_start. cbv zeta.
  rewrite get_actual_day_ok by assumption. cbn [bind].
  pose proof (days_in_month_bounds (year today) (month today) Hm).
  assert (Ht : target_day d (year today) (month today) = d)
    by (unfold target_day; lia).
  rewrite Ht.
  replace (day today >=? d) with true
    by (symmetry; rewrite Z.geb_leb; apply Z.leb_le; lia).
  rewrite make_raise.
  - unfold anchor_error.
    assert (Hcy : Date.c_int (year today) = true) by (apply c_int_iff; lia).
    assert (Hcm : Date.c_int (month today) = true) by (apply c_int_iff; lia).
    now rewrite Hcy, Hcm.
  - destruct (Date.valid_fields (year today) (month today) d) eqn:E;
      [|reflexivity].
    apply valid_fields_iff in E. lia.
Qed.

End ResolverFacts.

(** * The cycle resolver *)

(** C1. For an anchor day from 1 to 31 and a reference date, the date the
    resolver returns has as day of month the anchor clamped to the length
    of that date's month.  The only calls that return nothing are those in
    January of year 1 before the anchor day, which raise [OverflowError]. *)
Theorem resolve_day_clamped (d : Z) (today : date) :
  1 <= d <= 31 -> Date.valid today ->
  match resolve d today with
  | Ok r =>
      day r = Z.min d (Calendar.days_in_month (year r) (month r))
  | Raise x =>
      x = OverflowError /\ year today = 1 /\ month today = 1 /\
      day today < Z.min d 31
  end.
Proof.
  intros Hd Hv. rewrite resolve_eq by (lia || assumption).
  destruct (before_first_month d today) eqn:Hb.
  - unfold before_first_month in Hb.
    apply andb_prop in Hb as [Hb Hday]. apply andb_prop in Hb as [Hy Hm].
    apply Z.eqb_eq in Hy, Hm. apply Z.ltb_lt in Hday. auto.
  - apply resolve_design_day.
Qed.

Lemma resolve_day_clamped_witness :
  1 <= 31 <= 31 /\ Date.valid (mkdate 2024 2 15) /\
  match resolve 31 (mkdate 2024 2 15) with
  | Ok r =>
      day r = Z.min 31 (Calendar.days_in_month (year r) (month r))
  | Raise x =>
      x = OverflowError /\ year (mkdate 2024 2 15) = 1 /\
      month (mkdate 2024 2 15) = 1 /\ day (mkdate 2024 2 15) < Z.min 31 31
  end.
Proof.
  split; [lia|]. split; [reflexivity|].
  apply (resolve_day_clamped 31 (mkdate 2024 2 15)); [lia | reflexivity].
Defined.

(** The clamping examples of the design: 31 becomes 28, 29 and 30. *)
Example resolve_clamp_examples :
  resolve 31 (mkdate 2024 2 15) = Ok (mkdate 2024 1 31) /\
  resolve 31 (mkdate 2023 2 28) = Ok (mkdate 2023 2 28) /\
  resolve 31 (mkdate 2024 3 1) = Ok (mkdate 2024 2 29) /\
  resolve 31 (mkdate 2024 5 3) = Ok (mkdate 2024 4 30).
Proof. repeat split; vm_compute; reflexivity. Qed.

(** C2, as the claim states it, fails in January of year 1: there is no
    December of a year before, and the subtraction of one day raises. *)
Lemma resolve_cases_counterexample :
  1 <= 8 <= 31 /\ Date.valid (mkdate 1 1 5) /\
  day (mkdate 1 1 5) < Z.min 8 (Calendar.days_in_month 1 1) /\
  resolve 8 (mkdate 1 1 5) = Raise OverflowError /\
  forall r, resolve 8 (mkdate 1 1 5) <> Ok r.
Proof.
  split; [lia|]. split; [reflexivity|]. split; [vm_compute; reflexivity|].
  split; [vm_compute; reflexivity|].
  intros r H. vm_compute in H. discriminate H.
Qed.

(** C2 (amended). For an anchor day from 1 to 31 and a reference date: once
    the clamped anchor day of the reference month is reached, the resolver
    returns that day of the reference month; before it, the resolver returns
    the clamped anchor day of the month before, which is December of the year
    before when the reference month is January of a year after year 1; in
    January of year 1 it raises [OverflowError]. *)
Theorem resolve_cases (d : Z) (today : date) :
  1 <= d <= 31 -> Date.valid today ->
  let y := year today in
  let m := month today in
  let dim := Calendar.days_in_month in
  (day today >= Z.min d (dim y m) ->
   resolve d today = Ok (mkdate y m (Z.min d (dim y m)))) /\
  (day today < Z.min d (dim y m) -> m <> 1 ->
   resolve d today = Ok (mkdate y (m - 1) (Z.min d (dim y (m - 1))))) /\
  (day today < Z.min d (dim y m) -> m = 1 -> y <> 1 ->
   resolve d today = Ok (mkdate (y - 1) 12 (Z.min d (dim (y - 1) 12)))) /\
  (day today < Z.min d (dim y m) -> m = 1 -> y = 1 ->
   resolve d today = Raise OverflowError).
Proof.
  intros Hd Hv y m dim. rewrite resolve_eq by (lia || assumption).
  unfold before_first_month, resolve_design, preceding_month, target_day.
  fold y m dim. rewrite Z.geb_leb.
  repeat split; intros;
    destruct (Z.eqb_spec y 1) as [Hy1 | Hy1];
    destruct (Z.eqb_spec m 1) as [Hm1 | Hm1];
    try rewrite Hy1 in *; try rewrite Hm1 in *; cbn [andb];
    repeat match goal with
           | |- context [?a <? ?b] => destruct (Z.ltb_spec a b)
           | |- context [?a <=? ?b] => destruct (Z.leb_spec a b)
           end; try reflexivity; try lia.
Qed.

Lemma resolve_cases_witness :
  1 <= 8 <= 31 /\ Date.valid (mkdate 2024 3 5) /\
  resolve 8 (mkdate 2024 3 5) = Ok (mkdate 2024 2 8) /\
  resolve 8 (mkdate 2024 3 8) = Ok (mkdate 2024 3 8) /\
  resolve 8 (mkdate 2024 1 5) = Ok (mkdate 2023 12 8).
Proof.
  split; [lia|]. split; [reflexivity|].
  split; [|split].
  - apply (resolve_cases 8 (mkdate 2024 3 5)); [lia | reflexivity | | ];
      vm_compute; congruence.
  - apply (resolve_cases 8 (mkdate 2024 3 8)); [lia | reflexivity | ];
      vm_compute; congruence.
  - apply (resolve_cases 8 (mkdate 2024 1 5));
      [lia | reflexivity | | | ]; vm_compute; congruence.
Defined.

(** C8. The resolver is idempotent: the date it returns, taken as the
    reference date, resolves to itself. *)
Theorem resolve_idempotent (d : Z) (today : date) :
  1 <= d <= 31 -> Date.valid today ->
  (forall r, resolve d today = Ok r -> resolve d r = Ok r) /\
  (r <- resolve d today ;; resolve d r) = resolve d today.
Proof.
  intros Hd Hv.
  assert (Hfix : forall r, resolve d today = Ok r -> resolve d r = Ok r).
  { intros r Hr.
    apply resolve_ok_inv in Hr as [Hb ->]; [|lia|assumption].
    apply resolve_fixed; [lia | | apply resolve_design_day].
    apply resolve_design_valid; [lia | assumption | assumption]. }
  split; [exact Hfix|].
  destruct (resolve d today) as [r | x] eqn:Hr; cbn [bind]; [|reflexivity].
  now apply Hfix.
Qed.

Lemma resolve_idempotent_witness :
  1 <= 31 <= 31 /\ Date.valid (mkdate 2024 2 15) /\
  resolve 31 (mkdate 2024 2 15) = Ok (mkdate 2024 1 31) /\
  resolve 31 (mkdate 2024 1 31) = Ok (mkdate 2024 1 31).
Proof.
  split; [lia|]. split; [reflexivity|]. split; [reflexivity|].
  apply (proj1 (resolve_idempotent 31 (mkdate 2024 2 15)
                  ltac:(lia) ltac:(reflexivity))).
  reflexivity.
Defined.

(** C9, as the claim states it, fails: with the reference date left out the
    resolver reads the clock, and two clocks give two results. *)
Lemma resolver_reads_clock_counterexample :
  get_current_cycle_start (mkdate 2024 3 5) 8 None = Ok (mkdate 2024 2 8) /\
  get_current_cycle_start (mkdate 2024 3 8) 8 None = Ok (mkdate 2024 3 8) /\
  ~ (forall clock1 clock2 d today,
        get_current_cycle_start clock1 d today =
        get_current_cycle_start clock2 d today).
Proof.
  split; [reflexivity|]. split; [reflexivity|].
  intros H. specialize (H (mkdate 2024 3 5) (mkdate 2024 3 8) 8 None).
  vm_compute in H. discriminate H.
Qed.

(** C9 (amended). With a reference date passed in, the result of the
    resolver depends on the anchor day and that date only, whatever the clock
    shows; with the reference date left out, the result is the one for the
    date the clock shows. *)
Theorem resolver_deterministic (clock1 clock2 : date) (d : Z) (today : date) :
  get_current_cycle_start clock1 d (Some today) =
  get_current_cycle_start clock2 d (Some today) /\
  get_current_cycle_start clock1 d None = resolve d clock1.
Proof. split; reflexivity. Qed.

(** C10, as the claim states it, fails in January of year 1. *)
Lemma resolve_total_counterexample :
  1 <= 15 /\ Date.valid (mkdate 1 1 10) /\
  resolve 15 (mkdate 1 1 10) = Raise OverflowError /\
  ~ (forall d today, 1 <= d -> Date.valid today ->
       exists r, resolve d today = Ok r).
Proof.
  split; [lia|]. split; [reflexivity|]. split; [reflexivity|].
  intros H. destruct (H 15 (mkdate 1 1 10)) as [r Hr]; [lia | reflexivity |].
  vm_compute in Hr. discriminate Hr.
Qed.

(** C10 (amended). For an anchor day from 1 and a calendar date, other than
    a date of January of year 1 before the anchor day, the resolver returns a
    calendar date, not later than the reference date; at those dates of
    January of year 1 it raises [OverflowError]. For an anchor day of 0 or
    less it fails at every date: with [ValueError] for an anchor day that
    fits a C [int], down to [- 2 ^ 31], and with [OverflowError] for one
    below. *)
Theorem resolve_total (d : Z) (today : date) :
  Date.valid today ->
  (1 <= d -> before_first_month d today = false ->
   exists r, resolve d today = Ok r /\ Date.valid r /\ Date.le r today) /\
  (1 <= d -> before_first_month d today = true ->
   resolve d today = Raise OverflowError) /\
  (- 2 ^ 31 <= d <= 0 -> resolve d today = Raise ValueError) /\
  (d < - 2 ^ 31 -> resolve d today = Raise OverflowError).
Proof.
  intros Hv. split; [|split; [|split]].
  - intros Hd Hb. exists (resolve_design d today).
    rewrite resolve_eq, Hb by assumption.
    split; [reflexivity|]. split.
    + now apply resolve_design_valid.
    + now apply resolve_design_le.
  - intros Hd Hb. now rewrite resolve_eq, Hb by assumption.
  - intros Hd. rewrite resolve_nonpositive by (assumption || lia).
    unfold anchor_error.
    now rewrite (proj2 (c_int_iff d)) by lia.
  - intros Hd. rewrite resolve_nonpositive by (assumption || lia).
    unfold anchor_error.
    destruct (Date.c_int d) eqn:E; [|reflexivity].
    apply c_int_iff in E. lia.
Qed.

Lemma resolve_total_witness :
  Date.valid (mkdate 2024 3 5) /\
  (exists r, resolve 8 (mkdate 2024 3 5) = Ok r /\ Date.valid r /\
             Date.le r (mkdate 2024 3 5)) /\
  resolve 0 (mkdate 2024 3 5) = Raise ValueError /\
  resolve (- 2 ^ 31 - 1) (mkdate 2024 3 5) = Raise OverflowError.
Proof.
  split; [reflexivity|].
  pose proof (resolve_total 8 (mkdate 2024 3 5) eq_refl) as [H1 _].
  pose proof (resolve_total 0 (mkdate 2024 3 5) eq_refl) as [_ [_ [H3 _]]].
  pose proof (resolve_total (- 2 ^ 31 - 1) (mkdate 2024 3 5) eq_refl)
    as [_ [_ [_ H4]]].
  split; [apply H1; [lia | reflexivity] |].
  split; [apply H3; lia | apply H4; lia].
Defined.

Section NextCycleFacts.
Import Calendar.

(** The same day number one month later is a month's length further on. *)
Lemma ymd2ord_following y m x y' m' :
  1 <= y -> 1 <= m <= 12 ->
  following_month (mkdate y m x) = (y', m') ->
  forall x', ymd2ord y' m' x' = ymd2ord y m x' + days_in_month y m.
Proof.
  intros Hy Hm. unfold following_month. cbn [year month].
  destruct (Z.eqb_spec m 12) as [-> | Hm12]; intros [= <- <-] x'.
  - unfold ymd2ord. rewrite days_before_year_succ by assumption.
    pose proof (days_before_month_12 y).
    change (days_in_month y 12) with 31.
    change (days_before_month (y + 1) 1) with 0. lia.
  - unfold ymd2ord. rewrite days_before_month_succ by lia. lia.
Qed.

Lemma preceding_following y m x y' m' x' :
  1 <= m <= 12 ->
  following_month (mkdate y m x) = (y', m') ->
  preceding_month (mkdate y' m' x') = (y, m).
Proof.
  intros Hm. unfold following_month, preceding_month. cbn [year month].
  destruct (Z.eqb_spec m 12) as [-> | Hm12]; intros [= <- <-].
  - cbn. f_equal. lia.
  - destruct (Z.eqb_spec (m + 1) 1); [lia|]. f_equal. lia.
Qed.

Lemma add_days_32 s :
  Date.valid s ->
  Date.add_days s 32 =
  if year (landing s) <=? MAXYEAR then Ok (landing s) else Raise OverflowError.
Proof.
  intros Hv. apply valid_iff in Hv as (Hy & Hm & Hday).
  unfold landing.
  destruct (following_month s) as [y1 m1] eqn:F1.
  rewrite <- (date_eta s) in F1.
  pose proof (following_month_range _ _ _ _ _ Hm F1) as [Hm1 Hy1].
  pose proof (ymd2ord_following _ _ _ _ _ (proj1 Hy) Hm F1) as Ho1.
  pose proof (days_in_month_bounds (year s) (month s) Hm) as HL.
  pose proof (days_in_month_bounds y1 m1 Hm1) as HL1.
  destruct (Z.leb_spec (day s + 32 - days_in_month (year s) (month s))
              (days_in_month y1 m1)) as [Hin | Hpast].
  - cbn [year]. apply add_days_to; try lia.
    unfold Date.toordinal. rewrite Ho1. unfold ymd2ord. lia.
  - destruct (following_month
                (mkdate y1 m1 (day s + 32 - days_in_month (year s) (month s))))
      as [y2 m2] eqn:F2.
    pose proof (following_month_range _ _ _ _ _ Hm1 F2) as [Hm2 Hy2].
    assert (Hy1' : 1 <= y1) by lia.
    pose proof (ymd2ord_following _ _ _ _ _ Hy1' Hm1 F2) as Ho2.
    pose proof (days_in_month_bounds y2 m2 Hm2) as HL2.
    cbn [year]. apply add_days_to; try lia.
    unfold Date.toordinal. rewrite Ho2, Ho1. unfold ymd2ord. lia.
Qed.


Lemma mkdate_eq_iff a b c t :
  mkdate a b c = t <-> a = year t /\ b = month t /\ c = day t.
Proof.
  destruct t as [y m d]. cbn [year month day]. split.
  - intros [= -> -> ->]. auto.
  - intros (-> & -> & ->). reflexivity.
Qed.

Lemma resolve_fixed_day d s :
  1 <= d -> Date.valid s -> resolve d s = Ok s ->
  day s = target_day d (year s) (month s).
Proof.
  intros Hd Hv Hs. apply resolve_ok_inv in Hs as [_ Hs]; try assumption.
  rewrite Hs at 1 2 3. apply resolve_design_day.
Qed.

End NextCycleFacts.

Section NextCycle.
Import Calendar.

Lemma add_days_32_inv s t' :
  Date.valid s -> Date.add_days s 32 = Ok t' ->
  t' = landing s /\ year (landing s) <= 9999.
Proof.
  intros Hv. rewrite add_days_32 by assumption. unfold MAXYEAR.
  destruct (Z.leb_spec (year (landing s)) 9999); [|discriminate].
  intros [= <-]. auto.
Qed.

(** The dates of the cycle that starts at [s]: from [s] up to the clamped
    anchor day of the month after. *)
Lemma resolve_design_cycle d s t :
  1 <= d -> Date.valid s -> day s = target_day d (year s) (month s) ->
  Date.valid t -> before_first_month d t = false ->
  resolve_design d t = s <->
  Date.le s t /\ Date.lt t (next_cycle_start_of d s).
Proof.
  intros Hd Hs Hfix Ht Hb.
  apply valid_iff in Hs as (Hys & Hms & Hds).
  apply valid_iff in Ht as (Hyt & Hmt & Hdt).
  rewrite date_le_iff, date_lt_iff.
  pose proof (target_day_bounds d (year t) (month t) Hd Hmt) as [Ht1 _].
  destruct s as [ys ms ds], t as [yt mt dt].
  unfold next_cycle_start_of, resolve_design, before_first_month in *.
  unfold following_month, preceding_month in *.
  cbn [year month day] in *. rewrite Z.geb_leb.
  destruct (Z.eq_dec yt ys) as [-> | Hyy];
    destruct (Z.eq_dec mt ms) as [-> | Hmm];
    try (destruct (Z.eq_dec mt (ms + 1)) as [-> | Hmm1]);
    try (destruct (Z.eq_dec yt (ys + 1)) as [-> | Hyy1]);
    rewrite ?Z.add_simpl_r in *;
    destruct (Z.eqb_spec ms 12) as [-> | Hs12];
    try (destruct (Z.eqb_spec mt 1) as [-> | Ht1']);
    repeat match goal with
           | |- context [?a =? ?b] => destruct (Z.eqb_spec a b)
           | |- context [?a <=? ?b] => destruct (Z.leb_spec a b)
           | H : context [?a =? ?b] |- _ => destruct (Z.eqb_spec a b)
           end;
    cbn [andb year month day] in *; rewrite ?Z.add_simpl_r in *;
    try (apply Z.ltb_ge in Hb);
    rewrite mkdate_eq_iff; cbn [year month day];
    try lia.
Qed.

Lemma next_cycle_start_valid d s :
  1 <= d -> Date.valid s -> year (landing s) <= 9999 ->
  Date.valid (next_cycle_start_of d s).
Proof.
  intros Hd Hs Hland. apply valid_iff in Hs as (Hys & Hms & Hds).
  apply valid_iff. unfold next_cycle_start_of, landing in *.
  destruct (following_month s) as [y1 m1] eqn:F1.
  rewrite <- (date_eta s) in F1.
  pose proof (following_month_range _ _ _ _ _ Hms F1) as [Hm1 Hy1].
  pose proof (target_day_bounds d y1 m1 Hd Hm1) as [Ht _].
  cbn [year month day].
  destruct (day s + 32 - days_in_month (year s) (month s) <=?
            days_in_month y1 m1).
  - cbn [year] in Hland. lia.
  - destruct (following_month
                (mkdate y1 m1 (day s + 32 - days_in_month (year s) (month s))))
      as [y2 m2] eqn:F2.
    pose proof (following_month_range _ _ _ _ _ Hm1 F2) as [Hm2 Hy2].
    cbn [year] in Hland. lia.
Qed.

Lemma landing_valid s :
  Date.valid s -> year (landing s) <= 9999 -> Date.valid (landing s).
Proof.
  intros Hs Hland. apply valid_iff in Hs as (Hys & Hms & Hds).
  apply valid_iff. unfold landing in *.
  destruct (following_month s) as [y1 m1] eqn:F1.
  rewrite <- (date_eta s) in F1.
  pose proof (following_month_range _ _ _ _ _ Hms F1) as [Hm1 Hy1].
  pose proof (days_in_month_bounds (year s) (month s) Hms) as HL.
  pose proof (days_in_month_bounds y1 m1 Hm1) as HL1.
  destruct (Z.leb_spec (day s + 32 - days_in_month (year s) (month s))
              (days_in_month y1 m1)).
  - cbn [year month day] in *. lia.
  - destruct (following_month
                (mkdate y1 m1 (day s + 32 - days_in_month (year s) (month s))))
      as [y2 m2] eqn:F2.
    pose proof (following_month_range _ _ _ _ _ Hm1 F2) as [Hm2 Hy2].
    pose proof (days_in_month_bounds y2 m2 Hm2) as HL2.
    cbn [year month day] in *. lia.
Qed.

(** 32 days after a cycle start lie inside the next cycle. *)
Lemma landing_in_next_cycle d s :
  1 <= d -> Date.valid s -> day s = target_day d (year s) (month s) ->
  year (landing s) <= 9999 ->
  Date.le (next_cycle_start_of d s) (landing s) /\
  Date.lt (landing s) (next_cycle_start_of d (next_cycle_start_of d s)).
Proof.
  intros Hd Hs Hfix Hland. apply valid_iff in Hs as (Hys & Hms & Hds).
  rewrite date_le_iff, date_lt_iff.
  unfold next_cycle_start_of, landing in *.
  destruct (following_month s) as [y1 m1] eqn:F1.
  rewrite <- (date_eta s) in F1.
  pose proof (following_month_range _ _ _ _ _ Hms F1) as [Hm1 Hy1].
  pose proof (days_in_month_bounds (year s) (month s) Hms) as HL.
  pose proof (days_in_month_bounds y1 m1 Hm1) as HL1.
  destruct (following_month (mkdate y1 m1 (target_day d y1 m1)))
    as [y2 m2] eqn:F2.
  pose proof (following_month_range _ _ _ _ _ Hm1 F2) as [Hm2 Hy2].
  pose proof (days_in_month_bounds y2 m2 Hm2) as HL2.
  assert (F2' : forall x, following_month (mkdate y1 m1 x) = (y2, m2))
    by (intros x; exact F2).
  assert (Hlater : y1 < y2 \/ (y1 = y2 /\ m1 < m2)).
  { unfold following_month in F2. cbn [year month] in F2.
    destruct (Z.eqb_spec m1 12); injection F2 as <- <-; lia. }
  unfold target_day in *.
  destruct (Z.leb_spec (day s + 32 - days_in_month (year s) (month s))
              (days_in_month y1 m1)).
  - cbn [year month day] in *. lia.
  - rewrite F2'. cbn [year month day] in *. lia.
Qed.

Lemma not_before_first_month d s t :
  Date.valid s -> day s = target_day d (year s) (month s) -> Date.le s t ->
  before_first_month d t = false.
Proof.
  intros Hs Hfix Hle. apply valid_iff in Hs as (Hys & Hms & Hds).
  apply date_le_iff in Hle. unfold before_first_month.
  destruct (Z.eqb_spec (year t) 1) as [Hy | ?]; [|reflexivity].
  destruct (Z.eqb_spec (month t) 1) as [Hm | ?]; [|reflexivity].
  cbn [andb]. apply Z.ltb_ge.
  assert (Hy' : year s = 1) by lia. assert (Hm' : month s = 1) by lia.
  rewrite Hy', Hm' in Hfix. lia.
Qed.

Lemma next_cycle_start_day d s :
  day (next_cycle_start_of d s) =
  target_day d (year (next_cycle_start_of d s))
    (month (next_cycle_start_of d s)).
Proof.
  unfold next_cycle_start_of. now destruct (following_month s).
Qed.

Lemma next_cycle_start_later d s :
  1 <= d -> Date.valid s -> Date.lt s (next_cycle_start_of d s).
Proof.
  intros Hd Hs. apply valid_iff in Hs as (Hys & Hms & Hds).
  apply date_lt_iff. unfold next_cycle_start_of, following_month.
  destruct (Z.eqb_spec (month s) 12); cbn [year month day]; lia.
Qed.

Lemma landing_month d s :
  1 <= d -> Date.valid s ->
  (year (landing s), month (landing s)) = following_month s \/
  ((year (landing s), month (landing s)) =
     following_month (next_cycle_start_of d s) /\
   day (landing s) <= 4).
Proof.
  intros Hd Hs. apply valid_iff in Hs as (Hys & Hms & Hds).
  unfold landing, next_cycle_start_of.
  destruct (following_month s) as [y1 m1] eqn:F1.
  rewrite <- (date_eta s) in F1.
  pose proof (following_month_range _ _ _ _ _ Hms F1) as [Hm1 Hy1].
  pose proof (days_in_month_bounds (year s) (month s) Hms) as HL.
  pose proof (days_in_month_bounds y1 m1 Hm1) as HL1.
  destruct (Z.leb_spec (day s + 32 - days_in_month (year s) (month s))
              (days_in_month y1 m1)); [left; reflexivity | right].
  change (following_month (mkdate y1 m1 (target_day d y1 m1)))
    with (following_month
            (mkdate y1 m1 (day s + 32 - days_in_month (year s) (month s)))).
  destruct (following_month
              (mkdate y1 m1 (day s + 32 - days_in_month (year s) (month s)))).
  cbn [year month day]. split; [reflexivity | lia].
Qed.

End NextCycle.

(** * The end of a cycle *)

(** C3, as the claim states it, fails: 32 days after 31 January 2023, a
    cycle start for anchor day 31, lie in March, not in the month after
    January. *)
Lemma next_cycle_start_counterexample :
  resolve 31 (mkdate 2023 1 31) = Ok (mkdate 2023 1 31) /\
  Date.add_days (mkdate 2023 1 31) 32 = Ok (mkdate 2023 3 4) /\
  ~ (forall d s t', 1 <= d <= 31 -> Date.valid s -> resolve d s = Ok s ->
       Date.add_days s 32 = Ok t' ->
       (year t', month t') = following_month s).
Proof.
  split; [reflexivity|]. split; [reflexivity|].
  intros H.
  specialize (H 31 (mkdate 2023 1 31) (mkdate 2023 3 4)).
  discriminate H; [lia | reflexivity | reflexivity | reflexivity].
Qed.

(** C3 (amended). For an anchor day from 1 to 31 and a cycle start [s] (a
    date the resolver maps to itself) such that 32 days after [s] is still a
    date of the calendar, the resolver called on that date returns the start
    of the next cycle, the clamped anchor day of the month after the month of
    [s].  That start is after [s] and is itself a cycle start; the date 32
    days after [s] lies in the month after [s] or in the first four days of
    the month after that; and the dates that resolve to [s] are exactly those
    from [s] up to the day before the next start, so that no date is left
    out or counted twice between two cycles. *)
Theorem next_cycle_start_correct (d : Z) (s t' : date) :
  1 <= d <= 31 -> Date.valid s -> resolve d s = Ok s ->
  Date.add_days s 32 = Ok t' ->
  let nxt := next_cycle_start_of d s in
  resolve d t' = Ok nxt /\
  Date.lt s nxt /\
  resolve d nxt = Ok nxt /\
  ((year t', month t') = following_month s \/
   ((year t', month t') = following_month nxt /\ day t' <= 4)) /\
  (forall t, Date.valid t ->
     resolve d t = Ok s <-> Date.le s t /\ Date.lt t nxt).
Proof.
  intros Hd Hv Hs Ht' nxt.
  assert (Hd1 : 1 <= d) by lia.
  pose proof (resolve_fixed_day d s Hd1 Hv Hs) as Hfix.
  apply add_days_32_inv in Ht' as [-> Hland]; [|assumption].
  pose proof (next_cycle_start_valid d s Hd1 Hv Hland) as Hnv.
  pose proof (next_cycle_start_day d s) as Hnfix.
  pose proof (landing_in_next_cycle d s Hd1 Hv Hfix Hland) as Hin.
  pose proof (landing_valid s Hv Hland) as Hlv.
  fold nxt in Hnv, Hnfix, Hin.
  assert (Hnb : before_first_month d (landing s) = false)
    by (apply (not_before_first_month d nxt); tauto).
  split; [|split; [|split; [|split]]].
  - rewrite resolve_eq, Hnb by assumption. f_equal.
    now apply resolve_design_cycle.
  - now apply next_cycle_start_later.
  - now apply resolve_fixed.
  - now apply landing_month.
  - intros t Htv. split.
    + intros Ht. rewrite resolve_eq in Ht by assumption.
      destruct (before_first_month d t) eqn:Hb; [discriminate|].
      injection Ht as Ht. now apply (resolve_design_cycle d s t) in Ht.
    + intros [Hle Hlt].
      pose proof (not_before_first_month d s t Hv Hfix Hle) as Hb.
      rewrite resolve_eq, Hb by assumption. f_equal.
      now apply resolve_design_cycle.
Qed.

Lemma next_cycle_start_correct_witness :
  1 <= 31 <= 31 /\ Date.valid (mkdate 2023 1 31) /\
  resolve 31 (mkdate 2023 1 31) = Ok (mkdate 2023 1 31) /\
  Date.add_days (mkdate 2023 1 31) 32 = Ok (mkdate 2023 3 4) /\
  resolve 31 (mkdate 2023 3 4) = Ok (mkdate 2023 2 28) /\
  Date.lt (mkdate 2023 1 31) (mkdate 2023 2 28).
Proof.
  split; [lia|]. split; [reflexivity|]. split; [reflexivity|].
  split; [reflexivity|].
  pose proof (next_cycle_start_correct 31 (mkdate 2023 1 31) (mkdate 2023 3 4)
                ltac:(lia) eq_refl eq_refl eq_refl) as (H1 & H2 & _).
  split; [exact H1 | exact H2].
Defined.

(** The next cycle start across the month lengths of the claim. *)
Example next_cycle_start_examples :
  (r <- Date.add_days (mkdate 2024 1 31) 32 ;; resolve 31 r)
    = Ok (mkdate 2024 2 29) /\
  (r <- Date.add_days (mkdate 2024 2 29) 32 ;; resolve 31 r)
    = Ok (mkdate 2024 3 31) /\
  (r <- Date.add_days (mkdate 2024 3 31) 32 ;; resolve 31 r)
    = Ok (mkdate 2024 4 30) /\
  (r <- Date.add_days (mkdate 2023 12 8) 32 ;; resolve 8 r)
    = Ok (mkdate 2024 1 8) /\
  (r <- Date.add_days (mkdate 9999 12 8) 32 ;; resolve 8 r)
    = Raise OverflowError.
Proof. repeat split; vm_compute; reflexivity. Qed.

(** * Facts about queries *)

Section QueryFacts.
Context {A : Type} (le : A -> A -> bool).

Lemma insert_by_perm x l : Permutation (insert_by le x l) (x :: l).
Proof.
  induction l as [|y l IH]; cbn [insert_by]; [reflexivity|].
  destruct (le x y); [reflexivity|].
  rewrite IH. apply perm_swap.
Qed.

Lemma order_by_perm l : Permutation (order_by le l) l.
Proof.
  unfold order_by. induction l as [|x l IH]; cbn [fold_right]; [reflexivity|].
  rewrite insert_by_perm. now constructor.
Qed.

Lemma order_by_In l x : In x (order_by le l) <-> In x l.
Proof.
  split; apply Permutation_in;
    [apply order_by_perm | symmetry; apply order_by_perm].
Qed.

End QueryFacts.

Section ResolverResults.

(** Every date the resolver returns went through the constructor. *)
Lemma get_current_cycle_start_valid clock d today r :
  get_current_cycle_start clock d today = Ok r -> Date.valid r.
Proof.
  unfold get_current_cycle_start. cbv zeta.
  set (t := match today with Some t => t | None => clock end).
  destruct (get_actual_day (year t) (month t) d) as [c|]; cbn [bind];
    [|discriminate].
  destruct (day t >=? c).
  - intros H. now apply make_inv in H.
  - destruct (Date.make (year t) (month t) 1) as [f|]; cbn [bind];
      [|discriminate].
    destruct (Date.sub_days f 1) as [l|]; cbn [bind]; [|discriminate].
    destruct (get_actual_day (year l) (month l) d) as [p|]; cbn [bind];
      [|discriminate].
    intros H. now apply make_inv in H.
Qed.

Lemma add_days_valid t n r : Date.add_days t n = Ok r -> Date.valid r.
Proof.
  unfold Date.add_days, Date.fromordinal. cbv zeta.
  destruct ((0 <? Date.toordinal t + n) && (Date.toordinal t + n <=? Calendar.MAXORDINAL));
    [|discriminate].
  destruct (Calendar.ord2ymd (Date.toordinal t + n)) as [[y m] d].
  intros H. now apply make_inv in H.
Qed.

(** The end of a statement lies after its start. *)
Lemma resolve_after d s t' n :
  Date.valid s -> Date.add_days s 32 = Ok t' -> resolve d t' = Ok n ->
  Date.lt s n.
Proof.
  intros Hs Hadd Hres.
  pose proof (add_days_valid _ _ _ Hadd) as Ht'.
  destruct (Z_le_gt_dec d 0) as [Hd0 | Hd1].
  { rewrite resolve_nonpositive in Hres by assumption. discriminate. }
  assert (Hd : 1 <= d) by lia.
  apply add_days_32_inv in Hadd as [-> Hland]; [|assumption].
  apply resolve_ok_inv in Hres as [Hb ->]; [|assumption|assumption].
  apply valid_iff in Hs as (Hys & Hms & Hds).
  apply date_lt_iff.
  unfold resolve_design, landing, preceding_month, following_month in *.
  pose proof (days_in_month_bounds (year s) (month s) Hms) as HL.
  rewrite Z.geb_leb.
  destruct s as [ys ms ds]. cbn [year month day] in *.
  unfold target_day.
  destruct (Z.eqb_spec ms 12) as [-> | Hs12]; cbn [year month day] in *.
  - pose proof (days_in_month_bounds (ys + 1) 1 ltac:(lia)).
    pose proof (days_in_month_bounds (ys + 1) 2 ltac:(lia)).
    pose proof (days_in_month_bounds ys 12 ltac:(lia)).
    repeat match goal with
           | |- context [?a =? ?b] => destruct (Z.eqb_spec a b)
           | |- context [?a <=? ?b] => destruct (Z.leb_spec a b)
           | |- context [Z.min ?a ?b] => destruct (Z.min_spec a b) as [[? ->] | [? ->]]
           end; cbn [year month day] in *; rewrite ?Z.add_simpl_r in *; lia.
  - pose proof (days_in_month_bounds ys (ms + 1) ltac:(lia)).
    repeat match goal with
           | |- context [?a =? ?b] => destruct (Z.eqb_spec a b)
           | |- context [?a <=? ?b] => destruct (Z.leb_spec a b)
           | |- context [Z.min ?a ?b] => destruct (Z.min_spec a b) as [[? ->] | [? ->]]
           end; cbn [year month day] in *; rewrite ?Z.add_simpl_r in *; lia.
Qed.

End ResolverResults.

(** * The aggregation *)

Section Aggregation.

(** What a sent statement was computed from. *)
Lemma download_statement_sent e session year_ month_ s s' st :
  download_statement e session year_ month_ s = (s', Ok (SendStatement st)) ->
  exists current_user budget next_month_date next_cycle_start,
    s' = s /\
    load_user s session = Some current_user /\
    In budget (budgets s) /\
    MonthlyBudget.user_id budget = User.id current_user /\
    Date.add_days (st_cycle_start st) 32 = Ok next_month_date /\
    resolve (User.salary_credit_day current_user) next_month_date
      = Ok next_cycle_start /\
    let txs :=
      order_by date_asc
        (filter (in_statement (User.id current_user) (st_cycle_start st)
                   next_cycle_start) (transactions s)) in
    st = mkstatement (User.username current_user) (st_cycle_start st) budget
           txs (sum_amounts (map Transaction.amount txs))
           (PrimFloat.sub (MonthlyBudget.salary_credited budget)
              (sum_amounts (map Transaction.amount txs))).
Proof.
  unfold download_statement, login_required.
  destruct (load_user s session) as [u|] eqn:Hu; [|intros [= _ H]; discriminate].
  cbv zeta.
  set (sel := match nonzero year_ with
              | Some y => _
              | None => _
              end).
  intros [= <- H]. revert H.
  assert (Hsel : forall cs b, sel = Ok (inr (cs, Some b)) ->
                 In b (budgets s) /\ MonthlyBudget.user_id b = User.id u).
  { subst sel. intros cs b.
    assert (Hfind : forall f, find f (budgets s) = Some b -> In b (budgets s))
      by (intros f Hf; now apply find_some in Hf).
    assert (Hcur :
      (cycle_start <-
         get_current_cycle_start (clock_date e) (User.salary_credit_day u) None ;;
       Ok (inr (cycle_start, budget_of_cycle s (User.id u) cycle_start)))
      = Ok (@inr response _ (cs, Some b)) ->
      In b (budgets s) /\ MonthlyBudget.user_id b = User.id u).
    { destruct (get_current_cycle_start _ _ None) as [c|]; cbn [bind];
        [|discriminate].
      intros [= -> Hb]. unfold budget_of_cycle in Hb.
      apply find_some in Hb as [Hin Hb]. split; [assumption|].
      apply andb_prop in Hb as [Hb _]. now apply Z.eqb_eq in Hb. }
    destruct (nonzero year_) as [y|]; [|exact Hcur].
    destruct (nonzero month_) as [m|]; [|exact Hcur].
    unfold budget_of_month.
    destruct (find _ (budgets s)) as [b'|] eqn:Hb.
    - intros [= _ <-]. apply find_some in Hb as [Hin Hb].
      split; [assumption|].
      apply andb_prop in Hb as [Hb _]. apply andb_prop in Hb as [Hb _].
      now apply Z.eqb_eq in Hb.
    - destruct (Date.make y m 1); cbn [bind]; discriminate. }
  assert (Hearly : forall st0, sel <> Ok (inl (SendStatement st0))).
  { subst sel. intros st0.
    destruct (nonzero year_) as [y|]; [destruct (nonzero month_) as [m|]|];
      try (destruct (get_current_cycle_start _ _ None); cbn [bind];
           discriminate).
    destruct (budget_of_month s (User.id u) y m); [discriminate|].
    destruct (Date.make y m 1); cbn [bind]; discriminate. }
  clearbody sel.
  destruct sel as [[early | [cs [b|]]] | x]; cbn [bind]; try discriminate.
  - intros [= ->]. now elim (Hearly st).
  - destruct (Hsel cs b eq_refl) as [Hin Huid].
    destruct (Date.add_days cs 32) as [nmd|] eqn:Hadd; cbn [bind];
      [|discriminate].
    destruct (get_current_cycle_start (clock_date e) (User.salary_credit_day u)
                (Some nmd)) as [ncs|] eqn:Hres; cbn [bind]; [|discriminate].
    intros [= <-]. cbn [st_cycle_start].
    exists u, b, nmd, ncs. repeat split; try assumption.
Qed.

(** What a rendered home view was computed from. *)
Lemma index_rendered e session s s' ctx :
  index e session s = (s', Ok (RenderIndex ctx)) ->
  exists current_user,
    s' = s /\
    load_user s session = Some current_user /\
    resolve (User.salary_credit_day current_user) (clock_date e)
      = Ok (ix_cycle_start ctx) /\
    budget_of_cycle s (User.id current_user) (ix_cycle_start ctx)
      = Some (ix_budget ctx) /\
    let txs :=
      order_by date_time_desc
        (filter (in_open_cycle (User.id current_user) (ix_cycle_start ctx))
           (transactions s)) in
    ctx = mkindex (ix_budget ctx) txs (sum_amounts (map Transaction.amount txs))
            (PrimFloat.sub (MonthlyBudget.salary_credited (ix_budget ctx))
               (sum_amounts (map Transaction.amount txs)))
            (ix_cycle_start ctx).
Proof.
  unfold index, login_required.
  destruct (load_user s session) as [u|] eqn:Hu; [|intros [= _ H]; discriminate].
  intros [= <- H]. revert H.
  change (get_current_cycle_start (clock_date e) (User.salary_credit_day u) None)
    with (resolve (User.salary_credit_day u) (clock_date e)).
  destruct (resolve _ _) as [cs|] eqn:Hres; cbn [bind]; [|discriminate].
  destruct (budget_of_cycle s (User.id u) cs) as [b|] eqn:Hb; [|discriminate].
  intros [= <-]. cbn [ix_cycle_start ix_budget].
  exists u. repeat split; assumption.
Qed.

Lemma in_statement_iff uid cs ncs t :
  in_statement uid cs ncs t = true <->
  Transaction.user_id t = uid /\ Date.le cs (Transaction.date t) /\
  Date.lt (Transaction.date t) ncs.
Proof.
  unfold in_statement, Date.geb, Date.le, Date.lt.
  rewrite !andb_true_iff, Z.eqb_eq. tauto.
Qed.

Lemma in_open_cycle_iff uid cs t :
  in_open_cycle uid cs t = true <->
  Transaction.user_id t = uid /\ Date.le cs (Transaction.date t).
Proof.
  unfold in_open_cycle, Date.geb, Date.le.
  rewrite !andb_true_iff, Z.eqb_eq. tauto.
Qed.

Lemma date_lt_irrefl a : ~ Date.lt a a.
Proof. rewrite date_lt_iff. lia. Qed.

Lemma date_le_refl a : Date.le a a.
Proof. rewrite date_le_iff. lia. Qed.

(** The home view is rendered whenever the resolver returns a cycle start
    for which the user has an allocation. *)
Lemma index_renders e session s current_user cycle_start budget :
  load_user s session = Some current_user ->
  resolve (User.salary_credit_day current_user) (clock_date e)
    = Ok cycle_start ->
  budget_of_cycle s (User.id current_user) cycle_start = Some budget ->
  let txs :=
    order_by date_time_desc
      (filter (in_open_cycle (User.id current_user) cycle_start)
         (transactions s)) in
  index e session s
  = (s, Ok (RenderIndex
              (mkindex budget txs (sum_amounts (map Transaction.amount txs))
                 (PrimFloat.sub (MonthlyBudget.salary_credited budget)
                    (sum_amounts (map Transaction.amount txs)))
                 cycle_start))).
Proof.
  intros Hu Hres Hb txs. unfold index, login_required. rewrite Hu.
  change (get_current_cycle_start (clock_date e)
            (User.salary_credit_day current_user) None)
    with (resolve (User.salary_credit_day current_user) (clock_date e)).
  rewrite Hres. cbn [bind]. now rewrite Hb.
Qed.

End Aggregation.

(** C4. A sent statement is made of exactly the transactions of the user
    dated from its cycle start up to, and not including, the start of the next
    cycle, which is what the resolver returns for the date 32 days after the
    cycle start; a transaction dated on that next start is not in the
    statement and is in the statement that starts there.  The home view is
    made of exactly the transactions of the user dated from the cycle start
    on, with no upper bound, and it is shown whenever the resolver returns a
    cycle start for which the user has an allocation: what it lists is then
    that selection of the table, latest first. *)
Theorem aggregation_range (e : env) (session : option Z) (s : db) :
  (forall year_ month_ s' st,
     download_statement e session year_ month_ s
       = (s', Ok (SendStatement st)) ->
     exists current_user next_month_date next_cycle_start,
       load_user s session = Some current_user /\
       Date.add_days (st_cycle_start st) 32 = Ok next_month_date /\
       resolve (User.salary_credit_day current_user) next_month_date
         = Ok next_cycle_start /\
       Permutation (st_transactions st)
         (filter (in_statement (User.id current_user) (st_cycle_start st)
                    next_cycle_start) (transactions s)) /\
       (forall t,
          In t (st_transactions st) <->
          In t (transactions s) /\
          Transaction.user_id t = User.id current_user /\
          Date.le (st_cycle_start st) (Transaction.date t) /\
          Date.lt (Transaction.date t) next_cycle_start) /\
       (forall t, Transaction.date t = next_cycle_start ->
          ~ In t (st_transactions st)) /\
       (forall e2 year2 month2 s2 st2 t,
          download_statement e2 session year2 month2 s
            = (s2, Ok (SendStatement st2)) ->
          st_cycle_start st2 = next_cycle_start ->
          In t (transactions s) ->
          Transaction.user_id t = User.id current_user ->
          Transaction.date t = next_cycle_start ->
          In t (st_transactions st2))) /\
  (forall s' ctx,
     index e session s = (s', Ok (RenderIndex ctx)) ->
     exists current_user,
       load_user s session = Some current_user /\
       resolve (User.salary_credit_day current_user) (clock_date e)
         = Ok (ix_cycle_start ctx) /\
       Permutation (ix_transactions ctx)
         (filter (in_open_cycle (User.id current_user) (ix_cycle_start ctx))
            (transactions s)) /\
       (forall t,
          In t (ix_transactions ctx) <->
          In t (transactions s) /\
          Transaction.user_id t = User.id current_user /\
          Date.le (ix_cycle_start ctx) (Transaction.date t))) /\
  (forall current_user cycle_start budget,
     load_user s session = Some current_user ->
     resolve (User.salary_credit_day current_user) (clock_date e)
       = Ok cycle_start ->
     budget_of_cycle s (User.id current_user) cycle_start = Some budget ->
     exists ctx,
       index e session s = (s, Ok (RenderIndex ctx)) /\
       ix_cycle_start ctx = cycle_start /\
       ix_transactions ctx
       = order_by date_time_desc
           (filter (in_open_cycle (User.id current_user) cycle_start)
              (transactions s)) /\
       (forall t,
          In t (transactions s) ->
          Transaction.user_id t = User.id current_user ->
          Date.le cycle_start (Transaction.date t) ->
          In t (ix_transactions ctx))).
Proof.
  split; [|split].
  - intros year_ month_ s' st Hst.
    apply download_statement_sent in Hst
      as (u & b & nmd & ncs & -> & Hu & Hb & Hbu & Hadd & Hres & Hst).
    cbv zeta in Hst.
    exists u, nmd, ncs.
    assert (Htx : st_transactions st =
                  order_by date_asc
                    (filter (in_statement (User.id u) (st_cycle_start st) ncs)
                       (transactions s)))
      by (rewrite Hst at 1; reflexivity).
    assert (Hin : forall t,
               In t (st_transactions st) <->
               In t (transactions s) /\
               Transaction.user_id t = User.id u /\
               Date.le (st_cycle_start st) (Transaction.date t) /\
               Date.lt (Transaction.date t) ncs).
    { intros t. rewrite Htx, order_by_In, filter_In, in_statement_iff.
      tauto. }
    repeat (split; [assumption|]).
    split; [rewrite Htx; apply order_by_perm|].
    split; [exact Hin|]. split.
    + intros t Ht Hint. apply Hin in Hint as (_ & _ & _ & Hlt).
      rewrite Ht in Hlt. now apply date_lt_irrefl in Hlt.
    + intros e2 year2 month2 s2 st2 t Hst2 Hstart Hint Huid Hdate.
      apply download_statement_sent in Hst2
        as (u2 & b2 & nmd2 & ncs2 & -> & Hu2 & Hb2 & Hbu2 & Hadd2 & Hres2 & Hst2).
      cbv zeta in Hst2.
      rewrite Hu in Hu2. injection Hu2 as <-.
      rewrite Hst2. cbn [st_transactions].
      rewrite order_by_In, filter_In, in_statement_iff.
      split; [assumption|]. split; [assumption|].
      rewrite Hdate, Hstart. split; [apply date_le_refl|].
      apply (resolve_after (User.salary_credit_day u) ncs nmd2 ncs2).
      * unfold resolve in Hres.
        now apply get_current_cycle_start_valid in Hres.
      * now rewrite <- Hstart.
      * assumption.
  - intros s' ctx Hctx.
    apply index_rendered in Hctx as (u & -> & Hu & Hres & Hb & Hctx).
    cbv zeta in Hctx. exists u.
    assert (Htx : ix_transactions ctx =
                  order_by date_time_desc
                    (filter (in_open_cycle (User.id u) (ix_cycle_start ctx))
                       (transactions s)))
      by (rewrite Hctx at 1; reflexivity).
    repeat (split; [assumption|]).
    split; [rewrite Htx; apply order_by_perm|].
    intros t. rewrite Htx, order_by_In, filter_In, in_open_cycle_iff. tauto.
  - intros u cs b Hu Hres Hb.
    pose proof (index_renders e session s u cs b Hu Hres Hb) as Hix.
    cbv zeta in Hix. eexists. split; [exact Hix|].
    cbn [ix_cycle_start ix_transactions].
    split; [reflexivity|]. split; [reflexivity|].
    intros t Hin Huid Hle.
    rewrite order_by_In, filter_In, in_open_cycle_iff. auto.
Qed.

Lemma aggregation_range_witness :
  let asha := User.mk 1 "asha" "secret" 8 in
  load_user demo_db (Some 1) = Some asha /\
  (exists st,
     download_statement (demo_clock 2024 3 9) (Some 1) (Some 2024) (Some 2)
       demo_db = (demo_db, Ok (SendStatement st)) /\
     map Transaction.amount (st_transactions st) = [100.5%float; 40%float] /\
     exists next_month_date next_cycle_start,
       Date.add_days (st_cycle_start st) 32 = Ok next_month_date /\
       resolve 8 next_month_date = Ok next_cycle_start /\
       forall t, Transaction.date t = next_cycle_start ->
                 ~ In t (st_transactions st)) /\
  (exists ctx,
     index (demo_clock 2024 3 5) (Some 1) demo_db
       = (demo_db, Ok (RenderIndex ctx)) /\
     ix_cycle_start ctx = mkdate 2024 2 8 /\
     map Transaction.amount (ix_transactions ctx)
     = [25%float; 40%float; 100.5%float]).
Proof.
  intros asha.
  assert (Hu : load_user demo_db (Some 1) = Some asha)
    by (vm_compute; reflexivity).
  split; [exact Hu|].
  pose proof (aggregation_range (demo_clock 2024 3 9) (Some 1) demo_db)
    as (Hsent & _ & _).
  pose proof (aggregation_range (demo_clock 2024 3 5) (Some 1) demo_db)
    as (_ & _ & Hrenders).
  split.
  - assert (Hsends :
      { st | download_statement (demo_clock 2024 3 9) (Some 1) (Some 2024)
               (Some 2) demo_db = (demo_db, Ok (SendStatement st)) /\
             map Transaction.amount (st_transactions st)
             = [100.5%float; 40%float] })
      by (eexists; split; vm_compute; reflexivity).
    destruct Hsends as (st & Hst & Hamounts).
    exists st. split; [exact Hst|]. split; [exact Hamounts|].
    destruct (Hsent (Some 2024) (Some 2) demo_db st Hst)
      as (u & nmd & ncs & Hu' & Hadd & Hres & _ & _ & Hout & _).
    rewrite Hu in Hu'. injection Hu' as <-.
    exists nmd, ncs. auto.
  - destruct (Hrenders asha (mkdate 2024 2 8)
                (MonthlyBudget.mk 1 1 (mkdate 2024 2 8) 1000%float) Hu)
      as (ctx & Hix & Hstart & Htx & _).
    { vm_compute; reflexivity. }
    { vm_compute; reflexivity. }
    exists ctx. split; [exact Hix|]. split; [exact Hstart|].
    rewrite Htx. vm_compute. reflexivity.
Defined.

Section Totals.

Lemma sum_amounts_snoc l x :
  sum_amounts (l ++ [x]) = PrimFloat.add (sum_amounts l) x.
Proof. unfold sum_amounts. now rewrite fold_left_app. Qed.

End Totals.

(** C5. The aggregator adds the amounts of the transactions in range, from
    zero and in the order of the view, into [total_spent], and subtracts that
    from the allocated credit into [remaining_balance], with no clamping.
    The transactions in range are the selection of the table: a sent
    statement and a shown home view hold that selection in the order of the
    view with these two totals, and the home view is shown, with them,
    whenever the resolver returns a cycle start for which the user has an
    allocation.  Amounts 100.50 and 40.00 against 1000 give 140.50 and
    859.50, and 150 against 100 gives -50. *)
Theorem aggregation_totals (e : env) (session : option Z) (s : db) :
  (forall year_ month_ s' st,
     download_statement e session year_ month_ s
       = (s', Ok (SendStatement st)) ->
     exists current_user next_month_date next_cycle_start,
       load_user s session = Some current_user /\
       Date.add_days (st_cycle_start st) 32 = Ok next_month_date /\
       resolve (User.salary_credit_day current_user) next_month_date
         = Ok next_cycle_start /\
       st_transactions st
       = order_by date_asc
           (filter (in_statement (User.id current_user) (st_cycle_start st)
                      next_cycle_start) (transactions s)) /\
       st_total_spent st
       = sum_amounts (map Transaction.amount (st_transactions st)) /\
       st_remaining_balance st
       = PrimFloat.sub (MonthlyBudget.salary_credited (st_budget st))
           (st_total_spent st)) /\
  (forall s' ctx,
     index e session s = (s', Ok (RenderIndex ctx)) ->
     exists current_user,
       load_user s session = Some current_user /\
       ix_transactions ctx
       = order_by date_time_desc
           (filter (in_open_cycle (User.id current_user) (ix_cycle_start ctx))
              (transactions s)) /\
       ix_total_spent ctx
       = sum_amounts (map Transaction.amount (ix_transactions ctx)) /\
       ix_remaining_balance ctx
       = PrimFloat.sub (MonthlyBudget.salary_credited (ix_budget ctx))
           (ix_total_spent ctx)) /\
  (forall current_user cycle_start budget,
     load_user s session = Some current_user ->
     resolve (User.salary_credit_day current_user) (clock_date e)
       = Ok cycle_start ->
     budget_of_cycle s (User.id current_user) cycle_start = Some budget ->
     let txs :=
       order_by date_time_desc
         (filter (in_open_cycle (User.id current_user) cycle_start)
            (transactions s)) in
     let total_spent := sum_amounts (map Transaction.amount txs) in
     index e session s
     = (s, Ok (RenderIndex
                 (mkindex budget txs total_spent
                    (PrimFloat.sub (MonthlyBudget.salary_credited budget)
                       total_spent) cycle_start)))) /\
  sum_amounts [] = 0%float /\
  (forall l x, sum_amounts (l ++ [x]) = PrimFloat.add (sum_amounts l) x) /\
  sum_amounts [100.5%float; 40%float] = 140.5%float /\
  PrimFloat.sub 1000%float (sum_amounts [100.5%float; 40%float])
    = 859.5%float /\
  PrimFloat.sub 100%float (sum_amounts [150%float]) = (-50)%float.
Proof.
  split; [|split; [|split]].
  - intros year_ month_ s' st Hst.
    apply download_statement_sent in Hst
      as (u & b & nmd & ncs & _ & Hu & _ & _ & Hadd & Hres & Hst).
    cbv zeta in Hst. exists u, nmd, ncs.
    repeat (split; [assumption|]).
    rewrite Hst. cbn [st_transactions st_total_spent st_remaining_balance
                      st_budget st_cycle_start].
    split; [reflexivity|]. split; reflexivity.
  - intros s' ctx Hctx.
    apply index_rendered in Hctx as (u & _ & Hu & _ & _ & Hctx).
    cbv zeta in Hctx. exists u. split; [assumption|].
    rewrite Hctx. cbn [ix_transactions ix_total_spent ix_remaining_balance
                       ix_budget ix_cycle_start].
    split; [reflexivity|]. split; reflexivity.
  - intros u cs b Hu Hres Hb. now apply index_renders.
  - split; [reflexivity|]. split; [exact sum_amounts_snoc|].
    split; [vm_compute; reflexivity|]. split; vm_compute; reflexivity.
Qed.

Lemma aggregation_totals_witness :
  let asha := User.mk 1 "asha" "secret" 8 in
  let credit := MonthlyBudget.mk 1 1 (mkdate 2024 2 8) 1000%float in
  load_user demo_db (Some 1) = Some asha /\
  load_user demo_early (Some 1) = Some asha /\
  (exists st,
     download_statement (demo_clock 2024 3 9) (Some 1) (Some 2024) (Some 2)
       demo_db = (demo_db, Ok (SendStatement st)) /\
     st_budget st = credit /\
     map Transaction.amount (st_transactions st) = [100.5%float; 40%float] /\
     st_total_spent st = 140.5%float /\
     st_remaining_balance st = 859.5%float) /\
  (exists ctx,
     index (demo_clock 2024 3 5) (Some 1) demo_early
       = (demo_early, Ok (RenderIndex ctx)) /\
     ix_budget ctx = credit /\
     map Transaction.amount (ix_transactions ctx) = [40%float; 100.5%float] /\
     ix_total_spent ctx = 140.5%float /\
     ix_remaining_balance ctx = 859.5%float).
Proof.
  intros asha credit.
  assert (Hu : load_user demo_db (Some 1) = Some asha)
    by (vm_compute; reflexivity).
  assert (Hu' : load_user demo_early (Some 1) = Some asha)
    by (vm_compute; reflexivity).
  split; [exact Hu|]. split; [exact Hu'|].
  pose proof (aggregation_totals (demo_clock 2024 3 9) (Some 1) demo_db)
    as (Hsent & _).
  pose proof (aggregation_totals (demo_clock 2024 3 5) (Some 1) demo_early)
    as (_ & _ & Hrenders & _).
  split.
  - assert (Hsends :
      { st | download_statement (demo_clock 2024 3 9) (Some 1) (Some 2024)
               (Some 2) demo_db = (demo_db, Ok (SendStatement st)) /\
             st_budget st = credit /\
             map Transaction.amount (st_transactions st)
             = [100.5%float; 40%float] })
      by (eexists; split; [|split]; vm_compute; reflexivity).
    destruct Hsends as (st & Hst & Hcredit & Hamounts).
    exists st. split; [exact Hst|]. split; [exact Hcredit|].
    split; [exact Hamounts|].
    destruct (Hsent (Some 2024) (Some 2) demo_db st Hst)
      as (_ & _ & _ & _ & _ & _ & _ & Htotal & Hleft).
    rewrite Hleft, Htotal, Hcredit, Hamounts.
    split; vm_compute; reflexivity.
  - eexists. split.
    + apply (Hrenders asha (mkdate 2024 2 8) credit Hu').
      * vm_compute; reflexivity.
      * vm_compute; reflexivity.
    + cbn [ix_budget ix_transactions ix_total_spent ix_remaining_balance].
      split; [reflexivity|]. repeat split; vm_compute; reflexivity.
Defined.

(** Without an allocation for the resolved cycle start, the home view
    answers with a redirect to the page that sets a budget and the statement
    download with a redirect to the home view and the notice that there is no
    data; so does the download of a month of the calendar in which none of
    the user's allocations starts.  The database is left as it was, no view
    or statement is produced, and nothing is raised. *)
Lemma no_allocation_outcome (e : env) (session : option Z) (s : db)
  (current_user : User.t) :
  load_user s session = Some current_user ->
  (forall cycle_start,
     get_current_cycle_start (clock_date e)
       (User.salary_credit_day current_user) None = Ok cycle_start ->
     budget_of_cycle s (User.id current_user) cycle_start = None ->
     index e session s = (s, Ok (Redirect ep_set_budget [] None)) /\
     forall year_ month_,
       nonzero year_ = None \/ nonzero month_ = None ->
       download_statement e session year_ month_ s
         = (s, Ok (Redirect ep_index [NoDataCurrentCycle] None))) /\
  (forall year_ month_ y m,
     nonzero year_ = Some y -> nonzero month_ = Some m ->
     1 <= y <= 9999 -> 1 <= m <= 12 ->
     budget_of_month s (User.id current_user) y m = None ->
     download_statement e session year_ month_ s
       = (s, Ok (Redirect ep_index [NoDataForMonth (mkdate y m 1)] None))).
Proof.
  intros Hu. split.
  - intros cs Hcs Hb. split.
    + unfold index, login_required. rewrite Hu, Hcs. cbn [bind].
      now rewrite Hb.
    + intros year_ month_ Hnone.
      unfold download_statement, login_required. rewrite Hu. cbv zeta.
      assert (Hsel :
        match nonzero year_ with
        | Some y =>
            match nonzero month_ with
            | Some m =>
                match budget_of_month s (User.id current_user) y m with
                | Some budget =>
                    Ok (inr (MonthlyBudget.month_start_date budget, Some budget))
                | None =>
                    first_of_month <- Date.make y m 1 ;;
                    Ok (inl (Redirect ep_index [NoDataForMonth first_of_month]
                               None))
                end
            | None =>
                c <- get_current_cycle_start (clock_date e)
                       (User.salary_credit_day current_user) None ;;
                Ok (inr (c, budget_of_cycle s (User.id current_user) c))
            end
        | None =>
            c <- get_current_cycle_start (clock_date e)
                   (User.salary_credit_day current_user) None ;;
            Ok (inr (c, budget_of_cycle s (User.id current_user) c))
        end = Ok (@inr response _ (cs, None))).
      { rewrite Hcs. cbn [bind]. rewrite Hb.
        destruct Hnone as [-> | Hm]; [reflexivity|].
        rewrite Hm. now destruct (nonzero year_). }
      rewrite Hsel. reflexivity.
  - intros year_ month_ y m Hy Hm Hyr Hmr Hb.
    unfold download_statement, login_required. rewrite Hu. cbv zeta.
    rewrite Hy, Hm, Hb.
    pose proof (days_in_month_bounds y m Hmr).
    rewrite make_ok by lia. reflexivity.
Qed.

Lemma no_allocation_outcome_witness :
  exists current_user,
    load_user demo_db (Some 1) = Some current_user /\
    budget_of_cycle demo_db (User.id current_user) (mkdate 2024 4 8) = None /\
    index (demo_clock 2024 4 9) (Some 1) demo_db
      = (demo_db, Ok (Redirect ep_set_budget [] None)) /\
    download_statement (demo_clock 2024 4 9) (Some 1) None None demo_db
      = (demo_db, Ok (Redirect ep_index [NoDataCurrentCycle] None)) /\
    download_statement (demo_clock 2024 4 9) (Some 1) (Some 2024) (Some 4)
      demo_db
      = (demo_db,
         Ok (Redirect ep_index [NoDataForMonth (mkdate 2024 4 1)] None)).
Proof.
  eexists. split; [vm_compute; reflexivity|]. split; [reflexivity|].
  pose proof (no_allocation_outcome (demo_clock 2024 4 9) (Some 1) demo_db _
                eq_refl) as [Hcur Hmonth].
  destruct (Hcur (mkdate 2024 4 8) eq_refl eq_refl) as [Hindex Hdown].
  split; [exact Hindex|]. split.
  - apply Hdown. now left.
  - apply (Hmonth (Some 2024) (Some 4) 2024 4); try reflexivity; lia.
Defined.

(** C7. The download of a month in which no allocation starts does raise
    when the month asked for is not one of the calendar.  A user of the
    sample run, on 9 April 2024, has no allocation for the resolved cycle
    start, 8 April, and none that starts in a month 13 of 2024.  The home
    view and the download of the current cycle answer with their redirects;
    the download of month 13 of 2024 raises [ValueError], from the date that
    the text of its notice is made of, and neither shows the notice nor
    redirects. *)
Theorem no_allocation_month_raises :
  let asha := User.mk 1 "asha" "secret" 8 in
  load_user demo_db (Some 1) = Some asha /\
  resolve (User.salary_credit_day asha) (mkdate 2024 4 9)
    = Ok (mkdate 2024 4 8) /\
  budget_of_cycle demo_db (User.id asha) (mkdate 2024 4 8) = None /\
  budget_of_month demo_db (User.id asha) 2024 13 = None /\
  index (demo_clock 2024 4 9) (Some 1) demo_db
    = (demo_db, Ok (Redirect ep_set_budget [] None)) /\
  download_statement (demo_clock 2024 4 9) (Some 1) None None demo_db
    = (demo_db, Ok (Redirect ep_index [NoDataCurrentCycle] None)) /\
  download_statement (demo_clock 2024 4 9) (Some 1) (Some 2024) (Some 4)
    demo_db
    = (demo_db, Ok (Redirect ep_index [NoDataForMonth (mkdate 2024 4 1)] None)) /\
  download_statement (demo_clock 2024 4 9) (Some 1) (Some 2024) (Some 13)
    demo_db
    = (demo_db, Raise ValueError).
Proof.
  intros asha.
  split; [vm_compute; reflexivity|]. split; [vm_compute; reflexivity|].
  split; [vm_compute; reflexivity|]. split; [vm_compute; reflexivity|].
  split; [vm_compute; reflexivity|]. split; [vm_compute; reflexivity|].
  split; vm_compute; reflexivity.
Qed.

(** * Allocations per cycle *)

Section Allocations.

Lemma next_id_above ids i : In i ids -> i < next_id ids.
Proof.
  unfold next_id. induction ids as [|j ids IH]; cbn [In fold_right];
    [tauto|].
  intros [-> | Hin]; [lia|]. specialize (IH Hin). lia.
Qed.

Lemma next_id_fresh ids : ~ In (next_id ids) ids.
Proof. intros H. apply next_id_above in H. lia. Qed.

Lemma set_credit_day_id uid d u : User.id (set_credit_day uid d u) = User.id u.
Proof. unfold set_credit_day. now destruct (User.id u =? uid). Qed.

Lemma map_set_credit_day_ids uid d us :
  map User.id (map (set_credit_day uid d) us) = map User.id us.
Proof.
  rewrite map_map. apply map_ext. intros u. apply set_credit_day_id.
Qed.

Lemma load_user_In s session u :
  load_user s session = Some u -> In (User.id u) (map User.id (users s)).
Proof.
  unfold load_user. destruct session as [uid|]; [|discriminate].
  intros H. apply find_some in H as [Hin _]. now apply in_map.
Qed.

Lemma allocated_inv uid cs b :
  allocated uid cs b = true ->
  MonthlyBudget.user_id b = uid /\ MonthlyBudget.month_start_date b = cs.
Proof.
  unfold allocated. intros H. apply andb_prop in H as [H1 H2].
  apply Z.eqb_eq in H1. apply date_eqb_eq in H2. auto.
Qed.

Lemma allocations_add us bs ts b uid cs :
  allocations (mkdb us (bs ++ [b]) ts) uid cs =
  (allocations (mkdb us bs ts) uid cs +
   (if allocated uid cs b then 1 else 0))%nat.
Proof.
  unfold allocations. cbn [budgets]. rewrite filter_app, length_app.
  cbn [filter]. now destruct (allocated uid cs b).
Qed.

Lemma allocations_none_of_find s uid cs :
  budget_of_cycle s uid cs = None -> allocations s uid cs = 0%nat.
Proof.
  unfold budget_of_cycle, allocations. intros H.
  destruct (filter _ (budgets s)) as [|b l] eqn:E; [reflexivity|].
  assert (Hin : In b (filter (allocated uid cs) (budgets s)))
    by (rewrite E; now left).
  apply filter_In in Hin as [Hin Hb].
  pose proof (find_none _ _ H b Hin) as Hno. cbv beta in Hno.
  unfold allocated in Hb. now rewrite Hno in Hb.
Qed.

Lemma allocations_none_of_stranger s uid cs :
  budgets_owned s -> ~ In uid (map User.id (users s)) ->
  allocations s uid cs = 0%nat.
Proof.
  intros Hown Hnew. unfold allocations.
  destruct (filter _ (budgets s)) as [|b l] eqn:E; [reflexivity|].
  assert (Hin : In b (filter (allocated uid cs) (budgets s)))
    by (rewrite E; now left).
  apply filter_In in Hin as [Hin Hb].
  apply allocated_inv in Hb as [Hb _].
  apply Hown in Hin. now rewrite Hb in Hin.
Qed.

Lemma db_eta s : mkdb (users s) (budgets s) (transactions s) = s.
Proof. now destruct s. Qed.

(** Adding an allocation where there is none keeps at most one. *)
Lemma at_most_one_add s b :
  at_most_one_allocation s ->
  allocations s (MonthlyBudget.user_id b) (MonthlyBudget.month_start_date b)
    = 0%nat ->
  at_most_one_allocation
    (mkdb (users s) (budgets s ++ [b]) (transactions s)).
Proof.
  intros Hone Hnone uid cs. rewrite allocations_add, db_eta.
  destruct (allocated uid cs b) eqn:Hb.
  - apply allocated_inv in Hb as [<- <-]. rewrite Hnone. lia.
  - specialize (Hone uid cs). lia.
Qed.

Lemma register_at_most_one hash e meth username password salary billing_cycle s :
  budgets_owned s -> at_most_one_allocation s ->
  at_most_one_allocation
    (fst (register hash e meth username password salary billing_cycle s)).
Proof.
  intros Hown Hone. unfold register.
  destruct meth; [exact Hone|].
  destruct (existsb _ (users s)); [exact Hone|].
  destruct password as [pw|]; [|exact Hone].
  destruct (convert billing_cycle) as [credit_day|]; [|exact Hone].
  destruct (negb (sqlite_integer credit_day)); [exact Hone|].
  destruct username as [name|]; [|exact Hone].
  destruct (get_current_cycle_start _ _ None) as [cs|]; [|exact Hone].
  destruct (convert salary) as [credited|]; [|exact Hone].
  destruct (negb (sqlite_float credited)); [exact Hone|].
  cbn [fst users budgets transactions].
  set (b := MonthlyBudget.mk _ _ cs credited).
  intros uid c. rewrite allocations_add.
  assert (Hsame : forall us, allocations (mkdb us (budgets s) (transactions s)) uid c
                             = allocations s uid c) by reflexivity.
  rewrite Hsame.
  destruct (allocated uid c b) eqn:Hb.
  - apply allocated_inv in Hb as [<- _]. subst b. cbn [MonthlyBudget.user_id User.id].
    rewrite (allocations_none_of_stranger s _ c Hown (next_id_fresh _)). lia.
  - specialize (Hone uid c). lia.
Qed.

Lemma set_budget_at_most_one e session meth salary s :
  no_current_allocation e session s -> at_most_one_allocation s ->
  at_most_one_allocation (fst (set_budget e session meth salary s)).
Proof.
  intros Hnone Hone. unfold set_budget, login_required.
  destruct (load_user s session) as [u|] eqn:Hu; [|exact Hone].
  destruct (get_current_cycle_start _ _ None) as [cs|] eqn:Hcs; [|exact Hone].
  destruct meth; [exact Hone|].
  destruct (convert salary) as [credited|]; [|exact Hone].
  destruct (negb (sqlite_float credited)); [exact Hone|].
  cbn [fst]. apply at_most_one_add; [exact Hone|].
  cbn [MonthlyBudget.user_id MonthlyBudget.month_start_date].
  apply allocations_none_of_find. now apply (Hnone u cs).
Qed.

Lemma add_transaction_budgets e session amount description s :
  budgets (fst (add_transaction e session amount description s)) = budgets s /\
  users (fst (add_transaction e session amount description s)) = users s.
Proof.
  unfold add_transaction, login_required.
  destruct (load_user s session); [|auto].
  destruct (convert amount) as [spent|]; [|auto].
  destruct description; [|auto].
  destruct (negb (sqlite_float spent)); auto.
Qed.

Lemma update_profile_budgets session billing_cycle s :
  budgets (fst (update_profile session billing_cycle s)) = budgets s /\
  map User.id (users (fst (update_profile session billing_cycle s)))
    = map User.id (users s).
Proof.
  unfold update_profile, login_required.
  destruct (load_user s session); [|auto].
  destruct (truthy billing_cycle); [|auto].
  destruct (convert billing_cycle) as [credit_day|]; [|auto].
  destruct (negb (sqlite_integer credit_day)); [auto|].
  cbn [fst budgets users]. split; [reflexivity|].
  apply map_set_credit_day_ids.
Qed.

Lemma at_most_one_budgets s s' :
  budgets s' = budgets s -> at_most_one_allocation s ->
  at_most_one_allocation s'.
Proof.
  intros Hb Hone uid cs. specialize (Hone uid cs).
  unfold allocations in *. now rewrite Hb.
Qed.

Lemma handle_budgets_owned hash e r s :
  budgets_owned s -> budgets_owned (fst (handle hash e r s)).
Proof.
  intros Hown. destruct r; cbn [handle].
  - unfold index, login_required. now destruct (load_user s session).
  - unfold register. destruct meth; [exact Hown|].
    destruct (existsb _ (users s)); [exact Hown|].
    destruct password as [pw|]; [|exact Hown].
    destruct (convert billing_cycle) as [credit_day|]; [|exact Hown].
    destruct (negb (sqlite_integer credit_day)); [exact Hown|].
    destruct username as [name|]; [|exact Hown].
    assert (Hown1 : budgets_owned
              (mkdb (users s ++
                       [User.mk (next_id (map User.id (users s))) name (hash pw)
                          credit_day]) (budgets s) (transactions s))).
    { intros b Hb. cbn [budgets users] in *. rewrite map_app.
      apply in_or_app. left. now apply Hown. }
    destruct (get_current_cycle_start _ _ None) as [cs|]; [|exact Hown1].
    destruct (convert salary) as [credited|]; [|exact Hown1].
    destruct (negb (sqlite_float credited)); [exact Hown1|].
    cbn [fst]. intros b Hb. cbn [budgets users] in *.
    rewrite map_app. apply in_app_or in Hb as [Hb | [<- | []]].
    + apply in_or_app. left. now apply Hown.
    + apply in_or_app. right. now left.
  - unfold set_budget, login_required.
    destruct (load_user s session) as [u|] eqn:Hu; [|exact Hown].
    destruct (get_current_cycle_start _ _ None) as [cs|]; [|exact Hown].
    destruct meth; [exact Hown|].
    destruct (convert salary) as [credited|]; [|exact Hown].
    destruct (negb (sqlite_float credited)); [exact Hown|].
    cbn [fst]. intros b Hb. cbn [budgets users] in *.
    apply in_app_or in Hb as [Hb | [<- | []]]; [now apply Hown|].
    now apply load_user_In in Hu.
  - destruct (add_transaction_budgets e session amount description s)
      as [Hb Hus].
    intros b Hin. rewrite Hb in Hin. rewrite Hus. now apply Hown.
  - destruct (update_profile_budgets session billing_cycle s) as [Hb Hus].
    intros b Hin. rewrite Hb in Hin. rewrite Hus. now apply Hown.
  - unfold download_statement, login_required.
    now destruct (load_user s session).
Qed.

Lemma reachable_budgets_owned hash s : reachable hash s -> budgets_owned s.
Proof.
  induction 1 as [|e r s He Hr IH].
  - intros b [].
  - now apply handle_budgets_owned.
Qed.

End Allocations.

(** C6, as the claim states it, fails: [set_budget] adds a row without
    looking for one, so a second post in the cycle of the registration leaves
    two allocations for the same user and cycle start. *)
Lemma allocation_unique_counterexample :
  reachable demo_hash demo_twice /\
  allocations demo_twice 1 (mkdate 2024 2 8) = 2%nat /\
  ~ at_most_one_allocation demo_twice /\
  ~ (forall hash s, reachable hash s -> at_most_one_allocation s).
Proof.
  assert (Hreach : reachable demo_hash demo_twice).
  { unfold demo_twice, serve. cbn [fold_left fst snd].
    apply reachable_step; [reflexivity|].
    apply reachable_step; [reflexivity|]. apply reachable_empty. }
  assert (Htwo : allocations demo_twice 1 (mkdate 2024 2 8) = 2%nat)
    by (vm_compute; reflexivity).
  assert (Hnot : ~ at_most_one_allocation demo_twice).
  { intros H. specialize (H 1 (mkdate 2024 2 8)). rewrite Htwo in H. lia. }
  repeat split; try assumption.
  intros H. apply Hnot. now apply (H demo_hash).
Qed.

(** C6 (amended). From every reachable state with at most one allocation
    per user and cycle start, [register], [add_transaction] and
    [update_profile] lead to a state with at most one, and so does
    [set_budget] when the user has no allocation yet for the resolved cycle
    start, which is when the home view sends the user to it. *)
Theorem allocation_unique_preserved (hash : string -> string) (e : env)
  (s : db) :
  reachable hash s -> at_most_one_allocation s ->
  (forall meth username password salary billing_cycle,
     at_most_one_allocation
       (fst (register hash e meth username password salary billing_cycle s))) /\
  (forall session amount description,
     at_most_one_allocation
       (fst (add_transaction e session amount description s))) /\
  (forall session billing_cycle,
     at_most_one_allocation (fst (update_profile session billing_cycle s))) /\
  (forall session meth salary,
     no_current_allocation e session s ->
     at_most_one_allocation (fst (set_budget e session meth salary s))).
Proof.
  intros Hreach Hone.
  pose proof (reachable_budgets_owned hash s Hreach) as Hown.
  split; [|split; [|split]].
  - intros. now apply register_at_most_one.
  - intros session amount description.
    apply (at_most_one_budgets s); [|exact Hone].
    apply add_transaction_budgets.
  - intros session billing_cycle.
    apply (at_most_one_budgets s); [|exact Hone].
    apply update_profile_budgets.
  - intros. now apply set_budget_at_most_one.
Qed.

Lemma allocation_unique_preserved_witness :
  reachable demo_hash demo_db /\ at_most_one_allocation demo_db /\
  at_most_one_allocation
    (fst (register demo_hash (demo_clock 2024 4 9) POST (Some "ravi"%string)
            (Some "pw"%string) (Parsed 800%float) (Parsed 31) demo_db)) /\
  at_most_one_allocation
    (fst (set_budget (demo_clock 2024 4 9) (Some 1) POST (Parsed 900%float)
            demo_db)).
Proof.
  assert (Hreach : reachable demo_hash demo_db).
  { unfold demo_db, demo_requests, serve. cbn [fold_left fst snd].
    repeat (apply reachable_step; [reflexivity|]). apply reachable_empty. }
  assert (Hone : at_most_one_allocation demo_db).
  { intros uid cs. unfold allocations.
    change (budgets demo_db) with
      [MonthlyBudget.mk 1 1 (mkdate 2024 2 8) 1000%float;
       MonthlyBudget.mk 2 1 (mkdate 2024 3 8) 1200%float].
    unfold allocated.
    cbn [filter MonthlyBudget.user_id MonthlyBudget.month_start_date].
    destruct (1 =? uid); cbn [andb]; [|cbn; lia].
    destruct (Date.eqb (mkdate 2024 2 8) cs) eqn:E1;
      destruct (Date.eqb (mkdate 2024 3 8) cs) eqn:E2; cbn [List.length]; try lia.
    apply date_eqb_eq in E1, E2. congruence. }
  pose proof (allocation_unique_preserved demo_hash (demo_clock 2024 4 9)
                demo_db Hreach Hone) as (Hreg & _ & _ & Hset).
  split; [exact Hreach|]. split; [exact Hone|]. split.
  - apply Hreg.
  - apply Hset. intros u cs Hu Hcs.
    vm_compute in Hu. injection Hu as <-.
    vm_compute in Hcs. injection Hcs as <-. reflexivity.
Defined.

(** * Invariants of the database *)

Section Effects.

Lemma existsb_name_false us name :
  existsb (fun u => String.eqb (User.username u) name) us = false ->
  ~ In name (map User.username us).
Proof.
  intros H Hin. apply in_map_iff in Hin as (u & Hu & Hin).
  assert (Hex : existsb (fun u => String.eqb (User.username u) name) us = true).
  { apply existsb_exists. exists u. split; [assumption|].
    rewrite Hu. apply String.eqb_refl. }
  congruence.
Qed.

(** Every request is at most two writes: [register] adds a user and then
    an allocation, the others write once or not at all. *)
Lemma handle_effects hash e r s :
  exists s1, effect s s1 /\ effect s1 (fst (handle hash e r s)).
Proof.
  destruct r; cbn [handle].
  - exists s. split; [constructor|].
    unfold index, login_required.
    destruct (load_user s session); constructor.
  - unfold register. destruct meth; [exists s; split; constructor|].
    destruct (existsb _ (users s)) eqn:Hex; [exists s; split; constructor|].
    destruct password as [pw|]; [|exists s; split; constructor].
    destruct (convert billing_cycle) as [credit_day|];
      [|exists s; split; constructor].
    destruct (negb (sqlite_integer credit_day));
      [exists s; split; constructor|].
    destruct username as [name|]; [|exists s; split; constructor].
    set (u := User.mk (next_id (map User.id (users s))) name (hash pw) credit_day).
    exists (mkdb (users s ++ [u]) (budgets s) (transactions s)).
    split.
    { apply effect_user; [reflexivity|]. now apply existsb_name_false. }
    destruct (get_current_cycle_start _ _ None) as [cs|]; [|constructor].
    destruct (convert salary) as [credited|]; [|constructor].
    destruct (negb (sqlite_float credited)); [constructor|].
    cbn [fst users budgets transactions].
    apply (effect_budget (mkdb (users s ++ [u]) (budgets s) (transactions s))
             (MonthlyBudget.mk (next_id (map MonthlyBudget.id (budgets s)))
                (User.id u) cs credited)); [reflexivity|].
    cbn [MonthlyBudget.user_id users]. rewrite map_app.
    apply in_or_app. right. now left.
  - exists s. split; [constructor|].
    unfold set_budget, login_required.
    destruct (load_user s session) as [u|] eqn:Hu; [|constructor].
    destruct (get_current_cycle_start _ _ None) as [cs|]; [|constructor].
    destruct meth; [constructor|].
    destruct (convert salary) as [credited|]; [|constructor].
    destruct (negb (sqlite_float credited)); [constructor|].
    cbn [fst].
    apply (effect_budget s
             (MonthlyBudget.mk (next_id (map MonthlyBudget.id (budgets s)))
                (User.id u) cs credited)); [reflexivity|].
    now apply load_user_In in Hu.
  - exists s. split; [constructor|].
    unfold add_transaction, login_required.
    destruct (load_user s session) as [u|] eqn:Hu; [|constructor].
    destruct (convert amount) as [spent|]; [|constructor].
    destruct description as [text|]; [|constructor].
    destruct (negb (sqlite_float spent)); [constructor|].
    cbn [fst].
    apply (effect_transaction s
             (Transaction.mk (next_id (map Transaction.id (transactions s)))
                (User.id u) (clock_date e) (clock_time e) spent text));
      [reflexivity|].
    now apply load_user_In in Hu.
  - exists s. split; [constructor|].
    unfold update_profile, login_required.
    destruct (load_user s session) as [u|]; [|constructor].
    destruct (truthy billing_cycle); [|constructor].
    destruct (convert billing_cycle) as [credit_day|]; [|constructor].
    destruct (negb (sqlite_integer credit_day)); [constructor|].
    cbn [fst]. constructor.
  - exists s. split; [constructor|].
    unfold download_statement, login_required.
    destruct (load_user s session); constructor.
Qed.

Lemma NoDup_snoc {A : Type} (l : list A) (x : A) :
  NoDup l -> ~ In x l -> NoDup (l ++ [x]).
Proof.
  intros Hl Hx. apply NoDup_app; [assumption | repeat constructor; auto |].
  intros a Ha [<- | []]. contradiction.
Qed.

Lemma set_credit_day_identity uid d u :
  identity (set_credit_day uid d u) = identity u.
Proof. unfold set_credit_day. now destruct (User.id u =? uid). Qed.

Lemma map_set_credit_day_names uid d us :
  map User.username (map (set_credit_day uid d) us) = map User.username us.
Proof.
  rewrite map_map. apply map_ext. intros u.
  unfold set_credit_day. now destruct (User.id u =? uid).
Qed.

Lemma effect_keys_unique s s' :
  effect s s' -> keys_unique s -> keys_unique s'.
Proof.
  intros Heff (Hu & Hn & Hb & Ht).
  destruct Heff as [|u Hid Hname|b Hid Hown|t Hid Hown|uid d];
    unfold keys_unique; cbn [users budgets transactions].
  - auto.
  - rewrite !map_app. cbn [map]. repeat split; try assumption.
    + apply NoDup_snoc; [assumption|]. rewrite Hid. apply next_id_fresh.
    + now apply NoDup_snoc.
  - rewrite !map_app. cbn [map]. repeat split; try assumption.
    apply NoDup_snoc; [assumption|]. rewrite Hid. apply next_id_fresh.
  - rewrite !map_app. cbn [map]. repeat split; try assumption.
    apply NoDup_snoc; [assumption|]. rewrite Hid. apply next_id_fresh.
  - rewrite map_set_credit_day_ids, map_set_credit_day_names. auto.
Qed.

Lemma effect_owned s s' :
  effect s s' ->
  (forall b, In b (budgets s) ->
             In (MonthlyBudget.user_id b) (map User.id (users s))) ->
  (forall t, In t (transactions s) ->
             In (Transaction.user_id t) (map User.id (users s))) ->
  (forall b, In b (budgets s') ->
             In (MonthlyBudget.user_id b) (map User.id (users s'))) /\
  (forall t, In t (transactions s') ->
             In (Transaction.user_id t) (map User.id (users s'))).
Proof.
  intros Heff Hb Ht.
  destruct Heff as [|u Hid Hname|b Hid Hown|t Hid Hown|uid d];
    cbn [users budgets transactions].
  - auto.
  - rewrite map_app. split; intros x Hx; apply in_or_app; left; auto.
  - split; [|assumption].
    intros x Hx. apply in_app_or in Hx as [Hx | [<- | []]]; auto.
  - split; [assumption|].
    intros x Hx. apply in_app_or in Hx as [Hx | [<- | []]]; auto.
  - rewrite map_set_credit_day_ids. auto.
Qed.

(** The rows a request leaves are the rows it found, followed by the ones
    it added. *)
Lemma effect_extends s s' :
  effect s s' ->
  (exists us, map identity (users s') = map identity (users s) ++ us) /\
  (exists bs, budgets s' = budgets s ++ bs) /\
  (exists ts, transactions s' = transactions s ++ ts).
Proof.
  intros Heff.
  destruct Heff as [|u Hid Hname|b Hid Hown|t Hid Hown|uid d];
    cbn [users budgets transactions].
  - repeat split; exists []; now rewrite app_nil_r.
  - split; [exists [identity u]; now rewrite map_app|].
    split; exists []; now rewrite app_nil_r.
  - split; [exists []; now rewrite app_nil_r|].
    split; [now exists [b] | exists []; now rewrite app_nil_r].
  - split; [exists []; now rewrite app_nil_r|].
    split; [exists []; now rewrite app_nil_r | now exists [t]].
  - split.
    + exists []. rewrite app_nil_r, map_map. apply map_ext.
      intros u. apply set_credit_day_identity.
    + split; exists []; now rewrite app_nil_r.
Qed.

Lemma handle_dates_valid hash e r s :
  env_ok e ->
  (forall b, In b (budgets s) -> Date.valid (MonthlyBudget.month_start_date b)) ->
  (forall t, In t (transactions s) -> Date.valid (Transaction.date t)) ->
  (forall b, In b (budgets (fst (handle hash e r s))) ->
             Date.valid (MonthlyBudget.month_start_date b)) /\
  (forall t, In t (transactions (fst (handle hash e r s))) ->
             Date.valid (Transaction.date t)).
Proof.
  intros He Hb Ht. destruct r; cbn [handle].
  - unfold index, login_required. destruct (load_user s session); auto.
  - unfold register. destruct meth; [auto|].
    destruct (existsb _ (users s)); [auto|].
    destruct password as [pw|]; [|auto].
    destruct (convert billing_cycle) as [credit_day|]; [|auto].
    destruct (negb (sqlite_integer credit_day)); [auto|].
    destruct username as [name|]; [|auto].
    destruct (get_current_cycle_start _ _ None) as [cs|] eqn:Hcs; [|auto].
    destruct (convert salary) as [credited|]; [|auto].
    destruct (negb (sqlite_float credited)); [auto|].
    cbn [fst users budgets transactions]. split; [|assumption].
    intros b Hin. apply in_app_or in Hin as [Hin | [<- | []]]; [auto|].
    now apply get_current_cycle_start_valid in Hcs.
  - unfold set_budget, login_required.
    destruct (load_user s session) as [u|]; [|auto].
    destruct (get_current_cycle_start _ _ None) as [cs|] eqn:Hcs; [|auto].
    destruct meth; [auto|].
    destruct (convert salary) as [credited|]; [|auto].
    destruct (negb (sqlite_float credited)); [auto|].
    cbn [fst users budgets transactions]. split; [|assumption].
    intros b Hin. apply in_app_or in Hin as [Hin | [<- | []]]; [auto|].
    now apply get_current_cycle_start_valid in Hcs.
  - unfold add_transaction, login_required.
    destruct (load_user s session) as [u|]; [|auto].
    destruct (convert amount) as [spent|]; [|auto].
    destruct description as [text|]; [|auto].
    destruct (negb (sqlite_float spent)); [auto|].
    cbn [fst users budgets transactions]. split; [assumption|].
    intros t Hin. apply in_app_or in Hin as [Hin | [<- | []]]; [auto|].
    exact He.
  - destruct (update_profile_budgets session billing_cycle s) as [Hbs _].
    rewrite Hbs. split; [assumption|].
    unfold update_profile, login_required.
    destruct (load_user s session) as [u|]; [|auto].
    destruct (truthy billing_cycle); [|auto].
    destruct (convert billing_cycle) as [credit_day|]; [|auto].
    destruct (negb (sqlite_integer credit_day)); auto.
  - unfold download_statement, login_required.
    destruct (load_user s session); auto.
Qed.

End Effects.

(** X1. In every state the system reaches, user ids, allocation ids and
    transaction ids each identify one row, and no two users share a name:
    [register] turns a taken name away before it writes, and every new row
    gets a key above all keys of its table. *)
Theorem reachable_keys_unique (hash : string -> string) (s : db) :
  reachable hash s -> keys_unique s.
Proof.
  induction 1 as [|e r s He Hr IH].
  - repeat split; constructor.
  - destruct (handle_effects hash e r s) as (s1 & H1 & H2).
    eapply effect_keys_unique; [exact H2|].
    eapply effect_keys_unique; [exact H1 | exact IH].
Qed.

Lemma reachable_keys_unique_witness :
  reachable demo_hash demo_db /\ keys_unique demo_db.
Proof.
  assert (Hreach : reachable demo_hash demo_db).
  { unfold demo_db, demo_requests, serve. cbn [fold_left fst snd].
    repeat (apply reachable_step; [reflexivity|]). apply reachable_empty. }
  split; [exact Hreach | exact (reachable_keys_unique demo_hash demo_db Hreach)].
Defined.

Lemma rows_sound_of_reachable (hash : string -> string) (s : db) :
  reachable hash s -> rows_sound s.
Proof.
  induction 1 as [|e r s He Hr IH].
  - split; intros x [].
  - destruct IH as [Hb Ht].
    destruct (handle_effects hash e r s) as (s1 & H1 & H2).
    destruct (effect_owned s s1 H1) as [Hb1 Ht1];
      [intros b Hin; now apply Hb | intros t Hin; now apply Ht |].
    destruct (effect_owned s1 _ H2 Hb1 Ht1) as [Hb2 Ht2].
    destruct (handle_dates_valid hash e r s He) as [Hbv Htv];
      [intros b Hin; now apply Hb | intros t Hin; now apply Ht |].
    split; intros x Hin; split; auto.
Qed.

(** X2. In every state the system reaches, every allocation and every
    transaction belongs to a user row of the table and carries a date of the
    calendar. *)
Theorem reachable_rows_sound (hash : string -> string) (s : db) :
  reachable hash s -> rows_sound s.
Proof. apply rows_sound_of_reachable. Qed.

Lemma reachable_rows_sound_witness :
  reachable demo_hash demo_db /\ rows_sound demo_db.
Proof.
  assert (Hreach : reachable demo_hash demo_db).
  { unfold demo_db, demo_requests, serve. cbn [fold_left fst snd].
    repeat (apply reachable_step; [reflexivity|]). apply reachable_empty. }
  split; [exact Hreach | exact (reachable_rows_sound demo_hash demo_db Hreach)].
Defined.

(** X3. No request removes or rewrites a row: after any request the
    allocations and the transactions are those found before, in their order,
    followed by what the request added, and the users found before keep their
    id, name and password hash. *)
Theorem handle_extends (hash : string -> string) (e : env) (r : request)
  (s : db) :
  let s' := fst (handle hash e r s) in
  (exists us, map identity (users s') = map identity (users s) ++ us) /\
  (exists bs, budgets s' = budgets s ++ bs) /\
  (exists ts, transactions s' = transactions s ++ ts).
Proof.
  intros s'. subst s'.
  destruct (handle_effects hash e r s) as (s1 & H1 & H2).
  destruct (effect_extends _ _ H1) as ((us1 & Hu1) & (bs1 & Hb1) & (ts1 & Ht1)).
  destruct (effect_extends _ _ H2) as ((us2 & Hu2) & (bs2 & Hb2) & (ts2 & Ht2)).
  split; [|split].
  - exists (us1 ++ us2). now rewrite Hu2, Hu1, app_assoc.
  - exists (bs1 ++ bs2). now rewrite Hb2, Hb1, app_assoc.
  - exists (ts1 ++ ts2). now rewrite Ht2, Ht1, app_assoc.
Qed.

(** * More on the resolver *)

Section ResolverOrder.

Lemma date_le_trans a b c : Date.le a b -> Date.le b c -> Date.le a c.
Proof. rewrite !date_le_iff. lia. Qed.

Lemma date_le_lt_trans a b c : Date.le a b -> Date.lt b c -> Date.lt a c.
Proof. rewrite !date_le_iff, !date_lt_iff. lia. Qed.

Lemma date_lt_le_trans a b c : Date.lt a b -> Date.le b c -> Date.lt a c.
Proof. rewrite !date_le_iff, !date_lt_iff. lia. Qed.

Lemma date_lt_le a b : Date.lt a b -> Date.le a b.
Proof. rewrite date_le_iff, date_lt_iff. lia. Qed.

Lemma date_le_or_lt a b : Date.le a b \/ Date.lt b a.
Proof. rewrite date_le_iff, date_lt_iff. lia. Qed.

(** The reference date lies in the cycle the resolver returns. *)
Lemma resolve_in_cycle d today s :
  1 <= d -> Date.valid today -> resolve d today = Ok s ->
  Date.valid s /\ day s = target_day d (year s) (month s) /\
  Date.le s today /\ Date.lt today (next_cycle_start_of d s).
Proof.
  intros Hd Hv Hs.
  pose proof Hs as Hs'. apply resolve_ok_inv in Hs' as [Hb ->]; try assumption.
  pose proof (resolve_design_valid d today Hd Hv Hb) as Hsv.
  pose proof (resolve_design_day d today) as Hday.
  split; [assumption|]. split; [assumption|].
  now apply (resolve_design_cycle d (resolve_design d today) today).
Qed.

Lemma toordinal_landing s :
  Date.valid s -> Date.toordinal (landing s) = Date.toordinal s + 32.
Proof.
  intros Hv. apply valid_iff in Hv as (Hy & Hm & Hday).
  unfold landing.
  destruct (following_month s) as [y1 m1] eqn:F1.
  rewrite <- (date_eta s) in F1.
  pose proof (following_month_range _ _ _ _ _ Hm F1) as [Hm1 Hy1].
  pose proof (ymd2ord_following _ _ _ _ _ (proj1 Hy) Hm F1) as Ho1.
  destruct (day s + 32 - Calendar.days_in_month (year s) (month s) <=?
            Calendar.days_in_month y1 m1).
  - unfold Date.toordinal. cbn [year month day]. rewrite Ho1.
    unfold Calendar.ymd2ord. lia.
  - destruct (following_month
                (mkdate y1 m1
                   (day s + 32 - Calendar.days_in_month (year s) (month s))))
      as [y2 m2] eqn:F2.
    assert (Hy1' : 1 <= y1) by lia.
    pose proof (ymd2ord_following _ _ _ _ _ Hy1' Hm1 F2) as Ho2.
    unfold Date.toordinal. cbn [year month day]. rewrite Ho2, Ho1.
    unfold Calendar.ymd2ord. lia.
Qed.

(** The day count from a cycle start to a date of its cycle. *)
Lemma resolve_design_gap d today :
  1 <= d -> Date.valid today -> before_first_month d today = false ->
  0 <= Date.toordinal today - Date.toordinal (resolve_design d today) <= 30.
Proof.
  intros Hd Hv Hb. apply valid_iff in Hv as (Hy & Hm & Hday).
  pose proof (days_in_month_bounds (year today) (month today) Hm) as HL.
  unfold resolve_design, before_first_month, preceding_month, target_day in *.
  rewrite Z.geb_leb. unfold Date.toordinal.
  destruct (Z.leb_spec (Z.min d (Calendar.days_in_month (year today)
                                  (month today))) (day today)) as [Hge | Hlt];
    cbn [year month day].
  - unfold Calendar.ymd2ord. lia.
  - destruct (Z.eqb_spec (month today) 1) as [Hm1 | Hm1]; cbn [year month day].
    + destruct (Z.eqb_spec (year today) 1) as [Hy1 | Hy1].
      { rewrite Hy1, Hm1 in *. cbn [andb Z.eqb Pos.eqb] in Hb.
        apply Z.ltb_ge in Hb. lia. }
      assert (F : following_month (mkdate (year today - 1) 12 0)
                  = (year today, month today)).
      { unfold following_month. cbn [year month]. rewrite Hm1.
        cbn. f_equal. lia. }
      pose proof (ymd2ord_following (year today - 1) 12 0 _ _
                    ltac:(lia) ltac:(lia) F) as Ho.
      rewrite Ho. unfold Calendar.ymd2ord.
      change (Calendar.days_in_month (year today - 1) 12) with 31 in *. lia.
    + assert (F : following_month (mkdate (year today) (month today - 1) 0)
                  = (year today, month today)).
      { unfold following_month. cbn [year month].
        destruct (Z.eqb_spec (month today - 1) 12); [lia|]. f_equal. lia. }
      pose proof (ymd2ord_following (year today) (month today - 1) 0 _ _
                    ltac:(lia) ltac:(lia) F) as Ho.
      pose proof (days_in_month_bounds (year today) (month today - 1)
                    ltac:(lia)).
      rewrite Ho. unfold Calendar.ymd2ord. lia.
Qed.

End ResolverOrder.

(** X4. The resolver is monotone: of two reference dates, the later one
    never resolves to an earlier cycle start. *)
Theorem resolve_monotone (d : Z) (today1 today2 s1 s2 : date) :
  1 <= d -> Date.valid today1 -> Date.valid today2 ->
  Date.le today1 today2 ->
  resolve d today1 = Ok s1 -> resolve d today2 = Ok s2 ->
  Date.le s1 s2.
Proof.
  intros Hd Hv1 Hv2 Hle H1 H2.
  destruct (resolve_in_cycle d today1 s1 Hd Hv1 H1) as (_ & _ & Hle1 & _).
  destruct (resolve_in_cycle d today2 s2 Hd Hv2 H2) as (Hs2 & Hfix2 & Hle2 & Hlt2).
  destruct (date_le_or_lt s2 today1) as [Hin | Hout].
  - assert (Hsame : resolve d today1 = Ok s2).
    { pose proof (not_before_first_month d s2 today1 Hs2 Hfix2 Hin) as Hb.
      rewrite resolve_eq, Hb by assumption. f_equal.
      apply resolve_design_cycle; try assumption.
      split; [assumption|]. now apply (date_le_lt_trans _ today2). }
    rewrite Hsame in H1. injection H1 as <-. apply date_le_refl.
  - apply date_lt_le. now apply (date_le_lt_trans _ today1).
Qed.

Lemma resolve_monotone_witness :
  1 <= 8 /\ Date.valid (mkdate 2024 3 5) /\ Date.valid (mkdate 2024 3 8) /\
  Date.le (mkdate 2024 3 5) (mkdate 2024 3 8) /\
  resolve 8 (mkdate 2024 3 5) = Ok (mkdate 2024 2 8) /\
  resolve 8 (mkdate 2024 3 8) = Ok (mkdate 2024 3 8) /\
  Date.le (mkdate 2024 2 8) (mkdate 2024 3 8).
Proof.
  split; [lia|]. do 5 (split; [reflexivity|]).
  apply (resolve_monotone 8 (mkdate 2024 3 5) (mkdate 2024 3 8));
    [lia | reflexivity..].
Defined.

(** X5. A reference date is at most 30 days after the cycle start the
    resolver returns for it, whatever the anchor day from 1: no cycle is
    longer than 31 days. *)
Theorem resolve_within_30_days (d : Z) (today s : date) :
  1 <= d -> Date.valid today -> resolve d today = Ok s ->
  0 <= Date.toordinal today - Date.toordinal s <= 30.
Proof.
  intros Hd Hv Hs. apply resolve_ok_inv in Hs as [Hb ->]; try assumption.
  now apply resolve_design_gap.
Qed.

Lemma resolve_within_30_days_witness :
  1 <= 31 /\ Date.valid (mkdate 2023 3 30) /\
  resolve 31 (mkdate 2023 3 30) = Ok (mkdate 2023 2 28) /\
  0 <= Date.toordinal (mkdate 2023 3 30) - Date.toordinal (mkdate 2023 2 28)
    <= 30.
Proof.
  split; [lia|]. split; [reflexivity|]. split; [reflexivity|].
  apply (resolve_within_30_days 31); [lia | reflexivity | reflexivity].
Defined.

(** * What the views show *)

Section Views.

(** The allocation a sent statement is about. *)
Lemma download_statement_budget e session year_ month_ s s' st :
  download_statement e session year_ month_ s = (s', Ok (SendStatement st)) ->
  exists current_user,
    load_user s session = Some current_user /\
    st_operator st = User.username current_user /\
    In (st_budget st) (budgets s) /\
    MonthlyBudget.user_id (st_budget st) = User.id current_user /\
    MonthlyBudget.month_start_date (st_budget st) = st_cycle_start st /\
    match nonzero year_, nonzero month_ with
    | Some y, Some m =>
        budget_of_month s (User.id current_user) y m = Some (st_budget st)
    | _, _ =>
        budget_of_cycle s (User.id current_user) (st_cycle_start st)
          = Some (st_budget st) /\
        resolve (User.salary_credit_day current_user) (clock_date e)
          = Ok (st_cycle_start st)
    end.
Proof.
  unfold download_statement, login_required.
  destruct (load_user s session) as [u|] eqn:Hu; [|intros [= _ H]; discriminate].
  cbv zeta. intros [= _ H]. exists u. split; [reflexivity|]. revert H.
  change (get_current_cycle_start (clock_date e) (User.salary_credit_day u) None)
    with (resolve (User.salary_credit_day u) (clock_date e)).
  assert (Hcur :
    (selected <-
       (cycle_start <- resolve (User.salary_credit_day u) (clock_date e) ;;
        Ok (inr (cycle_start, budget_of_cycle s (User.id u) cycle_start))) ;;
     match selected with
     | inl early => Ok early
     | inr (_, None) => Ok (Redirect ep_index [NoDataCurrentCycle] None)
     | inr (cycle_start, Some budget) =>
         next_month_date <- Date.add_days cycle_start 32 ;;
         next_cycle_start <-
           get_current_cycle_start (clock_date e) (User.salary_credit_day u)
             (Some next_month_date) ;;
         let transactions :=
           order_by date_asc
             (filter (fun t =>
                        (Transaction.user_id t =? User.id u) &&
                        Date.geb (Transaction.date t) cycle_start &&
                        Date.ltb (Transaction.date t) next_cycle_start)
                     (transactions s)) in
         let total_spent := sum_amounts (map Transaction.amount transactions) in
         let remaining_balance :=
           PrimFloat.sub (MonthlyBudget.salary_credited budget) total_spent in
         Ok (SendStatement
               (mkstatement (User.username u) cycle_start budget
                  transactions total_spent remaining_balance))
     end) = Ok (SendStatement st) ->
    st_operator st = User.username u /\
    In (st_budget st) (budgets s) /\
    MonthlyBudget.user_id (st_budget st) = User.id u /\
    MonthlyBudget.month_start_date (st_budget st) = st_cycle_start st /\
    budget_of_cycle s (User.id u) (st_cycle_start st) = Some (st_budget st) /\
    resolve (User.salary_credit_day u) (clock_date e) = Ok (st_cycle_start st)).
  { destruct (resolve _ (clock_date e)) as [cs|] eqn:Hcs; cbn [bind];
      [|discriminate].
    destruct (budget_of_cycle s (User.id u) cs) as [b|] eqn:Hb; [|discriminate].
    destruct (Date.add_days cs 32) as [nmd|]; cbn [bind]; [|discriminate].
    destruct (get_current_cycle_start _ _ (Some nmd)) as [ncs|]; cbn [bind];
      [|discriminate].
    intros [= <-]. cbn [st_operator st_budget st_cycle_start].
    pose proof Hb as Hb'. unfold budget_of_cycle in Hb'.
    apply find_some in Hb' as [Hin Hm].
    apply andb_prop in Hm as [Hm1 Hm2].
    apply Z.eqb_eq in Hm1. apply date_eqb_eq in Hm2. repeat split; auto. }
  destruct (nonzero year_) as [y|];
    [destruct (nonzero month_) as [m|]|];
    try (intros H; apply Hcur in H; tauto).
  destruct (budget_of_month s (User.id u) y m) as [b|] eqn:Hb; cbn [bind].
  - destruct (Date.add_days _ 32) as [nmd|]; cbn [bind]; [|discriminate].
    destruct (get_current_cycle_start _ _ (Some nmd)) as [ncs|]; cbn [bind];
      [|discriminate].
    intros [= <-]. cbn [st_operator st_budget st_cycle_start].
    pose proof Hb as Hb'. unfold budget_of_month in Hb'.
    apply find_some in Hb' as [Hin Hm].
    apply andb_prop in Hm as [Hm _]. apply andb_prop in Hm as [Hm _].
    apply Z.eqb_eq in Hm. repeat split; auto.
  - destruct (Date.make y m 1); cbn [bind]; discriminate.
Qed.

End Views.

(** X6. A statement never shows another user's data: its allocation is a
    row of the requesting user that starts on the statement's cycle start, its
    operator is the requesting user's name and each of its transactions is a
    row of that user; the same holds for the allocation and the transactions
    of the home view. *)
Theorem views_show_own_rows (e : env) (session : option Z) (s : db) :
  (forall year_ month_ s' st,
     download_statement e session year_ month_ s
       = (s', Ok (SendStatement st)) ->
     exists current_user,
       load_user s session = Some current_user /\
       st_operator st = User.username current_user /\
       In (st_budget st) (budgets s) /\
       MonthlyBudget.user_id (st_budget st) = User.id current_user /\
       MonthlyBudget.month_start_date (st_budget st) = st_cycle_start st /\
       forall t, In t (st_transactions st) ->
                 In t (transactions s) /\
                 Transaction.user_id t = User.id current_user) /\
  (forall s' ctx,
     index e session s = (s', Ok (RenderIndex ctx)) ->
     exists current_user,
       load_user s session = Some current_user /\
       In (ix_budget ctx) (budgets s) /\
       MonthlyBudget.user_id (ix_budget ctx) = User.id current_user /\
       MonthlyBudget.month_start_date (ix_budget ctx) = ix_cycle_start ctx /\
       forall t, In t (ix_transactions ctx) ->
                 In t (transactions s) /\
                 Transaction.user_id t = User.id current_user).
Proof.
  split.
  - intros year_ month_ s' st Hst.
    pose proof (download_statement_budget _ _ _ _ _ _ _ Hst)
      as (u & Hu & Hop & Hin & Huid & Hstart & _).
    exists u. do 5 (split; [assumption|]).
    apply download_statement_sent in Hst
      as (u' & b & nmd & ncs & _ & Hu' & _ & _ & _ & _ & Hst).
    cbv zeta in Hst. rewrite Hu in Hu'. injection Hu' as <-.
    intros t Ht. rewrite Hst in Ht. cbn [st_transactions] in Ht.
    apply order_by_In, filter_In in Ht as [Ht Hm].
    apply in_statement_iff in Hm. tauto.
  - intros s' ctx Hctx.
    apply index_rendered in Hctx as (u & _ & Hu & _ & Hb & Hctx).
    cbv zeta in Hctx. exists u. split; [assumption|].
    pose proof Hb as Hb'. unfold budget_of_cycle in Hb'.
    apply find_some in Hb' as [Hin Hm].
    apply andb_prop in Hm as [Hm1 Hm2].
    apply Z.eqb_eq in Hm1. apply date_eqb_eq in Hm2.
    do 3 (split; [assumption|]).
    intros t Ht. rewrite Hctx in Ht. cbn [ix_transactions] in Ht.
    apply order_by_In, filter_In in Ht as [Ht Hm].
    apply in_open_cycle_iff in Hm. tauto.
Qed.

Lemma views_show_own_rows_witness :
  exists st current_user,
    download_statement (demo_clock 2024 3 9) (Some 1) (Some 2024) (Some 2)
      demo_db = (demo_db, Ok (SendStatement st)) /\
    load_user demo_db (Some 1) = Some current_user /\
    MonthlyBudget.user_id (st_budget st) = User.id current_user /\
    forall t, In t (st_transactions st) ->
              In t (transactions demo_db) /\
              Transaction.user_id t = User.id current_user.
Proof.
  assert (Hst : { st | download_statement (demo_clock 2024 3 9) (Some 1)
                         (Some 2024) (Some 2) demo_db
                       = (demo_db, Ok (SendStatement st)) })
    by (eexists; vm_compute; reflexivity).
  destruct Hst as [st Hst]. exists st.
  destruct (proj1 (views_show_own_rows (demo_clock 2024 3 9) (Some 1) demo_db)
              (Some 2024) (Some 2) demo_db st Hst)
    as (u & Hu & _ & _ & Huid & _ & Htx).
  exists u. auto.
Defined.

(** X7. In every state the system reaches, the period of a sent statement
    ends after it starts and no later than 32 days after: it is between 2 and
    32 days long. *)
Theorem statement_period (hash : string -> string) (e : env)
  (session : option Z) (year_ month_ : option Z) (s s' : db) (st : statement) :
  reachable hash s ->
  download_statement e session year_ month_ s = (s', Ok (SendStatement st)) ->
  exists current_user next_month_date next_cycle_start,
    load_user s session = Some current_user /\
    Date.add_days (st_cycle_start st) 32 = Ok next_month_date /\
    resolve (User.salary_credit_day current_user) next_month_date
      = Ok next_cycle_start /\
    Date.lt (st_cycle_start st) next_cycle_start /\
    Date.le next_cycle_start next_month_date /\
    2 <= Date.toordinal next_cycle_start - Date.toordinal (st_cycle_start st)
      <= 32.
Proof.
  intros Hreach Hst.
  assert (Hv : Date.valid (st_cycle_start st)).
  { pose proof (download_statement_budget _ _ _ _ _ _ _ Hst)
      as (u & _ & _ & Hin & _ & <- & _).
    now apply (rows_sound_of_reachable hash s Hreach). }
  apply download_statement_sent in Hst
    as (u & b & nmd & ncs & _ & Hu & _ & _ & Hadd & Hres & _).
  exists u, nmd, ncs. do 3 (split; [assumption|]).
  pose proof (resolve_after _ _ _ _ Hv Hadd Hres) as Hlt.
  pose proof (add_days_valid _ _ _ Hadd) as Hnv.
  destruct (Z_le_gt_dec (User.salary_credit_day u) 0) as [Hd0 | Hd1].
  { rewrite resolve_nonpositive in Hres by assumption. discriminate. }
  assert (Hd : 1 <= User.salary_credit_day u) by lia.
  destruct (resolve_in_cycle _ _ _ Hd Hnv Hres) as (_ & _ & Hle & _).
  pose proof Hres as Hres'. apply resolve_ok_inv in Hres' as [Hnb ->];
    [|assumption|assumption].
  pose proof (resolve_design_gap _ _ Hd Hnv Hnb) as Hgap.
  apply add_days_32_inv in Hadd as [-> _]; [|assumption].
  rewrite toordinal_landing in Hgap by assumption.
  split; [assumption|]. split; [assumption|]. lia.
Qed.

Lemma statement_period_witness :
  reachable demo_hash demo_db /\
  exists st,
    download_statement (demo_clock 2024 3 9) (Some 1) (Some 2024) (Some 2)
      demo_db = (demo_db, Ok (SendStatement st)) /\
    exists next_cycle_start,
      Date.lt (st_cycle_start st) next_cycle_start /\
      2 <= Date.toordinal next_cycle_start - Date.toordinal (st_cycle_start st)
        <= 32.
Proof.
  assert (Hreach : reachable demo_hash demo_db).
  { unfold demo_db, demo_requests, serve. cbn [fold_left fst snd].
    repeat (apply reachable_step; [reflexivity|]). apply reachable_empty. }
  split; [exact Hreach|].
  assert (Hst : { st | download_statement (demo_clock 2024 3 9) (Some 1)
                         (Some 2024) (Some 2) demo_db
                       = (demo_db, Ok (SendStatement st)) })
    by (eexists; vm_compute; reflexivity).
  destruct Hst as [st Hst]. exists st.
  destruct (statement_period demo_hash (demo_clock 2024 3 9) (Some 1)
              (Some 2024) (Some 2) demo_db demo_db st Hreach Hst)
    as (u & nmd & ncs & _ & _ & _ & Hlt & _ & Hlen).
  split; [exact Hst|]. exists ncs. auto.
Defined.

(** * One request after another *)

Section Storage.

Lemma sqlite_integer_iff v :
  sqlite_integer v = true <-> - 2 ^ 63 <= v < 2 ^ 63.
Proof.
  unfold sqlite_integer. rewrite andb_true_iff, Z.leb_le, Z.ltb_lt. tauto.
Qed.

Lemma sqlite_integer_false v :
  sqlite_integer v = false <-> v < - 2 ^ 63 \/ 2 ^ 63 <= v.
Proof.
  unfold sqlite_integer. rewrite andb_false_iff, Z.leb_gt, Z.ltb_ge. tauto.
Qed.


Lemma sqlite_float_false f :
  sqlite_float f = false <-> PrimFloat.is_nan f = true.
Proof. unfold sqlite_float. now destruct (PrimFloat.is_nan f). Qed.

End Storage.

Section Composition.

Lemma find_app {A : Type} (f : A -> bool) (l l' : list A) :
  find f (l ++ l') =
  match find f l with Some x => Some x | None => find f l' end.
Proof.
  induction l as [|a l IH]; cbn [app find]; [reflexivity|].
  now destruct (f a).
Qed.




End Composition.



Section BudgetLookups.

Lemma find_app_some {A : Type} (f : A -> bool) (l l' : list A) (x : A) :
  find f l = Some x -> find f (l ++ l') = Some x.
Proof. intros H. now rewrite find_app, H. Qed.


End BudgetLookups.





Section Profile.

Lemma find_set_credit_day target d uid u us :
  find (fun u => User.id u =? uid) us = Some u ->
  find (fun u => User.id u =? uid) (map (set_credit_day target d) us)
  = Some (set_credit_day target d u).
Proof.
  induction us as [|a l IH]; cbn [find map]; [discriminate|].
  rewrite set_credit_day_id.
  destruct (User.id a =? uid); [now intros [= ->] | exact IH].
Qed.

End Profile.

(** X11. A posted anchor day that parses as an integer and fits the integer
    column is stored as it is, with no check of its range as a day of month,
    for the user and for no other user, and no allocation or transaction is
    touched; an integer that does not fit the column raises [OverflowError]
    and changes nothing; a missing or empty field changes nothing, and a
    field that does not parse raises [ValueError] and changes nothing. *)
Theorem update_profile_stores (session : option Z) (s : db)
  (current_user : User.t) (credit_day : Z) :
  load_user s session = Some current_user ->
  let s' := fst (update_profile session (Parsed credit_day) s) in
  (- 2 ^ 63 <= credit_day < 2 ^ 63 ->
   snd (update_profile session (Parsed credit_day) s)
     = Ok (Redirect ep_index [ProfileUpdated] None) /\
   load_user s' session
     = Some (User.mk (User.id current_user) (User.username current_user)
               (User.password_hash current_user) credit_day) /\
   (forall other u,
      load_user s other = Some u -> User.id u <> User.id current_user ->
      load_user s' other = Some u) /\
   budgets s' = budgets s /\ transactions s' = transactions s) /\
  (credit_day < - 2 ^ 63 \/ 2 ^ 63 <= credit_day ->
   update_profile session (Parsed credit_day) s = (s, Raise OverflowError)) /\
  update_profile session Missing s = (s, Ok (Redirect ep_index [] None)) /\
  update_profile session Empty s = (s, Ok (Redirect ep_index [] None)) /\
  update_profile session Malformed s = (s, Raise ValueError).
Proof.
  intros Hu s'.
  split; [|split; [|split; [|split]]];
    try (unfold update_profile, login_required; now rewrite Hu).
  - intros Hint.
    assert (Hup : update_profile session (Parsed credit_day) s
                  = (mkdb (map (set_credit_day (User.id current_user) credit_day)
                             (users s)) (budgets s) (transactions s),
                     Ok (Redirect ep_index [ProfileUpdated] None))).
    { unfold update_profile, login_required. rewrite Hu. cbn [truthy convert].
      now rewrite (proj2 (sqlite_integer_iff credit_day) Hint). }
    subst s'. rewrite Hup. cbn [fst snd].
    pose proof (fun uid u =>
                  find_set_credit_day (User.id current_user) credit_day uid u
                    (users s)) as Hfind.
    split; [reflexivity|]. split; [|split; [|split; reflexivity]].
    + unfold load_user in *. cbn [users].
      destruct session as [uid|]; [|discriminate].
      rewrite (Hfind uid current_user Hu). unfold set_credit_day.
      now rewrite Z.eqb_refl.
    + intros other u Hother Hne. unfold load_user in *. cbn [users].
      destruct other as [uid|]; [|discriminate].
      rewrite (Hfind uid u Hother). unfold set_credit_day.
      now destruct (Z.eqb_spec (User.id u) (User.id current_user)).
  - intros Hint. unfold update_profile, login_required. rewrite Hu.
    cbn [truthy convert].
    now rewrite (proj2 (sqlite_integer_false credit_day) Hint).
Qed.

Lemma update_profile_stores_witness :
  let asha := User.mk 1 "asha" "secret" 8 in
  load_user demo_db (Some 1) = Some asha /\
  load_user (fst (update_profile (Some 1) (Parsed 99) demo_db)) (Some 1)
    = Some (User.mk 1 "asha" "secret" 99) /\
  load_user (fst (update_profile (Some 1) (Parsed (- 2 ^ 40)) demo_db)) (Some 1)
    = Some (User.mk 1 "asha" "secret" (- 2 ^ 40)) /\
  update_profile (Some 1) (Parsed (2 ^ 63)) demo_db
    = (demo_db, Raise OverflowError).
Proof.
  intros asha.
  assert (Hu : load_user demo_db (Some 1) = Some asha)
    by (vm_compute; reflexivity).
  split; [exact Hu|].
  split; [|split].
  - destruct (proj1 (update_profile_stores (Some 1) demo_db asha 99 Hu))
      as (_ & Hstored & _); [lia | exact Hstored].
  - destruct (proj1 (update_profile_stores (Some 1) demo_db asha (- 2 ^ 40)
                       Hu)) as (_ & Hstored & _); [lia | exact Hstored].
  - apply (proj1 (proj2 (update_profile_stores (Some 1) demo_db asha (2 ^ 63)
                           Hu))). lia.
Defined.

(** X12. A user whose stored anchor day is 0 or less is locked out of the
    views.  On any calendar date the home view, the budget page and the
    download of the current cycle raise the error of the date constructor for
    that day of month: [ValueError] for an anchor day from [- 2 ^ 31] on, and
    [OverflowError] for one below, which does not fit a C [int].  The
    download of a month with an allocation raises the same error, unless the
    date 32 days after the start of the allocation is past the end of the
    calendar: then the addition raises [OverflowError] first. *)
Theorem nonpositive_anchor_raises (hash : string -> string) (e : env)
  (session : option Z) (s : db) (current_user : User.t) :
  reachable hash s -> env_ok e ->
  load_user s session = Some current_user ->
  User.salary_credit_day current_user <= 0 ->
  let x := anchor_error (User.salary_credit_day current_user) in
  (- 2 ^ 31 <= User.salary_credit_day current_user -> x = ValueError) /\
  (User.salary_credit_day current_user < - 2 ^ 31 -> x = OverflowError) /\
  index e session s = (s, Raise x) /\
  (forall meth salary, set_budget e session meth salary s = (s, Raise x)) /\
  (forall year_ month_,
     nonzero year_ = None \/ nonzero month_ = None ->
     download_statement e session year_ month_ s = (s, Raise x)) /\
  (forall year_ month_ y m budget,
     nonzero year_ = Some y -> nonzero month_ = Some m ->
     budget_of_month s (User.id current_user) y m = Some budget ->
     download_statement e session year_ month_ s
     = (s, Raise (if year (landing (MonthlyBudget.month_start_date budget))
                     <=? Calendar.MAXYEAR
                  then x else OverflowError))).
Proof.
  intros Hreach He Hu Hd x.
  assert (Hres : get_current_cycle_start (clock_date e)
                   (User.salary_credit_day current_user) None
                 = Raise x)
    by (now apply (resolve_nonpositive _ (clock_date e))).
  split; [|split; [|split; [|split; [|split]]]].
  - intros Hlow. subst x. unfold anchor_error.
    now rewrite (proj2 (c_int_iff _)) by lia.
  - intros Hlow. subst x. unfold anchor_error.
    destruct (Date.c_int _) eqn:E; [|reflexivity].
    apply c_int_iff in E. lia.
  - unfold index, login_required. now rewrite Hu, Hres.
  - intros meth salary. unfold set_budget, login_required.
    now rewrite Hu, Hres.
  - intros year_ month_ Hnone.
    unfold download_statement, login_required. rewrite Hu, Hres. cbv zeta.
    destruct Hnone as [-> | Hm]; [reflexivity|].
    rewrite Hm. now destruct (nonzero year_).
  - intros year_ month_ y m budget Hy Hm Hb.
    unfold download_statement, login_required. rewrite Hu. cbv zeta.
    rewrite Hy, Hm, Hb. cbn [bind].
    assert (Hv : Date.valid (MonthlyBudget.month_start_date budget)).
    { unfold budget_of_month in Hb. apply find_some in Hb as [Hin _].
      now apply (rows_sound_of_reachable hash s Hreach). }
    rewrite add_days_32 by assumption.
    destruct (year (landing (MonthlyBudget.month_start_date budget))
              <=? Calendar.MAXYEAR) eqn:Hland; cbn [bind]; [|reflexivity].
    change (get_current_cycle_start (clock_date e)
              (User.salary_credit_day current_user)
              (Some (landing (MonthlyBudget.month_start_date budget))))
      with (resolve (User.salary_credit_day current_user)
              (landing (MonthlyBudget.month_start_date budget))).
    rewrite resolve_nonpositive; [reflexivity | assumption |].
    apply landing_valid; [assumption|]. now apply Z.leb_le in Hland.
Qed.

Lemma nonpositive_anchor_raises_witness :
  let s := fst (update_profile (Some 1) (Parsed 0) demo_db) in
  let s2 := fst (update_profile (Some 1) (Parsed (- 2 ^ 40)) demo_db) in
  reachable demo_hash s /\ reachable demo_hash s2 /\
  env_ok (demo_clock 2024 3 9) /\
  load_user s (Some 1) = Some (User.mk 1 "asha" "secret" 0) /\
  load_user s2 (Some 1) = Some (User.mk 1 "asha" "secret" (- 2 ^ 40)) /\
  index (demo_clock 2024 3 9) (Some 1) s = (s, Raise ValueError) /\
  download_statement (demo_clock 2024 3 9) (Some 1) (Some 2024) (Some 2) s
    = (s, Raise ValueError) /\
  index (demo_clock 2024 3 9) (Some 1) s2 = (s2, Raise OverflowError).
Proof.
  intros s s2.
  assert (Hdemo : reachable demo_hash demo_db).
  { unfold demo_db, demo_requests, serve. cbn [fold_left fst snd].
    repeat (apply reachable_step; [reflexivity|]). apply reachable_empty. }
  assert (Hreach : reachable demo_hash s).
  { apply (reachable_step demo_hash (demo_clock 2024 3 9)
             (ReqUpdateProfile (Some 1) (Parsed 0)) demo_db);
      [reflexivity | exact Hdemo]. }
  assert (Hreach2 : reachable demo_hash s2).
  { apply (reachable_step demo_hash (demo_clock 2024 3 9)
             (ReqUpdateProfile (Some 1) (Parsed (- 2 ^ 40))) demo_db);
      [reflexivity | exact Hdemo]. }
  assert (Hu : load_user s (Some 1) = Some (User.mk 1 "asha" "secret" 0))
    by (vm_compute; reflexivity).
  assert (Hu2 : load_user s2 (Some 1)
                = Some (User.mk 1 "asha" "secret" (- 2 ^ 40)))
    by (vm_compute; reflexivity).
  split; [exact Hreach|]. split; [exact Hreach2|]. split; [reflexivity|].
  split; [exact Hu|]. split; [exact Hu2|].
  destruct (nonpositive_anchor_raises demo_hash (demo_clock 2024 3 9) (Some 1)
              s _ Hreach eq_refl Hu)
    as (_ & _ & Hix & _ & _ & Hmonth); [cbn; lia|].
  destruct (nonpositive_anchor_raises demo_hash (demo_clock 2024 3 9) (Some 1)
              s2 _ Hreach2 eq_refl Hu2)
    as (_ & _ & Hix2 & _); [cbn; lia|].
  split; [exact Hix|]. split; [|exact Hix2].
  rewrite (Hmonth (Some 2024) (Some 2) 2024 2
             (MonthlyBudget.mk 1 1 (mkdate 2024 2 8) 1000%float));
    [reflexivity | reflexivity | reflexivity | vm_compute; reflexivity].
Defined.

(** * The order of the rows shown *)

Section Sorting.
Context {A : Type} (le : A -> A -> bool).
Hypothesis le_total : forall a b, le a b = true \/ le b a = true.

Let R (a b : A) : Prop := le a b = true.

Lemma insert_by_HdRel x a l :
  R a x -> HdRel R a l -> HdRel R a (insert_by le x l).
Proof.
  intros Hax Hl. destruct l as [|y l]; cbn [insert_by]; [now constructor|].
  destruct (le x y); constructor; [assumption|].
  now inversion Hl.
Qed.

Lemma insert_by_sorted x l : Sorted R l -> Sorted R (insert_by le x l).
Proof.
  induction 1 as [|y l Hs IH Hhd]; cbn [insert_by].
  - repeat constructor.
  - destruct (le x y) eqn:Hxy.
    + constructor; [now constructor|]. now constructor.
    + constructor; [assumption|].
      apply insert_by_HdRel; [|assumption].
      destruct (le_total x y) as [H | H]; [congruence | exact H].
Qed.

Lemma order_by_sorted l : Sorted R (order_by le l).
Proof.
  unfold order_by. induction l as [|x l IH]; cbn [fold_right];
    [constructor|]. now apply insert_by_sorted.
Qed.

End Sorting.

Section Orders.

Lemma date_cmp_antisym a b : Date.cmp b a = CompOpp (Date.cmp a b).
Proof.
  unfold Date.cmp.
  rewrite (Z.compare_antisym (year a) (year b)),
    (Z.compare_antisym (month a) (month b)),
    (Z.compare_antisym (day a) (day b)).
  destruct (year a ?= year b); cbn [CompOpp]; try reflexivity.
  destruct (month a ?= month b); reflexivity.
Qed.

Lemma time_cmp_antisym a b : Time.cmp b a = CompOpp (Time.cmp a b).
Proof.
  unfold Time.cmp.
  rewrite (Z.compare_antisym (hour a) (hour b)),
    (Z.compare_antisym (minute a) (minute b)),
    (Z.compare_antisym (second a) (second b)),
    (Z.compare_antisym (microsecond a) (microsecond b)).
  destruct (hour a ?= hour b); cbn [CompOpp]; try reflexivity.
  destruct (minute a ?= minute b); cbn [CompOpp]; try reflexivity.
  destruct (second a ?= second b); reflexivity.
Qed.

Lemma date_cmp_eq a b : Date.cmp a b = Eq -> a = b.
Proof.
  intros H. apply date_eqb_eq. unfold Date.eqb. now rewrite H.
Qed.

Lemma date_cmp_gt a b : Date.cmp a b = Gt -> Date.lt b a.
Proof.
  intros H. unfold Date.lt, Date.ltb. rewrite date_cmp_antisym, H.
  reflexivity.
Qed.

Lemma date_asc_total a b : date_asc a b = true \/ date_asc b a = true.
Proof.
  unfold date_asc. fold (Date.le (Transaction.date a) (Transaction.date b)).
  fold (Date.le (Transaction.date b) (Transaction.date a)).
  rewrite !date_le_iff. lia.
Qed.

Lemma date_time_desc_total a b :
  date_time_desc a b = true \/ date_time_desc b a = true.
Proof.
  unfold date_time_desc, Time.geb.
  rewrite (date_cmp_antisym (Transaction.date a) (Transaction.date b)),
    (time_cmp_antisym (Transaction.time a) (Transaction.time b)).
  destruct (Date.cmp _ _); cbn [CompOpp]; auto.
  destruct (Time.cmp _ _); cbn [CompOpp]; auto.
Qed.

Lemma start_desc_total a b : start_desc a b = true \/ start_desc b a = true.
Proof.
  unfold start_desc, Date.geb.
  fold (Date.le (MonthlyBudget.month_start_date b) (MonthlyBudget.month_start_date a)).
  fold (Date.le (MonthlyBudget.month_start_date a) (MonthlyBudget.month_start_date b)).
  rewrite !date_le_iff. lia.
Qed.

Lemma date_time_desc_spec a b :
  date_time_desc a b = true ->
  Date.lt (Transaction.date b) (Transaction.date a) \/
  (Transaction.date a = Transaction.date b /\
   Time.geb (Transaction.time a) (Transaction.time b) = true).
Proof.
  unfold date_time_desc.
  destruct (Date.cmp _ _) eqn:E; [| discriminate |].
  - intros H. right. split; [now apply date_cmp_eq | exact H].
  - intros _. left. now apply date_cmp_gt.
Qed.

Lemma Sorted_impl {A : Type} (R R' : A -> A -> Prop) l :
  (forall a b, R a b -> R' a b) -> Sorted R l -> Sorted R' l.
Proof.
  intros Himp. induction 1 as [|a l Hs IH Hhd]; constructor; [assumption|].
  destruct Hhd; constructor. now apply Himp.
Qed.

End Orders.

(** X13. A statement lists its transactions in the order of their dates,
    earliest first; the home view lists its transactions latest first, by date
    and, within a date, by time. *)
Theorem views_sorted (e : env) (session : option Z) (s : db) :
  (forall year_ month_ s' st,
     download_statement e session year_ month_ s
       = (s', Ok (SendStatement st)) ->
     Sorted (fun a b => Date.le (Transaction.date a) (Transaction.date b))
       (st_transactions st)) /\
  (forall s' ctx,
     index e session s = (s', Ok (RenderIndex ctx)) ->
     Sorted (fun a b =>
               Date.lt (Transaction.date b) (Transaction.date a) \/
               (Transaction.date a = Transaction.date b /\
                Time.geb (Transaction.time a) (Transaction.time b) = true))
       (ix_transactions ctx)).
Proof.
  split.
  - intros year_ month_ s' st Hst.
    apply download_statement_sent in Hst
      as (u & b & nmd & ncs & _ & _ & _ & _ & _ & _ & Hst).
    cbv zeta in Hst. rewrite Hst. cbn [st_transactions].
    apply (order_by_sorted date_asc date_asc_total).
  - intros s' ctx Hctx.
    apply index_rendered in Hctx as (u & _ & _ & _ & _ & Hctx).
    cbv zeta in Hctx. rewrite Hctx. cbn [ix_transactions].
    apply (Sorted_impl (fun a b => date_time_desc a b = true)).
    + apply date_time_desc_spec.
    + apply (order_by_sorted date_time_desc date_time_desc_total).
Qed.

Lemma views_sorted_witness :
  exists ctx,
    index (demo_clock 2024 3 4) (Some 1) demo_db
      = (demo_db, Ok (RenderIndex ctx)) /\
    map Transaction.date (ix_transactions ctx)
      = [mkdate 2024 3 8; mkdate 2024 3 5; mkdate 2024 2 10] /\
    Sorted (fun a b =>
              Date.lt (Transaction.date b) (Transaction.date a) \/
              (Transaction.date a = Transaction.date b /\
               Time.geb (Transaction.time a) (Transaction.time b) = true))
      (ix_transactions ctx).
Proof.
  eexists. split; [vm_compute; reflexivity|]. split; [reflexivity|].
  apply (proj2 (views_sorted (demo_clock 2024 3 4) (Some 1) demo_db) demo_db).
  vm_compute. reflexivity.
Defined.

(** X14. The budgets offered in every page are exactly the allocations of
    the logged-in user, latest start first, and none without a session; in a
    state the system reaches, the download of the month of any of them finds
    an allocation of the user that starts in that month. *)
Theorem inject_budgets_lists (hash : string -> string) (session : option Z)
  (s : db) :
  (load_user s session = None -> inject_budgets session s = []) /\
  (forall current_user,
     load_user s session = Some current_user ->
     (forall b, In b (inject_budgets session s) <->
                In b (budgets s) /\
                MonthlyBudget.user_id b = User.id current_user) /\
     Sorted (fun a b => Date.le (MonthlyBudget.month_start_date b)
                          (MonthlyBudget.month_start_date a))
       (inject_budgets session s) /\
     (reachable hash s ->
      forall b, In b (inject_budgets session s) ->
        let y := year (MonthlyBudget.month_start_date b) in
        let m := month (MonthlyBudget.month_start_date b) in
        nonzero (Some y) = Some y /\ nonzero (Some m) = Some m /\
        exists first,
          budget_of_month s (User.id current_user) y m = Some first /\
          In first (inject_budgets session s) /\
          year (MonthlyBudget.month_start_date first) = y /\
          month (MonthlyBudget.month_start_date first) = m)).
Proof.
  split.
  - intros Hu. unfold inject_budgets. now rewrite Hu.
  - intros u Hu. unfold inject_budgets. rewrite Hu.
    assert (Hin : forall b,
              In b (order_by start_desc
                      (filter (fun b => MonthlyBudget.user_id b =? User.id u)
                         (budgets s))) <->
              In b (budgets s) /\ MonthlyBudget.user_id b = User.id u).
    { intros b. rewrite order_by_In, filter_In, Z.eqb_eq. tauto. }
    split; [exact Hin|]. split.
    + apply (order_by_sorted start_desc start_desc_total).
    + intros Hreach b Hb.
      set (y := year (MonthlyBudget.month_start_date b)).
      set (m := month (MonthlyBudget.month_start_date b)).
      apply Hin in Hb as [Hb Huid].
      destruct (rows_sound_of_reachable hash s Hreach) as [Hsound _].
      destruct (Hsound b Hb) as [_ Hv].
      apply valid_iff in Hv as (Hy & Hm & _). fold y in Hy. fold m in Hm.
      unfold nonzero.
      destruct (Z.eqb_spec y 0); [lia|]. destruct (Z.eqb_spec m 0); [lia|].
      split; [reflexivity|]. split; [reflexivity|].
      destruct (budget_of_month s (User.id u) y m) as [first|] eqn:Hfirst.
      * exists first. split; [reflexivity|].
        unfold budget_of_month in Hfirst.
        apply find_some in Hfirst as [Hfin Hfm].
        apply andb_prop in Hfm as [Hfm Hm3]. apply andb_prop in Hfm as [Hm1 Hm2].
        apply Z.eqb_eq in Hm1, Hm2, Hm3.
        split; [apply Hin; auto | auto].
      * exfalso. unfold budget_of_month in Hfirst.
        pose proof (find_none _ _ Hfirst b Hb) as Hno. cbv beta in Hno.
        subst y m. now rewrite Huid, !Z.eqb_refl in Hno.
Qed.

Lemma inject_budgets_lists_witness :
  reachable demo_hash demo_db /\
  exists current_user,
    load_user demo_db (Some 1) = Some current_user /\
    map MonthlyBudget.month_start_date (inject_budgets (Some 1) demo_db)
      = [mkdate 2024 3 8; mkdate 2024 2 8] /\
    Sorted (fun a b => Date.le (MonthlyBudget.month_start_date b)
                         (MonthlyBudget.month_start_date a))
      (inject_budgets (Some 1) demo_db).
Proof.
  assert (Hreach : reachable demo_hash demo_db).
  { unfold demo_db, demo_requests, serve. cbn [fold_left fst snd].
    repeat (apply reachable_step; [reflexivity|]). apply reachable_empty. }
  split; [exact Hreach|].
  assert (Hu : { u | load_user demo_db (Some 1) = Some u })
    by (eexists; vm_compute; reflexivity).
  destruct Hu as [u Hu]. exists u. split; [exact Hu|].
  split; [vm_compute; reflexivity|].
  apply (proj2 (inject_budgets_lists demo_hash (Some 1) demo_db) u Hu).
Defined.

(** * Accounts *)

Section Accounts.

Lemma user_of_name_none_existsb s name :
  user_of_name s (Some name) = None ->
  existsb (fun u => String.eqb (User.username u) name) (users s) = false.
Proof.
  intros Hname. apply not_true_is_false. intros Hex.
  apply existsb_exists in Hex as (u & Hin & Hu).
  unfold user_of_name in Hname.
  rewrite (find_none _ _ Hname u Hin) in Hu. discriminate.
Qed.

Lemma user_of_name_some_existsb s name u :
  user_of_name s (Some name) = Some u ->
  existsb (fun u => String.eqb (User.username u) name) (users s) = true.
Proof.
  intros Hname. unfold user_of_name in Hname.
  apply find_some in Hname as [Hin Hu].
  apply existsb_exists. now exists u.
Qed.

(** The user row a registration writes, whatever happens after. *)
Lemma register_users hash e name pw salary credit_day s :
  user_of_name s (Some name) = None ->
  - 2 ^ 63 <= credit_day < 2 ^ 63 ->
  users (fst (register hash e POST (Some name) (Some pw) salary
                (Parsed credit_day) s))
  = users s ++ [User.mk (next_id (map User.id (users s))) name (hash pw)
                  credit_day].
Proof.
  intros Hname Hint. unfold register.
  rewrite (user_of_name_none_existsb s name Hname). cbn [convert].
  rewrite (proj2 (sqlite_integer_iff credit_day) Hint). cbn [negb].
  destruct (get_current_cycle_start _ _ None); [|reflexivity].
  destruct (convert salary) as [credited|]; [|reflexivity].
  now destruct (negb (sqlite_float credited)).
Qed.

(** A registration with an anchor day that does not fit the integer column
    writes nothing. *)
Lemma register_overflow hash e name pw salary credit_day s :
  user_of_name s (Some name) = None ->
  credit_day < - 2 ^ 63 \/ 2 ^ 63 <= credit_day ->
  register hash e POST (Some name) (Some pw) salary (Parsed credit_day) s
  = (s, Raise OverflowError).
Proof.
  intros Hname Hint. unfold register.
  rewrite (user_of_name_none_existsb s name Hname). cbn [convert].
  now rewrite (proj2 (sqlite_integer_false credit_day) Hint).
Qed.

End Accounts.

(** X15. Once a registration under a new name has written the user, whether
    or not it went on to write the allocation, a login with that name checks
    the password against the hash stored at the registration: it is answered
    with the redirect to the home view for that user when the check accepts,
    with the login page and the notice when it rejects, and with the check's
    exception when it raises.  The user is written when the anchor day fits
    the integer column; when it does not, no user is written and a login with
    that name gets the page and the notice.  A name of no user gets the page
    and the notice without the password being looked at.  No login writes to
    the database. *)
Theorem register_then_login (hash : string -> string)
  (check : string -> option string -> result bool) (e : env) (s : db)
  (name pw : string) (salary : field float) (credit_day : Z) :
  user_of_name s (Some name) = None ->
  let s' := fst (register hash e POST (Some name) (Some pw) salary
                   (Parsed credit_day) s) in
  (- 2 ^ 63 <= credit_day < 2 ^ 63 ->
   forall attempt,
     login check POST (Some name) attempt s'
     = (s', match check (hash pw) attempt with
            | Ok true =>
                Ok (LoginRedirect ep_index (next_id (map User.id (users s))))
            | Ok false => Ok (LoginPage true)
            | Raise x => Raise x
            end)) /\
  (credit_day < - 2 ^ 63 \/ 2 ^ 63 <= credit_day ->
   s' = s /\
   forall attempt,
     login check POST (Some name) attempt s' = (s', Ok (LoginPage true))) /\
  (forall other password,
     user_of_name s' other = None ->
     login check POST other password s' = (s', Ok (LoginPage true))) /\
  (forall meth username password,
     fst (login check meth username password s') = s').
Proof.
  intros Hname s'.
  split; [|split; [|split]].
  - intros Hint attempt.
    assert (Hfound : user_of_name s' (Some name)
                     = Some (User.mk (next_id (map User.id (users s))) name
                               (hash pw) credit_day)).
    { unfold user_of_name. subst s'. rewrite register_users by assumption.
      rewrite find_app. unfold user_of_name in Hname. rewrite Hname.
      cbn [find User.username]. now rewrite String.eqb_refl. }
    unfold login. rewrite Hfound.
    cbn [User.password_hash User.id].
    now destruct (check (hash pw) attempt) as [[|]|].
  - intros Hint.
    assert (Hs : s' = s)
      by (subst s'; now rewrite register_overflow by assumption).
    split; [exact Hs|]. intros attempt. rewrite Hs.
    unfold login. now rewrite Hname.
  - intros other password Hother. unfold login. now rewrite Hother.
  - intros meth username password. unfold login.
    destruct meth; [reflexivity|].
    destruct (user_of_name s' username) as [u|]; [|reflexivity].
    now destruct (check (User.password_hash u) password) as [[|]|].
Qed.

Lemma register_then_login_witness :
  user_of_name demo_db (Some "ravi"%string) = None /\
  login demo_check POST (Some "ravi"%string) (Some "pw"%string)
    (fst (register demo_hash (demo_clock 2024 4 9) POST (Some "ravi"%string)
            (Some "pw"%string) (Parsed 800%float) (Parsed 31) demo_db))
  = (fst (register demo_hash (demo_clock 2024 4 9) POST (Some "ravi"%string)
            (Some "pw"%string) (Parsed 800%float) (Parsed 31) demo_db),
     Ok (LoginRedirect ep_index 2)) /\
  login demo_check POST (Some "ravi"%string) (Some "pw"%string)
    (fst (register demo_hash (demo_clock 2024 4 9) POST (Some "ravi"%string)
            (Some "pw"%string) (Parsed 800%float) (Parsed (2 ^ 63)) demo_db))
  = (fst (register demo_hash (demo_clock 2024 4 9) POST (Some "ravi"%string)
            (Some "pw"%string) (Parsed 800%float) (Parsed (2 ^ 63)) demo_db),
     Ok (LoginPage true)).
Proof.
  split; [reflexivity|]. split.
  - apply (proj1 (register_then_login demo_hash demo_check
                    (demo_clock 2024 4 9) demo_db "ravi"%string "pw"%string
                    (Parsed 800%float) 31 eq_refl)). lia.
  - apply (proj1 (proj2 (register_then_login demo_hash demo_check
                           (demo_clock 2024 4 9) demo_db "ravi"%string
                           "pw"%string (Parsed 800%float) (2 ^ 63) eq_refl))).
    lia.
Defined.

(** X16. What a registration leaves behind when it fails.  A taken name is
    turned away with a notice and no write.  Under a new name, an anchor day
    that does not parse, or does not fit the integer column
    ([OverflowError]), raises before any write.  When the anchor day is
    stored but the resolver raises, or the salary does not parse or is not a
    number ([IntegrityError]), the user row is already written and stays
    without an allocation, the exception is raised, and a second registration
    under the same name is turned away as taken.  On a calendar date the
    resolver raises for every stored anchor day of 0 or less: [ValueError]
    from [- 2 ^ 31] on and [OverflowError] below. *)
Theorem register_failures (hash : string -> string) (e : env) (s : db)
  (name pw : string) :
  (forall existing password salary billing_cycle,
     user_of_name s (Some name) = Some existing ->
     register hash e POST (Some name) password salary billing_cycle s
     = (s, Ok (Redirect ep_register [UsernameExists] None))) /\
  (user_of_name s (Some name) = None ->
   (forall salary billing_cycle x,
      convert billing_cycle = Raise x ->
      register hash e POST (Some name) (Some pw) salary billing_cycle s
      = (s, Raise x)) /\
   (forall salary credit_day,
      credit_day < - 2 ^ 63 \/ 2 ^ 63 <= credit_day ->
      register hash e POST (Some name) (Some pw) salary (Parsed credit_day) s
      = (s, Raise OverflowError)) /\
   (forall salary credit_day x,
      - 2 ^ 63 <= credit_day < 2 ^ 63 ->
      (get_current_cycle_start (clock_date e) credit_day None = Raise x \/
       (exists cycle_start,
          get_current_cycle_start (clock_date e) credit_day None
            = Ok cycle_start) /\
       (convert salary = Raise x \/
        exists credited,
          salary = Parsed credited /\ PrimFloat.is_nan credited = true /\
          x = IntegrityError)) ->
      let user :=
        User.mk (next_id (map User.id (users s))) name (hash pw) credit_day in
      let s' := mkdb (users s ++ [user]) (budgets s) (transactions s) in
      register hash e POST (Some name) (Some pw) salary (Parsed credit_day) s
      = (s', Raise x) /\
      forall password2 salary2 billing_cycle2,
        register hash e POST (Some name) password2 salary2 billing_cycle2 s'
        = (s', Ok (Redirect ep_register [UsernameExists] None))) /\
   (forall credit_day,
      env_ok e -> credit_day <= 0 ->
      get_current_cycle_start (clock_date e) credit_day None
      = Raise (if - 2 ^ 31 <=? credit_day then ValueError
               else OverflowError))).
Proof.
  split.
  - intros existing password salary billing_cycle Hname. unfold register.
    now rewrite (user_of_name_some_existsb s name existing Hname).
  - intros Hname.
    pose proof (user_of_name_none_existsb s name Hname) as Hex.
    split; [|split; [|split]].
    + intros salary billing_cycle x Hconv. unfold register.
      now rewrite Hex, Hconv.
    + intros salary credit_day Hint. now apply register_overflow.
    + intros salary credit_day x Hint Hfail user s'. split.
      * unfold register. rewrite Hex. cbn [convert].
        rewrite (proj2 (sqlite_integer_iff credit_day) Hint). cbn [negb].
        destruct Hfail as [Hres | [[cs Hres] [Hsal | (c & -> & Hnan & ->)]]];
          rewrite Hres; [reflexivity | now rewrite Hsal |].
        cbn [convert].
        now rewrite (proj2 (sqlite_float_false c) Hnan).
      * intros password2 salary2 billing_cycle2. unfold register.
        assert (Htaken : existsb
                  (fun u => String.eqb (User.username u) name) (users s')
                  = true).
        { apply existsb_exists. exists user. split.
          - subst s'. cbn [users]. apply in_or_app. right. now left.
          - apply String.eqb_refl. }
        now rewrite Htaken.
    + intros credit_day He Hd.
      change (get_current_cycle_start (clock_date e) credit_day None)
        with (resolve credit_day (clock_date e)).
      rewrite resolve_nonpositive by assumption.
      unfold anchor_error, Date.c_int.
      destruct (Z.leb_spec (- 2 ^ 31) credit_day) as [Hlow | Hlow];
        cbn [andb]; [|reflexivity].
      now rewrite (proj2 (Z.ltb_lt credit_day (2 ^ 31))) by lia.
Qed.

Lemma register_failures_witness :
  user_of_name demo_db (Some "ravi"%string) = None /\
  convert (@Malformed float) = Raise ValueError /\
  (exists s',
     register demo_hash (demo_clock 2024 4 9) POST (Some "ravi"%string)
       (Some "pw"%string) Malformed (Parsed 31) demo_db
     = (s', Raise ValueError) /\
     List.length (users s') = 2%nat /\ budgets s' = budgets demo_db /\
     register demo_hash (demo_clock 2024 4 9) POST (Some "ravi"%string)
       (Some "pw"%string) (Parsed 800%float) (Parsed 31) s'
     = (s', Ok (Redirect ep_register [UsernameExists] None))) /\
  (exists s',
     register demo_hash (demo_clock 2024 4 9) POST (Some "ravi"%string)
       (Some "pw"%string) (Parsed nan) (Parsed 31) demo_db
     = (s', Raise IntegrityError) /\
     List.length (users s') = 2%nat /\ budgets s' = budgets demo_db) /\
  (exists s',
     register demo_hash (demo_clock 2024 4 9) POST (Some "ravi"%string)
       (Some "pw"%string) (Parsed 800%float) (Parsed (- 2 ^ 40)) demo_db
     = (s', Raise OverflowError) /\
     List.length (users s') = 2%nat /\ budgets s' = budgets demo_db) /\
  register demo_hash (demo_clock 2024 4 9) POST (Some "ravi"%string)
    (Some "pw"%string) (Parsed 800%float) (Parsed (2 ^ 63)) demo_db
  = (demo_db, Raise OverflowError).
Proof.
  split; [reflexivity|]. split; [reflexivity|].
  destruct (proj2 (register_failures demo_hash (demo_clock 2024 4 9)
                     demo_db "ravi"%string "pw"%string) eq_refl)
    as (_ & Hover & Hfails & Hanchor).
  split; [|split; [|split]].
  - destruct (Hfails Malformed 31 ValueError) as [Hfail Hretry]; [lia | |].
    { right. split; [eexists; vm_compute; reflexivity | now left]. }
    eexists. split; [exact Hfail|]. split; [reflexivity|].
    split; [reflexivity|]. apply Hretry.
  - destruct (Hfails (Parsed nan) 31 IntegrityError) as [Hfail _]; [lia | |].
    { right. split; [eexists; vm_compute; reflexivity|].
      right. exists nan. repeat split. }
    eexists. split; [exact Hfail|]. split; reflexivity.
  - destruct (Hfails (Parsed 800%float) (- 2 ^ 40) OverflowError)
      as [Hfail _]; [lia | |].
    { left. now rewrite (Hanchor (- 2 ^ 40)) by (reflexivity || lia). }
    eexists. split; [exact Hfail|]. split; reflexivity.
  - apply Hover. lia.
Defined.

Section CurrentCycle.

(** The end of the statement of a cycle start, for the anchor day the cycle
    start was resolved with. *)
Lemma resolve_landing d s t' n :
  1 <= d -> Date.valid s -> day s = target_day d (year s) (month s) ->
  Date.add_days s 32 = Ok t' -> resolve d t' = Ok n ->
  n = next_cycle_start_of d s.
Proof.
  intros Hd Hv Hfix Hadd Hres.
  apply add_days_32_inv in Hadd as [-> Hland]; [|assumption].
  pose proof (next_cycle_start_valid d s Hd Hv Hland) as Hnv.
  pose proof (next_cycle_start_day d s) as Hnfix.
  pose proof (landing_in_next_cycle d s Hd Hv Hfix Hland) as Hin.
  pose proof (landing_valid s Hv Hland) as Hlv.
  assert (Hnb : before_first_month d (landing s) = false)
    by (apply (not_before_first_month d (next_cycle_start_of d s)); tauto).
  rewrite resolve_eq, Hnb in Hres by assumption. injection Hres as <-.
  now apply resolve_design_cycle.
Qed.

End CurrentCycle.

(** X17. As long as no transaction is dated after the clock's date, the
    home view and the statement of the current cycle are about the same
    allocation, the same cycle start and the same transactions, the home view
    listing them latest first and the statement earliest first. *)
Theorem index_matches_current_statement (e : env) (session : option Z)
  (s : db) (ctx : index_context) (st : statement) :
  env_ok e ->
  (forall t, In t (transactions s) ->
             Date.le (Transaction.date t) (clock_date e)) ->
  index e session s = (s, Ok (RenderIndex ctx)) ->
  download_statement e session None None s = (s, Ok (SendStatement st)) ->
  st_budget st = ix_budget ctx /\
  st_cycle_start st = ix_cycle_start ctx /\
  Permutation (st_transactions st) (ix_transactions ctx).
Proof.
  intros He Hpast Hctx Hst.
  apply index_rendered in Hctx as (u & _ & Hu & Hres & Hb & Hctx).
  cbv zeta in Hctx.
  pose proof (download_statement_budget _ _ _ _ _ _ _ Hst)
    as (u' & Hu' & _ & _ & _ & _ & Hb' & Hres').
  cbn [nonzero] in Hb', Hres'.
  rewrite Hu in Hu'. injection Hu' as <-.
  rewrite Hres in Hres'. injection Hres' as Hcs.
  rewrite <- Hcs in Hb'. rewrite Hb in Hb'. injection Hb' as Hbudget.
  split; [now symmetry|]. split; [now symmetry|].
  apply download_statement_sent in Hst
    as (u' & b & nmd & ncs & _ & Hu' & _ & _ & Hadd & Hncs & Hst).
  cbv zeta in Hst. rewrite Hu in Hu'. injection Hu' as <-.
  rewrite <- Hcs in Hadd, Hst.
  assert (Hd : 1 <= User.salary_credit_day u).
  { destruct (Z_le_gt_dec (User.salary_credit_day u) 0); [|lia].
    rewrite resolve_nonpositive in Hres by assumption. discriminate. }
  destruct (resolve_in_cycle _ _ _ Hd He Hres) as (Hv & Hfix & _ & Hlt).
  pose proof (resolve_landing _ _ _ _ Hd Hv Hfix Hadd Hncs) as ->.
  assert (Htx : ix_transactions ctx =
                order_by date_time_desc
                  (filter (in_open_cycle (User.id u) (ix_cycle_start ctx))
                     (transactions s)))
    by (rewrite Hctx at 1; reflexivity).
  rewrite Htx, Hst. cbn [st_transactions]. rewrite !order_by_perm.
  replace (filter (in_statement (User.id u) (ix_cycle_start ctx)
                     (next_cycle_start_of (User.salary_credit_day u)
                        (ix_cycle_start ctx))) (transactions s))
    with (filter (in_open_cycle (User.id u) (ix_cycle_start ctx))
            (transactions s)); [reflexivity|].
  apply filter_ext_in. intros t Hin.
  unfold in_statement. fold (in_open_cycle (User.id u) (ix_cycle_start ctx) t).
  assert (Hbefore : Date.ltb (Transaction.date t)
                      (next_cycle_start_of (User.salary_credit_day u)
                         (ix_cycle_start ctx)) = true).
  { apply (date_le_lt_trans _ (clock_date e)); [now apply Hpast | exact Hlt]. }
  now rewrite Hbefore, andb_true_r.
Qed.

Lemma index_matches_current_statement_witness :
  env_ok (demo_clock 2024 3 9) /\
  (forall t, In t (transactions demo_db) ->
             Date.le (Transaction.date t) (clock_date (demo_clock 2024 3 9))) /\
  exists ctx st,
    index (demo_clock 2024 3 9) (Some 1) demo_db
      = (demo_db, Ok (RenderIndex ctx)) /\
    download_statement (demo_clock 2024 3 9) (Some 1) None None demo_db
      = (demo_db, Ok (SendStatement st)) /\
    st_budget st = ix_budget ctx /\
    Permutation (st_transactions st) (ix_transactions ctx).
Proof.
  split; [reflexivity|].
  assert (Hpast : forall t, In t (transactions demo_db) ->
            Date.le (Transaction.date t) (clock_date (demo_clock 2024 3 9))).
  { intros t Hin. vm_compute in Hin.
    destruct Hin as [<- | [<- | [<- | []]]]; reflexivity. }
  split; [exact Hpast|].
  assert (Hctx : { ctx | index (demo_clock 2024 3 9) (Some 1) demo_db
                         = (demo_db, Ok (RenderIndex ctx)) })
    by (eexists; vm_compute; reflexivity).
  destruct Hctx as [ctx Hctx].
  assert (Hst : { st | download_statement (demo_clock 2024 3 9) (Some 1)
                         None None demo_db
                       = (demo_db, Ok (SendStatement st)) })
    by (eexists; vm_compute; reflexivity).
  destruct Hst as [st Hst].
  destruct (index_matches_current_statement (demo_clock 2024 3 9) (Some 1)
              demo_db ctx st eq_refl Hpast Hctx Hst) as (Hb & _ & Hperm).
  exists ctx, st. auto.
Defined.
